(** * NuPlayer: the playback coordinator of libmediaplayerservice

    A shallow embedding of [media/libmediaplayerservice/nuplayer/NuPlayer.cpp]
    and the properties of its flush/shutdown state machine, its
    deferred-action queue, its generation protocol for decoder callbacks and
    its audio-offload handling.

    Conventions of the embedding.
    - The coordinator object is the record [NuPlayer]; member functions are
      computations in the monad [M], which threads the record and can abort
      (a failed [CHECK], a call through a null [sp<>], a division fault).
    - Calls made on collaborators (source, decoders, renderer, audio sink,
      driver, loopers) and messages posted to a looper are appended, in
      program order, to the [effects] field.  Pure queries on a collaborator
      read the collaborator's record and leave no effect.
    - Constants, enumerators and helper functions declared in headers that
      are not part of the translated file are the fields of the class
      [Platform]. *)

From Stdlib Require Import ZArith List String Ascii Bool Lia.
Import ListNotations.
Open Scope string_scope.
Open Scope list_scope.
Open Scope Z_scope.

Set Implicit Arguments.

(** ** Machine integers *)

(** Two's-complement reading of [z] on [w] bits. *)
Definition wrap_signed (w : Z) (z : Z) : Z :=
  (z + 2 ^ (w - 1)) mod 2 ^ w - 2 ^ (w - 1).

Definition int32 (z : Z) : Z := wrap_signed 32 z.
Definition int64 (z : Z) : Z := wrap_signed 64 z.
Definition uint32 (z : Z) : Z := z mod 2 ^ 32.

(** [++x] on an [int32_t] and on an [int64_t]. *)
Definition incr32 (z : Z) : Z := int32 (z + 1).
Definition incr64 (z : Z) : Z := int64 (z + 1).

Definition INT32_MIN : Z := - 2 ^ 31.
Definition INT64_MAX : Z := 2 ^ 63 - 1.

(** [status_t] values of [utils/Errors.h] and [errno.h]. *)
Definition status_t : Type := Z.
Definition OK : status_t := 0.
Definition EWOULDBLOCK : Z := 11.
Definition UNKNOWN_ERROR : status_t := INT32_MIN.

(** ** Messages and buffers (foundation/AMessage.h, foundation/ABuffer.h) *)

Inductive Item : Type :=
| ItemInt32 (v : Z)
| ItemInt64 (v : Z)
| ItemString (s : string)
| ItemRect (left top right bottom : Z)
| ItemMessage (m : AMessage)
| ItemBuffer (b : ABuffer)
with AMessage : Type :=
| Message (what : Z) (items : list (string * Item))
with ABuffer : Type :=
| Buffer (data : list Z) (meta : AMessage).

Definition what (m : AMessage) : Z := let 'Message w _ := m in w.
Definition items (m : AMessage) : list (string * Item) :=
  let 'Message _ l := m in l.
Definition data (b : ABuffer) : list Z := let 'Buffer d _ := b in d.
Definition meta (b : ABuffer) : AMessage := let 'Buffer _ m := b in m.

(** [AMessage::findItem]: the first item of that name. *)
Fixpoint findItem (name : string) (l : list (string * Item)) : option Item :=
  match l with
  | [] => None
  | (k, v) :: l' => if String.eqb k name then Some v else findItem name l'
  end.

Definition findInt32 (name : string) (m : AMessage) : option Z :=
  match findItem name (items m) with Some (ItemInt32 v) => Some v | _ => None end.
Definition findInt64 (name : string) (m : AMessage) : option Z :=
  match findItem name (items m) with Some (ItemInt64 v) => Some v | _ => None end.
Definition findString (name : string) (m : AMessage) : option string :=
  match findItem name (items m) with Some (ItemString v) => Some v | _ => None end.
Definition findMessage (name : string) (m : AMessage) : option AMessage :=
  match findItem name (items m) with Some (ItemMessage v) => Some v | _ => None end.
Definition findBuffer (name : string) (m : AMessage) : option ABuffer :=
  match findItem name (items m) with Some (ItemBuffer v) => Some v | _ => None end.
Definition findRect (name : string) (m : AMessage) : option (Z * Z * Z * Z) :=
  match findItem name (items m) with
  | Some (ItemRect l t r b) => Some (l, t, r, b)
  | _ => None
  end.

(** [AMessage::allocateItem]: an item of that name is overwritten in place,
    a new name is appended. *)
Fixpoint setItem (name : string) (v : Item) (l : list (string * Item))
  : list (string * Item) :=
  match l with
  | [] => [(name, v)]
  | (k, old) :: l' =>
      if String.eqb k name then (k, v) :: l' else (k, old) :: setItem name v l'
  end.

Definition setInt32 (name : string) (v : Z) (m : AMessage) : AMessage :=
  Message (what m) (setItem name (ItemInt32 v) (items m)).
Definition setBuffer (name : string) (b : ABuffer) (m : AMessage) : AMessage :=
  Message (what m) (setItem name (ItemBuffer b) (items m)).

(** [strcasecmp(a, b) == 0]. *)
Definition tolower (c : ascii) : ascii :=
  let n := nat_of_ascii c in
  if (Nat.leb 65 n && Nat.leb n 90)%bool then ascii_of_nat (n + 32) else c.

Fixpoint strcasecmp_eq (a b : string) : bool :=
  match a, b with
  | EmptyString, EmptyString => true
  | String x a', String y b' =>
      Ascii.eqb (tolower x) (tolower y) && strcasecmp_eq a' b'
  | _, _ => false
  end.

(** ** Collaborators *)

(** [MetaData] of a track, as handed out by the source. *)
Inductive MetaData : Type := TrackMeta (entries : list (string * Item)).

Definition Parcel : Type := list Z.

Record NativeWindowWrapper : Type := { windowId : Z }.

Inductive ALooper : Type := Looper (name : string).

(** [audio_offload_info_t] (system/audio.h). *)
Record audio_offload_info_t : Type := {
  version : Z;
  size : Z;
  sample_rate : Z;
  channel_mask : Z;
  format : Z;
  stream_type : Z;
  bit_rate : Z;
  duration_us : Z;
  has_video : bool;
  is_streaming : bool
}.

(** [memcmp(&a, &b, sizeof(a)) == 0] on two offload infos. *)
Definition offload_info_eqb (a b : audio_offload_info_t) : bool :=
  (version a =? version b) && (size a =? size b)
  && (sample_rate a =? sample_rate b) && (channel_mask a =? channel_mask b)
  && (format a =? format b) && (stream_type a =? stream_type b)
  && (bit_rate a =? bit_rate b) && (duration_us a =? duration_us b)
  && Bool.eqb (has_video a) (has_video b)
  && Bool.eqb (is_streaming a) (is_streaming b).

(** Arguments of [AudioSink::open]. *)
Record AudioSinkOpenArgs : Type := {
  openSampleRate : Z;
  openChannelCount : Z;
  openChannelMask : Z;
  openFormat : Z;
  openBufferCount : Z;
  openCallback : bool;   (* Renderer::AudioSinkCallback with the renderer as cookie *)
  openFlags : Z;
  openOffloadInfo : option audio_offload_info_t
}.

(** The audio sink: what its calls answer. *)
Record AudioSink : Type := {
  getAudioStreamType : Z;
  sinkOpen : AudioSinkOpenArgs -> status_t;
  sinkStart : status_t
}.

(** One answer of [Source::dequeueAccessUnit]: the status, and the access
    unit stored through the out-parameter, if the source stored one. *)
Definition DequeueResult : Type := (status_t * option ABuffer)%type.

(** The source.  [getFormat] and [getFormatMeta] are the virtual queries;
    each stream has a queue of pending answers to [dequeueAccessUnit], which
    hands out the front one; an empty queue answers [-EWOULDBLOCK].  An
    answer [OK] is expected to store an access unit. *)
Record Source : Type := {
  getFormatMeta : bool -> option MetaData;
  getFormat : bool -> option AMessage;
  getDuration : status_t * Z;
  feedMoreTSData : status_t;
  setBuffers : bool -> list ABuffer -> status_t;
  audioAccessUnits : list DequeueResult;
  videoAccessUnits : list DequeueResult
}.

Definition accessUnits (audio : bool) (s : Source) : list DequeueResult :=
  if audio then audioAccessUnits s else videoAccessUnits s.

Definition setAccessUnits (audio : bool) (q : list DequeueResult) (s : Source)
  : Source :=
  {| getFormatMeta := getFormatMeta s;
     getFormat := getFormat s;
     getDuration := getDuration s;
     feedMoreTSData := feedMoreTSData s;
     setBuffers := setBuffers s;
     audioAccessUnits := if audio then q else audioAccessUnits s;
     videoAccessUnits := if audio then videoAccessUnits s else q |}.

(** A decoder object: which class was constructed, and with what. *)
Record Decoder : Type := {
  decoderPassThrough : bool;       (* DecoderPassThrough rather than Decoder *)
  decoderNotify : AMessage;
  decoderNativeWindow : option NativeWindowWrapper
}.

Record CCDecoder : Type := {
  ccNotify : AMessage;
  isSelected : bool
}.

Record Renderer : Type := {
  rendererNotify : AMessage;
  rendererFlags : Z
}.

(** The weak reference [wp<NuPlayerDriver> mDriver]: never set, set but no
    longer promotable, or promotable. *)
Inductive WeakDriver : Type := DriverNull | DriverGone | DriverAlive.

(** ** Flush status and deferred actions (NuPlayer.h) *)

Inductive FlushStatus : Type :=
| NONE
| FLUSHING_DECODER
| FLUSHING_DECODER_SHUTDOWN
| FLUSHED
| SHUTTING_DOWN_DECODER
| SHUT_DOWN.

Definition FlushStatus_eqb (a b : FlushStatus) : bool :=
  match a, b with
  | NONE, NONE | FLUSHING_DECODER, FLUSHING_DECODER
  | FLUSHING_DECODER_SHUTDOWN, FLUSHING_DECODER_SHUTDOWN
  | FLUSHED, FLUSHED | SHUTTING_DOWN_DECODER, SHUTTING_DOWN_DECODER
  | SHUT_DOWN, SHUT_DOWN => true
  | _, _ => false
  end.

(** The member functions that the source wraps in a [SimpleAction]. *)
Inductive ActionFunc : Type :=
| performReset_fn
| performScanSources_fn
| performDecoderFlush_fn.

Inductive Action : Type :=
| SeekAction (mSeekTimeUs : Z)
| SetSurfaceAction (mWrapper : option NativeWindowWrapper)
| ShutdownDecoderAction (mAudio mVideo : bool)
| PostMessageAction (mMessage : AMessage)
| SimpleAction (mFunc : ActionFunc).

(** ** Observable effects *)

Inductive Effect : Type :=
| DriverNotifyListener (msg ext1 ext2 : Z) (parcel : option Parcel)
| DriverNotifyPosition (positionUs : Z)
| DriverNotifySeekComplete
| DriverNotifyResetComplete
| DriverNotifySetSurfaceComplete
| DriverNotifyFrameStats (total dropped : Z)
| SourceSeekTo (seekTimeUs : Z)
| SourceStop
| SourceFeedMoreTSData
| SourceSetBuffers (audio : bool) (buffers : list ABuffer)
| DecoderInit (d : Decoder)
| DecoderConfigure (d : Decoder) (fmt : AMessage)
| DecoderSignalFlush (d : Decoder) (newFormat : option AMessage)
| DecoderSignalResume (d : Decoder)
| DecoderInitiateShutdown (d : Decoder)
| DecoderSignalUpdateFormat (d : Decoder) (fmt : option AMessage)
| RendererFlush (audio : bool)
| RendererSignalTimeDiscontinuity
| RendererSignalDisableOffloadAudio
| RendererSignalAudioSinkChanged
| RendererQueueEOS (audio : bool) (finalResult : status_t)
| RendererQueueBuffer (audio : bool) (buffer : ABuffer) (reply : AMessage)
| LooperUnregisterHandler (l : ALooper) (r : Renderer)
| LooperStop (l : ALooper)
| AudioSinkClose
| AudioSinkOpen (args : AudioSinkOpenArgs)
| AudioSinkStart
| SendMetaDataToHal (m : option MetaData)
| CCDecoderDecode (accessUnit : ABuffer)
| CCDecoderDisplay (mediaTimeUs : Z)
| NativeWindowSetScalingMode (w : NativeWindowWrapper) (mode : Z)
| Post (m : AMessage) (delayUs : Z).

(** ** The coordinator object *)

Record NuPlayer : Type := mkNuPlayer {
  mDriver : WeakDriver;
  mSource : option Source;
  mSourceFlags : Z;
  mCurrentPositionUs : Z;
  mNativeWindow : option NativeWindowWrapper;
  mAudioSink : option AudioSink;
  mAudioDecoder : option Decoder;
  mVideoDecoder : option Decoder;
  mCCDecoder : option CCDecoder;
  mRenderer : option Renderer;
  mRendererLooper : option ALooper;
  mVideoIsAVC : bool;
  mOffloadAudio : bool;
  mCurrentOffloadInfo : audio_offload_info_t;
  mAudioDecoderGeneration : Z;
  mVideoDecoderGeneration : Z;
  mAudioEOS : bool;
  mVideoEOS : bool;
  mScanSourcesPending : bool;
  mScanSourcesGeneration : Z;
  mPollDurationGeneration : Z;
  mTimedTextGeneration : Z;
  mTimeDiscontinuityPending : bool;
  mFlushingAudio : FlushStatus;
  mFlushingVideo : FlushStatus;
  mSkipRenderingAudioUntilMediaTimeUs : Z;
  mSkipRenderingVideoUntilMediaTimeUs : Z;
  mVideoLateByUs : Z;
  mNumFramesTotal : Z;
  mNumFramesDropped : Z;
  mVideoScalingMode : Z;
  mStarted : bool;
  mDeferredActions : list Action;
  effects : list Effect
}.

(** Field assignments of the source ([mField = v]).  Each one rebuilds the
    record from the projections of [p], so reading a field of an updated
    player reduces by computation. *)
Definition set_mDriver (v : WeakDriver) (p : NuPlayer) : NuPlayer :=
  mkNuPlayer v (mSource p) (mSourceFlags p) (mCurrentPositionUs p)
    (mNativeWindow p) (mAudioSink p) (mAudioDecoder p) (mVideoDecoder p)
    (mCCDecoder p) (mRenderer p) (mRendererLooper p) (mVideoIsAVC p)
    (mOffloadAudio p) (mCurrentOffloadInfo p) (mAudioDecoderGeneration p)
    (mVideoDecoderGeneration p) (mAudioEOS p) (mVideoEOS p)
    (mScanSourcesPending p) (mScanSourcesGeneration p)
    (mPollDurationGeneration p) (mTimedTextGeneration p)
    (mTimeDiscontinuityPending p) (mFlushingAudio p) (mFlushingVideo p)
    (mSkipRenderingAudioUntilMediaTimeUs p)
    (mSkipRenderingVideoUntilMediaTimeUs p) (mVideoLateByUs p)
    (mNumFramesTotal p) (mNumFramesDropped p) (mVideoScalingMode p)
    (mStarted p) (mDeferredActions p) (effects p).
Definition set_mSource (v : option Source) (p : NuPlayer) : NuPlayer :=
  mkNuPlayer (mDriver p) v (mSourceFlags p) (mCurrentPositionUs p)
    (mNativeWindow p) (mAudioSink p) (mAudioDecoder p) (mVideoDecoder p)
    (mCCDecoder p) (mRenderer p) (mRendererLooper p) (mVideoIsAVC p)
    (mOffloadAudio p) (mCurrentOffloadInfo p) (mAudioDecoderGeneration p)
    (mVideoDecoderGeneration p) (mAudioEOS p) (mVideoEOS p)
    (mScanSourcesPending p) (mScanSourcesGeneration p)
    (mPollDurationGeneration p) (mTimedTextGeneration p)
    (mTimeDiscontinuityPending p) (mFlushingAudio p) (mFlushingVideo p)
    (mSkipRenderingAudioUntilMediaTimeUs p)
    (mSkipRenderingVideoUntilMediaTimeUs p) (mVideoLateByUs p)
    (mNumFramesTotal p) (mNumFramesDropped p) (mVideoScalingMode p)
    (mStarted p) (mDeferredActions p) (effects p).
Definition set_mSourceFlags (v : Z) (p : NuPlayer) : NuPlayer :=
  mkNuPlayer (mDriver p) (mSource p) v (mCurrentPositionUs p) (mNativeWindow
    p) (mAudioSink p) (mAudioDecoder p) (mVideoDecoder p) (mCCDecoder p)
    (mRenderer p) (mRendererLooper p) (mVideoIsAVC p) (mOffloadAudio p)
    (mCurrentOffloadInfo p) (mAudioDecoderGeneration p)
    (mVideoDecoderGeneration p) (mAudioEOS p) (mVideoEOS p)
    (mScanSourcesPending p) (mScanSourcesGeneration p)
    (mPollDurationGeneration p) (mTimedTextGeneration p)
    (mTimeDiscontinuityPending p) (mFlushingAudio p) (mFlushingVideo p)
    (mSkipRenderingAudioUntilMediaTimeUs p)
    (mSkipRenderingVideoUntilMediaTimeUs p) (mVideoLateByUs p)
    (mNumFramesTotal p) (mNumFramesDropped p) (mVideoScalingMode p)
    (mStarted p) (mDeferredActions p) (effects p).
Definition set_mCurrentPositionUs (v : Z) (p : NuPlayer) : NuPlayer :=
  mkNuPlayer (mDriver p) (mSource p) (mSourceFlags p) v (mNativeWindow p)
    (mAudioSink p) (mAudioDecoder p) (mVideoDecoder p) (mCCDecoder p)
    (mRenderer p) (mRendererLooper p) (mVideoIsAVC p) (mOffloadAudio p)
    (mCurrentOffloadInfo p) (mAudioDecoderGeneration p)
    (mVideoDecoderGeneration p) (mAudioEOS p) (mVideoEOS p)
    (mScanSourcesPending p) (mScanSourcesGeneration p)
    (mPollDurationGeneration p) (mTimedTextGeneration p)
    (mTimeDiscontinuityPending p) (mFlushingAudio p) (mFlushingVideo p)
    (mSkipRenderingAudioUntilMediaTimeUs p)
    (mSkipRenderingVideoUntilMediaTimeUs p) (mVideoLateByUs p)
    (mNumFramesTotal p) (mNumFramesDropped p) (mVideoScalingMode p)
    (mStarted p) (mDeferredActions p) (effects p).
Definition set_mNativeWindow (v : option NativeWindowWrapper) (p : NuPlayer) : NuPlayer :=
  mkNuPlayer (mDriver p) (mSource p) (mSourceFlags p) (mCurrentPositionUs p)
    v (mAudioSink p) (mAudioDecoder p) (mVideoDecoder p) (mCCDecoder p)
    (mRenderer p) (mRendererLooper p) (mVideoIsAVC p) (mOffloadAudio p)
    (mCurrentOffloadInfo p) (mAudioDecoderGeneration p)
    (mVideoDecoderGeneration p) (mAudioEOS p) (mVideoEOS p)
    (mScanSourcesPending p) (mScanSourcesGeneration p)
    (mPollDurationGeneration p) (mTimedTextGeneration p)
    (mTimeDiscontinuityPending p) (mFlushingAudio p) (mFlushingVideo p)
    (mSkipRenderingAudioUntilMediaTimeUs p)
    (mSkipRenderingVideoUntilMediaTimeUs p) (mVideoLateByUs p)
    (mNumFramesTotal p) (mNumFramesDropped p) (mVideoScalingMode p)
    (mStarted p) (mDeferredActions p) (effects p).
Definition set_mAudioSink (v : option AudioSink) (p : NuPlayer) : NuPlayer :=
  mkNuPlayer (mDriver p) (mSource p) (mSourceFlags p) (mCurrentPositionUs p)
    (mNativeWindow p) v (mAudioDecoder p) (mVideoDecoder p) (mCCDecoder p)
    (mRenderer p) (mRendererLooper p) (mVideoIsAVC p) (mOffloadAudio p)
    (mCurrentOffloadInfo p) (mAudioDecoderGeneration p)
    (mVideoDecoderGeneration p) (mAudioEOS p) (mVideoEOS p)
    (mScanSourcesPending p) (mScanSourcesGeneration p)
    (mPollDurationGeneration p) (mTimedTextGeneration p)
    (mTimeDiscontinuityPending p) (mFlushingAudio p) (mFlushingVideo p)
    (mSkipRenderingAudioUntilMediaTimeUs p)
    (mSkipRenderingVideoUntilMediaTimeUs p) (mVideoLateByUs p)
    (mNumFramesTotal p) (mNumFramesDropped p) (mVideoScalingMode p)
    (mStarted p) (mDeferredActions p) (effects p).
Definition set_mAudioDecoder (v : option Decoder) (p : NuPlayer) : NuPlayer :=
  mkNuPlayer (mDriver p) (mSource p) (mSourceFlags p) (mCurrentPositionUs p)
    (mNativeWindow p) (mAudioSink p) v (mVideoDecoder p) (mCCDecoder p)
    (mRenderer p) (mRendererLooper p) (mVideoIsAVC p) (mOffloadAudio p)
    (mCurrentOffloadInfo p) (mAudioDecoderGeneration p)
    (mVideoDecoderGeneration p) (mAudioEOS p) (mVideoEOS p)
    (mScanSourcesPending p) (mScanSourcesGeneration p)
    (mPollDurationGeneration p) (mTimedTextGeneration p)
    (mTimeDiscontinuityPending p) (mFlushingAudio p) (mFlushingVideo p)
    (mSkipRenderingAudioUntilMediaTimeUs p)
    (mSkipRenderingVideoUntilMediaTimeUs p) (mVideoLateByUs p)
    (mNumFramesTotal p) (mNumFramesDropped p) (mVideoScalingMode p)
    (mStarted p) (mDeferredActions p) (effects p).
Definition set_mVideoDecoder (v : option Decoder) (p : NuPlayer) : NuPlayer :=
  mkNuPlayer (mDriver p) (mSource p) (mSourceFlags p) (mCurrentPositionUs p)
    (mNativeWindow p) (mAudioSink p) (mAudioDecoder p) v (mCCDecoder p)
    (mRenderer p) (mRendererLooper p) (mVideoIsAVC p) (mOffloadAudio p)
    (mCurrentOffloadInfo p) (mAudioDecoderGeneration p)
    (mVideoDecoderGeneration p) (mAudioEOS p) (mVideoEOS p)
    (mScanSourcesPending p) (mScanSourcesGeneration p)
    (mPollDurationGeneration p) (mTimedTextGeneration p)
    (mTimeDiscontinuityPending p) (mFlushingAudio p) (mFlushingVideo p)
    (mSkipRenderingAudioUntilMediaTimeUs p)
    (mSkipRenderingVideoUntilMediaTimeUs p) (mVideoLateByUs p)
    (mNumFramesTotal p) (mNumFramesDropped p) (mVideoScalingMode p)
    (mStarted p) (mDeferredActions p) (effects p).
Definition set_mCCDecoder (v : option CCDecoder) (p : NuPlayer) : NuPlayer :=
  mkNuPlayer (mDriver p) (mSource p) (mSourceFlags p) (mCurrentPositionUs p)
    (mNativeWindow p) (mAudioSink p) (mAudioDecoder p) (mVideoDecoder p) v
    (mRenderer p) (mRendererLooper p) (mVideoIsAVC p) (mOffloadAudio p)
    (mCurrentOffloadInfo p) (mAudioDecoderGeneration p)
    (mVideoDecoderGeneration p) (mAudioEOS p) (mVideoEOS p)
    (mScanSourcesPending p) (mScanSourcesGeneration p)
    (mPollDurationGeneration p) (mTimedTextGeneration p)
    (mTimeDiscontinuityPending p) (mFlushingAudio p) (mFlushingVideo p)
    (mSkipRenderingAudioUntilMediaTimeUs p)
    (mSkipRenderingVideoUntilMediaTimeUs p) (mVideoLateByUs p)
    (mNumFramesTotal p) (mNumFramesDropped p) (mVideoScalingMode p)
    (mStarted p) (mDeferredActions p) (effects p).
Definition set_mRenderer (v : option Renderer) (p : NuPlayer) : NuPlayer :=
  mkNuPlayer (mDriver p) (mSource p) (mSourceFlags p) (mCurrentPositionUs p)
    (mNativeWindow p) (mAudioSink p) (mAudioDecoder p) (mVideoDecoder p)
    (mCCDecoder p) v (mRendererLooper p) (mVideoIsAVC p) (mOffloadAudio p)
    (mCurrentOffloadInfo p) (mAudioDecoderGeneration p)
    (mVideoDecoderGeneration p) (mAudioEOS p) (mVideoEOS p)
    (mScanSourcesPending p) (mScanSourcesGeneration p)
    (mPollDurationGeneration p) (mTimedTextGeneration p)
    (mTimeDiscontinuityPending p) (mFlushingAudio p) (mFlushingVideo p)
    (mSkipRenderingAudioUntilMediaTimeUs p)
    (mSkipRenderingVideoUntilMediaTimeUs p) (mVideoLateByUs p)
    (mNumFramesTotal p) (mNumFramesDropped p) (mVideoScalingMode p)
    (mStarted p) (mDeferredActions p) (effects p).
Definition set_mRendererLooper (v : option ALooper) (p : NuPlayer) : NuPlayer :=
  mkNuPlayer (mDriver p) (mSource p) (mSourceFlags p) (mCurrentPositionUs p)
    (mNativeWindow p) (mAudioSink p) (mAudioDecoder p) (mVideoDecoder p)
    (mCCDecoder p) (mRenderer p) v (mVideoIsAVC p) (mOffloadAudio p)
    (mCurrentOffloadInfo p) (mAudioDecoderGeneration p)
    (mVideoDecoderGeneration p) (mAudioEOS p) (mVideoEOS p)
    (mScanSourcesPending p) (mScanSourcesGeneration p)
    (mPollDurationGeneration p) (mTimedTextGeneration p)
    (mTimeDiscontinuityPending p) (mFlushingAudio p) (mFlushingVideo p)
    (mSkipRenderingAudioUntilMediaTimeUs p)
    (mSkipRenderingVideoUntilMediaTimeUs p) (mVideoLateByUs p)
    (mNumFramesTotal p) (mNumFramesDropped p) (mVideoScalingMode p)
    (mStarted p) (mDeferredActions p) (effects p).
Definition set_mVideoIsAVC (v : bool) (p : NuPlayer) : NuPlayer :=
  mkNuPlayer (mDriver p) (mSource p) (mSourceFlags p) (mCurrentPositionUs p)
    (mNativeWindow p) (mAudioSink p) (mAudioDecoder p) (mVideoDecoder p)
    (mCCDecoder p) (mRenderer p) (mRendererLooper p) v (mOffloadAudio p)
    (mCurrentOffloadInfo p) (mAudioDecoderGeneration p)
    (mVideoDecoderGeneration p) (mAudioEOS p) (mVideoEOS p)
    (mScanSourcesPending p) (mScanSourcesGeneration p)
    (mPollDurationGeneration p) (mTimedTextGeneration p)
    (mTimeDiscontinuityPending p) (mFlushingAudio p) (mFlushingVideo p)
    (mSkipRenderingAudioUntilMediaTimeUs p)
    (mSkipRenderingVideoUntilMediaTimeUs p) (mVideoLateByUs p)
    (mNumFramesTotal p) (mNumFramesDropped p) (mVideoScalingMode p)
    (mStarted p) (mDeferredActions p) (effects p).
Definition set_mOffloadAudio (v : bool) (p : NuPlayer) : NuPlayer :=
  mkNuPlayer (mDriver p) (mSource p) (mSourceFlags p) (mCurrentPositionUs p)
    (mNativeWindow p) (mAudioSink p) (mAudioDecoder p) (mVideoDecoder p)
    (mCCDecoder p) (mRenderer p) (mRendererLooper p) (mVideoIsAVC p) v
    (mCurrentOffloadInfo p) (mAudioDecoderGeneration p)
    (mVideoDecoderGeneration p) (mAudioEOS p) (mVideoEOS p)
    (mScanSourcesPending p) (mScanSourcesGeneration p)
    (mPollDurationGeneration p) (mTimedTextGeneration p)
    (mTimeDiscontinuityPending p) (mFlushingAudio p) (mFlushingVideo p)
    (mSkipRenderingAudioUntilMediaTimeUs p)
    (mSkipRenderingVideoUntilMediaTimeUs p) (mVideoLateByUs p)
    (mNumFramesTotal p) (mNumFramesDropped p) (mVideoScalingMode p)
    (mStarted p) (mDeferredActions p) (effects p).
Definition set_mCurrentOffloadInfo (v : audio_offload_info_t) (p : NuPlayer) : NuPlayer :=
  mkNuPlayer (mDriver p) (mSource p) (mSourceFlags p) (mCurrentPositionUs p)
    (mNativeWindow p) (mAudioSink p) (mAudioDecoder p) (mVideoDecoder p)
    (mCCDecoder p) (mRenderer p) (mRendererLooper p) (mVideoIsAVC p)
    (mOffloadAudio p) v (mAudioDecoderGeneration p) (mVideoDecoderGeneration
    p) (mAudioEOS p) (mVideoEOS p) (mScanSourcesPending p)
    (mScanSourcesGeneration p) (mPollDurationGeneration p)
    (mTimedTextGeneration p) (mTimeDiscontinuityPending p) (mFlushingAudio
    p) (mFlushingVideo p) (mSkipRenderingAudioUntilMediaTimeUs p)
    (mSkipRenderingVideoUntilMediaTimeUs p) (mVideoLateByUs p)
    (mNumFramesTotal p) (mNumFramesDropped p) (mVideoScalingMode p)
    (mStarted p) (mDeferredActions p) (effects p).
Definition set_mAudioDecoderGeneration (v : Z) (p : NuPlayer) : NuPlayer :=
  mkNuPlayer (mDriver p) (mSource p) (mSourceFlags p) (mCurrentPositionUs p)
    (mNativeWindow p) (mAudioSink p) (mAudioDecoder p) (mVideoDecoder p)
    (mCCDecoder p) (mRenderer p) (mRendererLooper p) (mVideoIsAVC p)
    (mOffloadAudio p) (mCurrentOffloadInfo p) v (mVideoDecoderGeneration p)
    (mAudioEOS p) (mVideoEOS p) (mScanSourcesPending p)
    (mScanSourcesGeneration p) (mPollDurationGeneration p)
    (mTimedTextGeneration p) (mTimeDiscontinuityPending p) (mFlushingAudio
    p) (mFlushingVideo p) (mSkipRenderingAudioUntilMediaTimeUs p)
    (mSkipRenderingVideoUntilMediaTimeUs p) (mVideoLateByUs p)
    (mNumFramesTotal p) (mNumFramesDropped p) (mVideoScalingMode p)
    (mStarted p) (mDeferredActions p) (effects p).
Definition set_mVideoDecoderGeneration (v : Z) (p : NuPlayer) : NuPlayer :=
  mkNuPlayer (mDriver p) (mSource p) (mSourceFlags p) (mCurrentPositionUs p)
    (mNativeWindow p) (mAudioSink p) (mAudioDecoder p) (mVideoDecoder p)
    (mCCDecoder p) (mRenderer p) (mRendererLooper p) (mVideoIsAVC p)
    (mOffloadAudio p) (mCurrentOffloadInfo p) (mAudioDecoderGeneration p) v
    (mAudioEOS p) (mVideoEOS p) (mScanSourcesPending p)
    (mScanSourcesGeneration p) (mPollDurationGeneration p)
    (mTimedTextGeneration p) (mTimeDiscontinuityPending p) (mFlushingAudio
    p) (mFlushingVideo p) (mSkipRenderingAudioUntilMediaTimeUs p)
    (mSkipRenderingVideoUntilMediaTimeUs p) (mVideoLateByUs p)
    (mNumFramesTotal p) (mNumFramesDropped p) (mVideoScalingMode p)
    (mStarted p) (mDeferredActions p) (effects p).
Definition set_mAudioEOS (v : bool) (p : NuPlayer) : NuPlayer :=
  mkNuPlayer (mDriver p) (mSource p) (mSourceFlags p) (mCurrentPositionUs p)
    (mNativeWindow p) (mAudioSink p) (mAudioDecoder p) (mVideoDecoder p)
    (mCCDecoder p) (mRenderer p) (mRendererLooper p) (mVideoIsAVC p)
    (mOffloadAudio p) (mCurrentOffloadInfo p) (mAudioDecoderGeneration p)
    (mVideoDecoderGeneration p) v (mVideoEOS p) (mScanSourcesPending p)
    (mScanSourcesGeneration p) (mPollDurationGeneration p)
    (mTimedTextGeneration p) (mTimeDiscontinuityPending p) (mFlushingAudio
    p) (mFlushingVideo p) (mSkipRenderingAudioUntilMediaTimeUs p)
    (mSkipRenderingVideoUntilMediaTimeUs p) (mVideoLateByUs p)
    (mNumFramesTotal p) (mNumFramesDropped p) (mVideoScalingMode p)
    (mStarted p) (mDeferredActions p) (effects p).
Definition set_mVideoEOS (v : bool) (p : NuPlayer) : NuPlayer :=
  mkNuPlayer (mDriver p) (mSource p) (mSourceFlags p) (mCurrentPositionUs p)
    (mNativeWindow p) (mAudioSink p) (mAudioDecoder p) (mVideoDecoder p)
    (mCCDecoder p) (mRenderer p) (mRendererLooper p) (mVideoIsAVC p)
    (mOffloadAudio p) (mCurrentOffloadInfo p) (mAudioDecoderGeneration p)
    (mVideoDecoderGeneration p) (mAudioEOS p) v (mScanSourcesPending p)
    (mScanSourcesGeneration p) (mPollDurationGeneration p)
    (mTimedTextGeneration p) (mTimeDiscontinuityPending p) (mFlushingAudio
    p) (mFlushingVideo p) (mSkipRenderingAudioUntilMediaTimeUs p)
    (mSkipRenderingVideoUntilMediaTimeUs p) (mVideoLateByUs p)
    (mNumFramesTotal p) (mNumFramesDropped p) (mVideoScalingMode p)
    (mStarted p) (mDeferredActions p) (effects p).
Definition set_mScanSourcesPending (v : bool) (p : NuPlayer) : NuPlayer :=
  mkNuPlayer (mDriver p) (mSource p) (mSourceFlags p) (mCurrentPositionUs p)
    (mNativeWindow p) (mAudioSink p) (mAudioDecoder p) (mVideoDecoder p)
    (mCCDecoder p) (mRenderer p) (mRendererLooper p) (mVideoIsAVC p)
    (mOffloadAudio p) (mCurrentOffloadInfo p) (mAudioDecoderGeneration p)
    (mVideoDecoderGeneration p) (mAudioEOS p) (mVideoEOS p) v
    (mScanSourcesGeneration p) (mPollDurationGeneration p)
    (mTimedTextGeneration p) (mTimeDiscontinuityPending p) (mFlushingAudio
    p) (mFlushingVideo p) (mSkipRenderingAudioUntilMediaTimeUs p)
    (mSkipRenderingVideoUntilMediaTimeUs p) (mVideoLateByUs p)
    (mNumFramesTotal p) (mNumFramesDropped p) (mVideoScalingMode p)
    (mStarted p) (mDeferredActions p) (effects p).
Definition set_mScanSourcesGeneration (v : Z) (p : NuPlayer) : NuPlayer :=
  mkNuPlayer (mDriver p) (mSource p) (mSourceFlags p) (mCurrentPositionUs p)
    (mNativeWindow p) (mAudioSink p) (mAudioDecoder p) (mVideoDecoder p)
    (mCCDecoder p) (mRenderer p) (mRendererLooper p) (mVideoIsAVC p)
    (mOffloadAudio p) (mCurrentOffloadInfo p) (mAudioDecoderGeneration p)
    (mVideoDecoderGeneration p) (mAudioEOS p) (mVideoEOS p)
    (mScanSourcesPending p) v (mPollDurationGeneration p)
    (mTimedTextGeneration p) (mTimeDiscontinuityPending p) (mFlushingAudio
    p) (mFlushingVideo p) (mSkipRenderingAudioUntilMediaTimeUs p)
    (mSkipRenderingVideoUntilMediaTimeUs p) (mVideoLateByUs p)
    (mNumFramesTotal p) (mNumFramesDropped p) (mVideoScalingMode p)
    (mStarted p) (mDeferredActions p) (effects p).
Definition set_mPollDurationGeneration (v : Z) (p : NuPlayer) : NuPlayer :=
  mkNuPlayer (mDriver p) (mSource p) (mSourceFlags p) (mCurrentPositionUs p)
    (mNativeWindow p) (mAudioSink p) (mAudioDecoder p) (mVideoDecoder p)
    (mCCDecoder p) (mRenderer p) (mRendererLooper p) (mVideoIsAVC p)
    (mOffloadAudio p) (mCurrentOffloadInfo p) (mAudioDecoderGeneration p)
    (mVideoDecoderGeneration p) (mAudioEOS p) (mVideoEOS p)
    (mScanSourcesPending p) (mScanSourcesGeneration p) v
    (mTimedTextGeneration p) (mTimeDiscontinuityPending p) (mFlushingAudio
    p) (mFlushingVideo p) (mSkipRenderingAudioUntilMediaTimeUs p)
    (mSkipRenderingVideoUntilMediaTimeUs p) (mVideoLateByUs p)
    (mNumFramesTotal p) (mNumFramesDropped p) (mVideoScalingMode p)
    (mStarted p) (mDeferredActions p) (effects p).
Definition set_mTimedTextGeneration (v : Z) (p : NuPlayer) : NuPlayer :=
  mkNuPlayer (mDriver p) (mSource p) (mSourceFlags p) (mCurrentPositionUs p)
    (mNativeWindow p) (mAudioSink p) (mAudioDecoder p) (mVideoDecoder p)
    (mCCDecoder p) (mRenderer p) (mRendererLooper p) (mVideoIsAVC p)
    (mOffloadAudio p) (mCurrentOffloadInfo p) (mAudioDecoderGeneration p)
    (mVideoDecoderGeneration p) (mAudioEOS p) (mVideoEOS p)
    (mScanSourcesPending p) (mScanSourcesGeneration p)
    (mPollDurationGeneration p) v (mTimeDiscontinuityPending p)
    (mFlushingAudio p) (mFlushingVideo p)
    (mSkipRenderingAudioUntilMediaTimeUs p)
    (mSkipRenderingVideoUntilMediaTimeUs p) (mVideoLateByUs p)
    (mNumFramesTotal p) (mNumFramesDropped p) (mVideoScalingMode p)
    (mStarted p) (mDeferredActions p) (effects p).
Definition set_mTimeDiscontinuityPending (v : bool) (p : NuPlayer) : NuPlayer :=
  mkNuPlayer (mDriver p) (mSource p) (mSourceFlags p) (mCurrentPositionUs p)
    (mNativeWindow p) (mAudioSink p) (mAudioDecoder p) (mVideoDecoder p)
    (mCCDecoder p) (mRenderer p) (mRendererLooper p) (mVideoIsAVC p)
    (mOffloadAudio p) (mCurrentOffloadInfo p) (mAudioDecoderGeneration p)
    (mVideoDecoderGeneration p) (mAudioEOS p) (mVideoEOS p)
    (mScanSourcesPending p) (mScanSourcesGeneration p)
    (mPollDurationGeneration p) (mTimedTextGeneration p) v (mFlushingAudio
    p) (mFlushingVideo p) (mSkipRenderingAudioUntilMediaTimeUs p)
    (mSkipRenderingVideoUntilMediaTimeUs p) (mVideoLateByUs p)
    (mNumFramesTotal p) (mNumFramesDropped p) (mVideoScalingMode p)
    (mStarted p) (mDeferredActions p) (effects p).
Definition set_mFlushingAudio (v : FlushStatus) (p : NuPlayer) : NuPlayer :=
  mkNuPlayer (mDriver p) (mSource p) (mSourceFlags p) (mCurrentPositionUs p)
    (mNativeWindow p) (mAudioSink p) (mAudioDecoder p) (mVideoDecoder p)
    (mCCDecoder p) (mRenderer p) (mRendererLooper p) (mVideoIsAVC p)
    (mOffloadAudio p) (mCurrentOffloadInfo p) (mAudioDecoderGeneration p)
    (mVideoDecoderGeneration p) (mAudioEOS p) (mVideoEOS p)
    (mScanSourcesPending p) (mScanSourcesGeneration p)
    (mPollDurationGeneration p) (mTimedTextGeneration p)
    (mTimeDiscontinuityPending p) v (mFlushingVideo p)
    (mSkipRenderingAudioUntilMediaTimeUs p)
    (mSkipRenderingVideoUntilMediaTimeUs p) (mVideoLateByUs p)
    (mNumFramesTotal p) (mNumFramesDropped p) (mVideoScalingMode p)
    (mStarted p) (mDeferredActions p) (effects p).
Definition set_mFlushingVideo (v : FlushStatus) (p : NuPlayer) : NuPlayer :=
  mkNuPlayer (mDriver p) (mSource p) (mSourceFlags p) (mCurrentPositionUs p)
    (mNativeWindow p) (mAudioSink p) (mAudioDecoder p) (mVideoDecoder p)
    (mCCDecoder p) (mRenderer p) (mRendererLooper p) (mVideoIsAVC p)
    (mOffloadAudio p) (mCurrentOffloadInfo p) (mAudioDecoderGeneration p)
    (mVideoDecoderGeneration p) (mAudioEOS p) (mVideoEOS p)
    (mScanSourcesPending p) (mScanSourcesGeneration p)
    (mPollDurationGeneration p) (mTimedTextGeneration p)
    (mTimeDiscontinuityPending p) (mFlushingAudio p) v
    (mSkipRenderingAudioUntilMediaTimeUs p)
    (mSkipRenderingVideoUntilMediaTimeUs p) (mVideoLateByUs p)
    (mNumFramesTotal p) (mNumFramesDropped p) (mVideoScalingMode p)
    (mStarted p) (mDeferredActions p) (effects p).
Definition set_mSkipRenderingAudioUntilMediaTimeUs (v : Z) (p : NuPlayer) : NuPlayer :=
  mkNuPlayer (mDriver p) (mSource p) (mSourceFlags p) (mCurrentPositionUs p)
    (mNativeWindow p) (mAudioSink p) (mAudioDecoder p) (mVideoDecoder p)
    (mCCDecoder p) (mRenderer p) (mRendererLooper p) (mVideoIsAVC p)
    (mOffloadAudio p) (mCurrentOffloadInfo p) (mAudioDecoderGeneration p)
    (mVideoDecoderGeneration p) (mAudioEOS p) (mVideoEOS p)
    (mScanSourcesPending p) (mScanSourcesGeneration p)
    (mPollDurationGeneration p) (mTimedTextGeneration p)
    (mTimeDiscontinuityPending p) (mFlushingAudio p) (mFlushingVideo p) v
    (mSkipRenderingVideoUntilMediaTimeUs p) (mVideoLateByUs p)
    (mNumFramesTotal p) (mNumFramesDropped p) (mVideoScalingMode p)
    (mStarted p) (mDeferredActions p) (effects p).
Definition set_mSkipRenderingVideoUntilMediaTimeUs (v : Z) (p : NuPlayer) : NuPlayer :=
  mkNuPlayer (mDriver p) (mSource p) (mSourceFlags p) (mCurrentPositionUs p)
    (mNativeWindow p) (mAudioSink p) (mAudioDecoder p) (mVideoDecoder p)
    (mCCDecoder p) (mRenderer p) (mRendererLooper p) (mVideoIsAVC p)
    (mOffloadAudio p) (mCurrentOffloadInfo p) (mAudioDecoderGeneration p)
    (mVideoDecoderGeneration p) (mAudioEOS p) (mVideoEOS p)
    (mScanSourcesPending p) (mScanSourcesGeneration p)
    (mPollDurationGeneration p) (mTimedTextGeneration p)
    (mTimeDiscontinuityPending p) (mFlushingAudio p) (mFlushingVideo p)
    (mSkipRenderingAudioUntilMediaTimeUs p) v (mVideoLateByUs p)
    (mNumFramesTotal p) (mNumFramesDropped p) (mVideoScalingMode p)
    (mStarted p) (mDeferredActions p) (effects p).
Definition set_mVideoLateByUs (v : Z) (p : NuPlayer) : NuPlayer :=
  mkNuPlayer (mDriver p) (mSource p) (mSourceFlags p) (mCurrentPositionUs p)
    (mNativeWindow p) (mAudioSink p) (mAudioDecoder p) (mVideoDecoder p)
    (mCCDecoder p) (mRenderer p) (mRendererLooper p) (mVideoIsAVC p)
    (mOffloadAudio p) (mCurrentOffloadInfo p) (mAudioDecoderGeneration p)
    (mVideoDecoderGeneration p) (mAudioEOS p) (mVideoEOS p)
    (mScanSourcesPending p) (mScanSourcesGeneration p)
    (mPollDurationGeneration p) (mTimedTextGeneration p)
    (mTimeDiscontinuityPending p) (mFlushingAudio p) (mFlushingVideo p)
    (mSkipRenderingAudioUntilMediaTimeUs p)
    (mSkipRenderingVideoUntilMediaTimeUs p) v (mNumFramesTotal p)
    (mNumFramesDropped p) (mVideoScalingMode p) (mStarted p)
    (mDeferredActions p) (effects p).
Definition set_mNumFramesTotal (v : Z) (p : NuPlayer) : NuPlayer :=
  mkNuPlayer (mDriver p) (mSource p) (mSourceFlags p) (mCurrentPositionUs p)
    (mNativeWindow p) (mAudioSink p) (mAudioDecoder p) (mVideoDecoder p)
    (mCCDecoder p) (mRenderer p) (mRendererLooper p) (mVideoIsAVC p)
    (mOffloadAudio p) (mCurrentOffloadInfo p) (mAudioDecoderGeneration p)
    (mVideoDecoderGeneration p) (mAudioEOS p) (mVideoEOS p)
    (mScanSourcesPending p) (mScanSourcesGeneration p)
    (mPollDurationGeneration p) (mTimedTextGeneration p)
    (mTimeDiscontinuityPending p) (mFlushingAudio p) (mFlushingVideo p)
    (mSkipRenderingAudioUntilMediaTimeUs p)
    (mSkipRenderingVideoUntilMediaTimeUs p) (mVideoLateByUs p) v
    (mNumFramesDropped p) (mVideoScalingMode p) (mStarted p)
    (mDeferredActions p) (effects p).
Definition set_mNumFramesDropped (v : Z) (p : NuPlayer) : NuPlayer :=
  mkNuPlayer (mDriver p) (mSource p) (mSourceFlags p) (mCurrentPositionUs p)
    (mNativeWindow p) (mAudioSink p) (mAudioDecoder p) (mVideoDecoder p)
    (mCCDecoder p) (mRenderer p) (mRendererLooper p) (mVideoIsAVC p)
    (mOffloadAudio p) (mCurrentOffloadInfo p) (mAudioDecoderGeneration p)
    (mVideoDecoderGeneration p) (mAudioEOS p) (mVideoEOS p)
    (mScanSourcesPending p) (mScanSourcesGeneration p)
    (mPollDurationGeneration p) (mTimedTextGeneration p)
    (mTimeDiscontinuityPending p) (mFlushingAudio p) (mFlushingVideo p)
    (mSkipRenderingAudioUntilMediaTimeUs p)
    (mSkipRenderingVideoUntilMediaTimeUs p) (mVideoLateByUs p)
    (mNumFramesTotal p) v (mVideoScalingMode p) (mStarted p)
    (mDeferredActions p) (effects p).
Definition set_mVideoScalingMode (v : Z) (p : NuPlayer) : NuPlayer :=
  mkNuPlayer (mDriver p) (mSource p) (mSourceFlags p) (mCurrentPositionUs p)
    (mNativeWindow p) (mAudioSink p) (mAudioDecoder p) (mVideoDecoder p)
    (mCCDecoder p) (mRenderer p) (mRendererLooper p) (mVideoIsAVC p)
    (mOffloadAudio p) (mCurrentOffloadInfo p) (mAudioDecoderGeneration p)
    (mVideoDecoderGeneration p) (mAudioEOS p) (mVideoEOS p)
    (mScanSourcesPending p) (mScanSourcesGeneration p)
    (mPollDurationGeneration p) (mTimedTextGeneration p)
    (mTimeDiscontinuityPending p) (mFlushingAudio p) (mFlushingVideo p)
    (mSkipRenderingAudioUntilMediaTimeUs p)
    (mSkipRenderingVideoUntilMediaTimeUs p) (mVideoLateByUs p)
    (mNumFramesTotal p) (mNumFramesDropped p) v (mStarted p)
    (mDeferredActions p) (effects p).
Definition set_mStarted (v : bool) (p : NuPlayer) : NuPlayer :=
  mkNuPlayer (mDriver p) (mSource p) (mSourceFlags p) (mCurrentPositionUs p)
    (mNativeWindow p) (mAudioSink p) (mAudioDecoder p) (mVideoDecoder p)
    (mCCDecoder p) (mRenderer p) (mRendererLooper p) (mVideoIsAVC p)
    (mOffloadAudio p) (mCurrentOffloadInfo p) (mAudioDecoderGeneration p)
    (mVideoDecoderGeneration p) (mAudioEOS p) (mVideoEOS p)
    (mScanSourcesPending p) (mScanSourcesGeneration p)
    (mPollDurationGeneration p) (mTimedTextGeneration p)
    (mTimeDiscontinuityPending p) (mFlushingAudio p) (mFlushingVideo p)
    (mSkipRenderingAudioUntilMediaTimeUs p)
    (mSkipRenderingVideoUntilMediaTimeUs p) (mVideoLateByUs p)
    (mNumFramesTotal p) (mNumFramesDropped p) (mVideoScalingMode p) v
    (mDeferredActions p) (effects p).
Definition set_mDeferredActions (v : list Action) (p : NuPlayer) : NuPlayer :=
  mkNuPlayer (mDriver p) (mSource p) (mSourceFlags p) (mCurrentPositionUs p)
    (mNativeWindow p) (mAudioSink p) (mAudioDecoder p) (mVideoDecoder p)
    (mCCDecoder p) (mRenderer p) (mRendererLooper p) (mVideoIsAVC p)
    (mOffloadAudio p) (mCurrentOffloadInfo p) (mAudioDecoderGeneration p)
    (mVideoDecoderGeneration p) (mAudioEOS p) (mVideoEOS p)
    (mScanSourcesPending p) (mScanSourcesGeneration p)
    (mPollDurationGeneration p) (mTimedTextGeneration p)
    (mTimeDiscontinuityPending p) (mFlushingAudio p) (mFlushingVideo p)
    (mSkipRenderingAudioUntilMediaTimeUs p)
    (mSkipRenderingVideoUntilMediaTimeUs p) (mVideoLateByUs p)
    (mNumFramesTotal p) (mNumFramesDropped p) (mVideoScalingMode p)
    (mStarted p) v (effects p).
Definition set_effects (v : list Effect) (p : NuPlayer) : NuPlayer :=
  mkNuPlayer (mDriver p) (mSource p) (mSourceFlags p) (mCurrentPositionUs p)
    (mNativeWindow p) (mAudioSink p) (mAudioDecoder p) (mVideoDecoder p)
    (mCCDecoder p) (mRenderer p) (mRendererLooper p) (mVideoIsAVC p)
    (mOffloadAudio p) (mCurrentOffloadInfo p) (mAudioDecoderGeneration p)
    (mVideoDecoderGeneration p) (mAudioEOS p) (mVideoEOS p)
    (mScanSourcesPending p) (mScanSourcesGeneration p)
    (mPollDurationGeneration p) (mTimedTextGeneration p)
    (mTimeDiscontinuityPending p) (mFlushingAudio p) (mFlushingVideo p)
    (mSkipRenderingAudioUntilMediaTimeUs p)
    (mSkipRenderingVideoUntilMediaTimeUs p) (mVideoLateByUs p)
    (mNumFramesTotal p) (mNumFramesDropped p) (mVideoScalingMode p)
    (mStarted p) (mDeferredActions p) v.

(** ** The monad of member functions *)

Inductive Fault : Type :=
| CheckFailed        (* CHECK(...) / CHECK_EQ(...) aborts the process *)
| NullDereference    (* a call through a null sp<> *)
| DivisionFault.     (* integer division by zero *)

Inductive Result (A : Type) : Type :=
| Done (a : A) (p : NuPlayer)
| Aborted (f : Fault).
Arguments Aborted {A} f.

Definition M (A : Type) : Type := NuPlayer -> Result A.

Definition ret {A} (a : A) : M A := fun p => Done a p.

Definition bind {A B} (m : M A) (k : A -> M B) : M B :=
  fun p => match m p with
           | Done a p' => k a p'
           | Aborted f => Aborted f
           end.

Notation "x <- c1 ;; c2" := (bind c1 (fun x => c2))
  (at level 61, c1 at next level, right associativity).
Notation "c1 ;; c2" := (bind c1 (fun _ => c2))
  (at level 61, right associativity).

Definition abort {A} (f : Fault) : M A := fun _ => Aborted f.
Definition get {A} (f : NuPlayer -> A) : M A := fun p => Done (f p) p.
Definition modify (f : NuPlayer -> NuPlayer) : M unit := fun p => Done tt (f p).
Definition skip : M unit := ret tt.

(** Appending one collaborator call to the effects. *)
Definition emit (e : Effect) : M unit :=
  modify (fun p => set_effects (effects p ++ [e]) p).

(** [CHECK(cond)]. *)
Definition CHECK (cond : bool) : M unit :=
  if cond then skip else abort CheckFailed.

(** [CHECK(msg->findXxx(name, &x))]. *)
Definition CHECK_found {A} (r : option A) : M A :=
  match r with Some a => ret a | None => abort CheckFailed end.

(** [handle->...] through a strong pointer that may be null. *)
Definition deref {A} (h : option A) : M A :=
  match h with Some a => ret a | None => abort NullDereference end.

Definition isNull {A} (h : option A) : bool :=
  match h with Some _ => false | None => true end.

Definition when (c : bool) (m : M unit) : M unit := if c then m else skip.

(** ** Declarations taken from headers outside the translated file *)

Class Platform : Type := {
  (* media/stagefright/MediaErrors.h *)
  INFO_DISCONTINUITY : status_t;
  ERROR_END_OF_STREAM : status_t;
  (* NuPlayerSource.h *)
  FLAG_SECURE : Z;
  (* ATSParser.h *)
  DISCONTINUITY_TIME : Z;
  DISCONTINUITY_AUDIO_FORMAT : Z;
  DISCONTINUITY_VIDEO_FORMAT : Z;
  (* NuPlayer.h: kinds of the messages the coordinator sends to itself *)
  kWhatScanSources : Z;
  kWhatVideoNotify : Z;
  kWhatAudioNotify : Z;
  kWhatClosedCaptionNotify : Z;
  (* NuPlayerDecoder.h: the "what" of a decoder notification *)
  Decoder_kWhatFillThisBuffer : Z;
  Decoder_kWhatDrainThisBuffer : Z;
  Decoder_kWhatOutputFormatChanged : Z;
  Decoder_kWhatFlushCompleted : Z;
  Decoder_kWhatShutdownCompleted : Z;
  Decoder_kWhatEOS : Z;
  Decoder_kWhatError : Z;
  (* NuPlayerRenderer.h: the "what" of a renderer notification *)
  Renderer_kWhatEOS : Z;
  Renderer_kWhatFlushComplete : Z;
  Renderer_kWhatPosition : Z;
  Renderer_kWhatVideoRenderingStart : Z;
  Renderer_kWhatMediaRenderingStart : Z;
  Renderer_kWhatAudioOffloadTearDown : Z;
  Renderer_kinds_distinct :
    NoDup [Renderer_kWhatEOS; Renderer_kWhatPosition;
           Renderer_kWhatFlushComplete; Renderer_kWhatVideoRenderingStart;
           Renderer_kWhatMediaRenderingStart;
           Renderer_kWhatAudioOffloadTearDown];
  (* media/mediaplayer.h *)
  MEDIA_PLAYBACK_COMPLETE : Z;
  MEDIA_STARTED : Z;
  MEDIA_SET_VIDEO_SIZE : Z;
  MEDIA_ERROR : Z;
  MEDIA_INFO : Z;
  MEDIA_ERROR_UNKNOWN : Z;
  MEDIA_INFO_RENDERING_START : Z;
  (* system/audio.h, media/AudioSystem.h, MediaPlayerInterface.h *)
  AUDIO_SINK_MIN_DEEP_BUFFER_DURATION_US : Z;
  CHANNEL_MASK_USE_CHANNEL_ORDER : Z;
  AUDIO_OUTPUT_FLAG_NONE : Z;
  AUDIO_OUTPUT_FLAG_DEEP_BUFFER : Z;
  AUDIO_OUTPUT_FLAG_COMPRESS_OFFLOAD : Z;
  AUDIO_FORMAT_PCM_16_BIT : Z;
  AUDIO_FORMAT_AAC : Z;
  AUDIO_STREAM_MUSIC : Z;
  AUDIO_INFO_INITIALIZER : audio_offload_info_t;
  (* media/stagefright/MediaDefs.h *)
  MEDIA_MIMETYPE_VIDEO_AVC : string;
  (* media/stagefright/Utils.h: the status and the format left in the
     reference argument *)
  mapMimeToAudioFormat : Z -> string -> status_t * Z;
  mapAACProfileToAudioFormat : Z -> Z -> Z;
  convertMetaDataToMessage : MetaData -> status_t * AMessage;
  (* avc_utils.h *)
  IsAVCReferenceFrame : ABuffer -> bool;
  (* NuPlayerDecoder.h: queries answered by a decoder *)
  supportsSeamlessFormatChange : Decoder -> option AMessage -> bool;
  getInputBuffers : Decoder -> status_t * list ABuffer;
  (* system/window.h *)
  native_window_set_scaling_mode : NativeWindowWrapper -> Z -> status_t
}.

Section Coordinator.

Context {platform : Platform}.

(** [NuPlayer::NuPlayer()]: the member initialisers; every [sp<>] and the
    [wp<>] start out null, the list of deferred actions empty. *)
Definition NuPlayer_new : NuPlayer :=
  {| mDriver := DriverNull;
     mSource := None;
     mSourceFlags := 0;
     mCurrentPositionUs := 0;
     mNativeWindow := None;
     mAudioSink := None;
     mAudioDecoder := None;
     mVideoDecoder := None;
     mCCDecoder := None;
     mRenderer := None;
     mRendererLooper := None;
     mVideoIsAVC := false;
     mOffloadAudio := false;
     mCurrentOffloadInfo := AUDIO_INFO_INITIALIZER;
     mAudioDecoderGeneration := 0;
     mVideoDecoderGeneration := 0;
     mAudioEOS := false;
     mVideoEOS := false;
     mScanSourcesPending := false;
     mScanSourcesGeneration := 0;
     mPollDurationGeneration := 0;
     mTimedTextGeneration := 0;
     mTimeDiscontinuityPending := false;
     mFlushingAudio := NONE;
     mFlushingVideo := NONE;
     mSkipRenderingAudioUntilMediaTimeUs := -1;
     mSkipRenderingVideoUntilMediaTimeUs := -1;
     mVideoLateByUs := 0;
     mNumFramesTotal := 0;
     mNumFramesDropped := 0;
     mVideoScalingMode := 0;
     mStarted := false;
     mDeferredActions := [];
     effects := [] |}.

(** [Source::getFormat] of the base class (the last part of the file):
    the track's meta data converted to a message, null when there is no
    meta data or the conversion fails. *)
Definition Source_getFormat (getFormatMeta : bool -> option MetaData)
    (audio : bool) : option AMessage :=
  match getFormatMeta audio with
  | None => None
  | Some meta =>
      let '(err, msg) := convertMetaDataToMessage meta in
      if err =? OK then Some msg else None
  end.

(** Calls on collaborators held by strong pointer: the pointer is
    dereferenced, then the call is recorded. *)
Definition callSource (e : Effect) : M unit :=
  s <- get mSource ;; _ <- deref s ;; emit e.
Definition callRenderer (e : Effect) : M unit :=
  r <- get mRenderer ;; _ <- deref r ;; emit e.
Definition callAudioSink (e : Effect) : M unit :=
  s <- get mAudioSink ;; _ <- deref s ;; emit e.

(** [mDriver.promote()] yields a driver. *)
Definition promote (d : WeakDriver) : bool :=
  match d with DriverAlive => true | _ => false end.

(** [mDriver != NULL]. *)
Definition driverSet (d : WeakDriver) : bool :=
  match d with DriverNull => false | _ => true end.

(** The idiom [if (mDriver != NULL) { driver = mDriver.promote();
    if (driver != NULL) { driver->... } }]. *)
Definition withDriver (calls : list Effect) : M unit :=
  d <- get mDriver ;;
  if driverSet d && promote d
  then modify (fun p => set_effects (effects p ++ calls) p)
  else skip.

(** [NuPlayer::notifyListener]. *)
Definition notifyListener (msg ext1 ext2 : Z) (parcel : option Parcel) : M unit :=
  d <- get mDriver ;;
  if negb (driverSet d) then skip
  else if negb (promote d) then skip
  else emit (DriverNotifyListener msg ext1 ext2 parcel).

(** [NuPlayer::getDecoder] (inline in NuPlayer.h). *)
Definition getDecoder (audio : bool) (p : NuPlayer) : option Decoder :=
  if audio then mAudioDecoder p else mVideoDecoder p.

(** [NuPlayer::IsFlushingState]: whether the state is one of the two
    flushing states, and the value stored through [needShutdown]. *)
Definition IsFlushingState (state : FlushStatus) : bool * option bool :=
  match state with
  | FLUSHING_DECODER => (true, Some false)
  | FLUSHING_DECODER_SHUTDOWN => (true, Some true)
  | _ => (false, None)
  end.

(** [NuPlayer::flushDecoder]. *)
Definition flushDecoder (audio needShutdown : bool)
    (newFormat : option AMessage) : M unit :=
  decoder <- get (getDecoder audio) ;;
  match decoder with
  | None => skip
  | Some d =>
      (* Make sure we don't continue to scan sources until we finish
         flushing. *)
      modify (fun p =>
        set_mScanSourcesGeneration (incr32 (mScanSourcesGeneration p)) p) ;;
      modify (set_mScanSourcesPending false) ;;
      emit (DecoderSignalFlush d newFormat) ;;
      callRenderer (RendererFlush audio) ;;
      let newStatus :=
        if needShutdown then FLUSHING_DECODER_SHUTDOWN else FLUSHING_DECODER in
      if audio then modify (set_mFlushingAudio newStatus)
      else modify (set_mFlushingVideo newStatus)
  end.

(** [NuPlayer::updateDecoderFormatWithoutFlush]. *)
Definition updateDecoderFormatWithoutFlush (audio : bool)
    (fmt : option AMessage) : M unit :=
  decoder <- get (getDecoder audio) ;;
  match decoder with
  | None => skip
  | Some d => emit (DecoderSignalUpdateFormat d fmt)
  end.

(** [NuPlayer::postScanSources]. *)
Definition postScanSources : M unit :=
  pending <- get mScanSourcesPending ;;
  if pending then skip
  else
    generation <- get mScanSourcesGeneration ;;
    emit (Post (setInt32 "generation" generation (Message kWhatScanSources [])) 0) ;;
    modify (set_mScanSourcesPending true).

(** [NuPlayer::cancelPollDuration]. *)
Definition cancelPollDuration : M unit :=
  modify (fun p =>
    set_mPollDurationGeneration (incr32 (mPollDurationGeneration p)) p).

(** [NuPlayer::setVideoScalingMode]. *)
Definition setVideoScalingMode (mode : Z) : M status_t :=
  modify (set_mVideoScalingMode mode) ;;
  window <- get mNativeWindow ;;
  match window with
  | Some w =>
      emit (NativeWindowSetScalingMode w mode) ;;
      let r := native_window_set_scaling_mode w mode in
      if negb (r =? OK) then ret r else ret OK
  | None => ret OK
  end.

(** [NuPlayer::performSeek]. *)
Definition performSeek (seekTimeUs : Z) : M unit :=
  callSource (SourceSeekTo seekTimeUs) ;;
  modify (fun p => set_mTimedTextGeneration (incr32 (mTimedTextGeneration p)) p) ;;
  withDriver [DriverNotifyPosition seekTimeUs; DriverNotifySeekComplete].

(** [NuPlayer::performDecoderFlush]. *)
Definition performDecoderFlush : M unit :=
  audioDecoder <- get mAudioDecoder ;;
  videoDecoder <- get mVideoDecoder ;;
  if isNull audioDecoder && isNull videoDecoder then skip
  else
    modify (set_mTimeDiscontinuityPending true) ;;
    (audioDecoder <- get mAudioDecoder ;;
     when (negb (isNull audioDecoder)) (flushDecoder true false None)) ;;
    videoDecoder <- get mVideoDecoder ;;
    when (negb (isNull videoDecoder)) (flushDecoder false false None).

(** [NuPlayer::performDecoderShutdown]. *)
Definition performDecoderShutdown (audio video : bool) : M unit :=
  audioDecoder <- get mAudioDecoder ;;
  videoDecoder <- get mVideoDecoder ;;
  if (negb audio || isNull audioDecoder) && (negb video || isNull videoDecoder)
  then skip
  else
    modify (set_mTimeDiscontinuityPending true) ;;
    (audioDecoder <- get mAudioDecoder ;;
     when (audio && negb (isNull audioDecoder)) (flushDecoder true true None)) ;;
    videoDecoder <- get mVideoDecoder ;;
    when (video && negb (isNull videoDecoder)) (flushDecoder false true None).

(** [NuPlayer::performReset]. *)
Definition performReset : M unit :=
  (audioDecoder <- get mAudioDecoder ;; CHECK (isNull audioDecoder)) ;;
  (videoDecoder <- get mVideoDecoder ;; CHECK (isNull videoDecoder)) ;;
  cancelPollDuration ;;
  modify (fun p =>
    set_mScanSourcesGeneration (incr32 (mScanSourcesGeneration p)) p) ;;
  modify (set_mScanSourcesPending false) ;;
  (looper <- get mRendererLooper ;;
   match looper with
   | Some l =>
       (renderer <- get mRenderer ;;
        match renderer with
        | Some r => emit (LooperUnregisterHandler l r)
        | None => skip
        end) ;;
       emit (LooperStop l) ;;
       modify (set_mRendererLooper None)
   | None => skip
   end) ;;
  modify (set_mRenderer None) ;;
  (source <- get mSource ;;
   match source with
   | Some _ => emit SourceStop ;; modify (set_mSource None)
   | None => skip
   end) ;;
  withDriver [DriverNotifyResetComplete] ;;
  modify (set_mStarted false).

(** [NuPlayer::performScanSources]. *)
Definition performScanSources : M unit :=
  started <- get mStarted ;;
  if negb started then skip
  else
    audioDecoder <- get mAudioDecoder ;;
    videoDecoder <- get mVideoDecoder ;;
    when (isNull audioDecoder || isNull videoDecoder) postScanSources.

(** [NuPlayer::performSetSurface]. *)
Definition performSetSurface (wrapper : option NativeWindowWrapper) : M unit :=
  modify (set_mNativeWindow wrapper) ;;
  (* XXX - ignore error from setVideoScalingMode for now *)
  (mode <- get mVideoScalingMode ;; _ <- setVideoScalingMode mode ;; skip) ;;
  withDriver [DriverNotifySetSurfaceComplete].

(** [Action::execute] of each action class. *)
Definition callActionFunc (f : ActionFunc) : M unit :=
  match f with
  | performReset_fn => performReset
  | performScanSources_fn => performScanSources
  | performDecoderFlush_fn => performDecoderFlush
  end.

Definition execute (a : Action) : M unit :=
  match a with
  | SeekAction seekTimeUs => performSeek seekTimeUs
  | SetSurfaceAction wrapper => performSetSurface wrapper
  | ShutdownDecoderAction audio video => performDecoderShutdown audio video
  | PostMessageAction msg => emit (Post msg 0)
  | SimpleAction func => callActionFunc func
  end.

(** Whether [processDeferredActions] postpones: some stream is not in
    state [NONE]. *)
Definition flushInProgress (p : NuPlayer) : bool :=
  negb (FlushStatus_eqb (mFlushingAudio p) NONE)
  || negb (FlushStatus_eqb (mFlushingVideo p) NONE).

(** The loop of [NuPlayer::processDeferredActions], by recursion on the
    queue it walks: [queue] is the content of [mDeferredActions] at the
    loop head.  Each round tests the flush statuses, erases the front action
    from [mDeferredActions] and executes it.  No action touches
    [mDeferredActions] (lemma [execute_keeps_queue]), so the queue at the
    next loop head is the tail.

    Next to the outcome the loop returns its execution log: every action it
    executed, paired with the player at the instant [execute] was called. *)
Fixpoint processLoop (queue : list Action) (p : NuPlayer)
  : list (Action * NuPlayer) * Result unit :=
  match queue with
  | [] => ([], Done tt p)
  | action :: rest =>
      if flushInProgress p then ([], Done tt p)
      else
        let p1 := set_mDeferredActions rest p in
        match execute action p1 with
        | Done _ p2 =>
            let '(log, r) := processLoop rest p2 in ((action, p1) :: log, r)
        | Aborted f => ([(action, p1)], Aborted f)
        end
  end.

(** [NuPlayer::processDeferredActions]. *)
Definition processDeferredActions : M unit :=
  fun p => snd (processLoop (mDeferredActions p) p).

(** The actions one call of [processDeferredActions] executes, each with
    the player as it was when the action started. *)
Definition executions (p : NuPlayer) : list (Action * NuPlayer) :=
  fst (processLoop (mDeferredActions p) p).

(** A stream is neither idle, flushed nor shut down. *)
Definition transitional (s : FlushStatus) : bool :=
  negb (FlushStatus_eqb s NONE) && negb (FlushStatus_eqb s FLUSHED)
  && negb (FlushStatus_eqb s SHUT_DOWN).

(** [NuPlayer::finishFlushIfPossible]. *)
Definition finishFlushIfPossible : M unit :=
  flushingAudio <- get mFlushingAudio ;;
  if transitional flushingAudio then skip
  else
    flushingVideo <- get mFlushingVideo ;;
    if transitional flushingVideo then skip
    else
      (pending <- get mTimeDiscontinuityPending ;;
       when pending
         (callRenderer RendererSignalTimeDiscontinuity ;;
          modify (set_mTimeDiscontinuityPending false))) ;;
      (audioDecoder <- get mAudioDecoder ;;
       flushingAudio <- get mFlushingAudio ;;
       match audioDecoder with
       | Some d =>
           when (FlushStatus_eqb flushingAudio FLUSHED)
             (emit (DecoderSignalResume d))
       | None => skip
       end) ;;
      (videoDecoder <- get mVideoDecoder ;;
       flushingVideo <- get mFlushingVideo ;;
       match videoDecoder with
       | Some d =>
           when (FlushStatus_eqb flushingVideo FLUSHED)
             (emit (DecoderSignalResume d))
       | None => skip
       end) ;;
      modify (set_mFlushingAudio NONE) ;;
      modify (set_mFlushingVideo NONE) ;;
      processDeferredActions.


(** [NuPlayer::closeAudioSink]. *)
Definition closeAudioSink : M unit :=
  callAudioSink AudioSinkClose ;;
  modify (set_mCurrentOffloadInfo AUDIO_INFO_INITIALIZER).

(** [x & flag] read as a condition, [flags |= flag], [flags &= ~flag] on
    32-bit words. *)
Definition testFlag (x flag : Z) : bool := negb (Z.land x flag =? 0).
Definition setFlag (flags flag : Z) : Z := Z.lor flags flag.
Definition clearFlag (flags flag : Z) : Z := Z.land flags (uint32 (Z.lnot flag)).

(** The [flags] local of [openAudioSink] as first computed: the deep buffer
    is asked for when there is no video decoder and the source is longer
    than the threshold.  The source is consulted only without a video
    decoder. *)
Definition initialSinkFlags : M Z :=
  videoDecoder <- get mVideoDecoder ;;
  if isNull videoDecoder then
    source <- get mSource ;;
    s <- deref source ;;
    let '(err, durationUs) := getDuration s in
    if (err =? OK) && (durationUs >? AUDIO_SINK_MIN_DEEP_BUFFER_DURATION_US)
    then ret AUDIO_OUTPUT_FLAG_DEEP_BUFFER
    else ret AUDIO_OUTPUT_FLAG_NONE
  else ret AUDIO_OUTPUT_FLAG_NONE.

(** The [offloadInfo] local of [openAudioSink]. *)
Definition makeOffloadInfo (fmt : AMessage) (sampleRate channelMask audioFormat
    avgBitRate : Z) (hasVideo : bool) : audio_offload_info_t :=
  {| version := version AUDIO_INFO_INITIALIZER;
     size := size AUDIO_INFO_INITIALIZER;
     sample_rate := uint32 sampleRate;
     channel_mask := uint32 channelMask;
     format := audioFormat;
     stream_type := AUDIO_STREAM_MUSIC;
     bit_rate := uint32 avgBitRate;
     duration_us :=
       match findInt64 "durationUs" fmt with Some d => d | None => -1 end;
     has_video := hasVideo;
     is_streaming := true |}.

(** The audio format the offload branch of [openAudioSink] settles on, once
    the mime type has been mapped: AAC is refined by its profile. *)
Definition refineAudioFormat (fmt : AMessage) (audioFormat : Z) : Z :=
  if audioFormat =? AUDIO_FORMAT_AAC then
    match findInt32 "aac-profile" fmt with
    | Some aacProfile => mapAACProfileToAudioFormat audioFormat aacProfile
    | None => audioFormat
    end
  else audioFormat.

(** The block [if (mOffloadAudio) { ... }] of [openAudioSink].  [None] is
    the [return] taken when the offload configuration has not changed;
    otherwise the block hands on [flags] and [audioSinkChanged]. *)
Definition openOffloadSink (fmt : AMessage) (numChannels channelMask
    sampleRate flags : Z) : M (option (Z * bool)) :=
  mime <- CHECK_found (findString "mime" fmt) ;;
  let '(err, audioFormat) := mapMimeToAudioFormat AUDIO_FORMAT_PCM_16_BIT mime in
  if negb (err =? OK) then
    modify (set_mOffloadAudio false) ;;
    ret (Some (flags, false))
  else
    let avgBitRate :=
      match findInt32 "bit-rate" fmt with Some b => b | None => -1 end in
    let audioFormat := refineAudioFormat fmt audioFormat in
    videoDecoder <- get mVideoDecoder ;;
    let offloadInfo :=
      makeOffloadInfo fmt sampleRate channelMask audioFormat avgBitRate
        (negb (isNull videoDecoder)) in
    current <- get mCurrentOffloadInfo ;;
    if offload_info_eqb current offloadInfo then
      (* no change from previous configuration, everything ok. *)
      ret None
    else
      let flags := setFlag flags AUDIO_OUTPUT_FLAG_COMPRESS_OFFLOAD in
      let flags := clearFlag flags AUDIO_OUTPUT_FLAG_DEEP_BUFFER in
      callAudioSink AudioSinkClose ;;
      sink <- get mAudioSink ;;
      sink <- deref sink ;;
      let args :=
        {| openSampleRate := sampleRate;
           openChannelCount := numChannels;
           openChannelMask := uint32 channelMask;
           openFormat := audioFormat;
           openBufferCount := 8;
           openCallback := true;
           openFlags := flags;
           openOffloadInfo := Some offloadInfo |} in
      emit (AudioSinkOpen args) ;;
      let err := sinkOpen sink args in
      err <-
        (if err =? OK then
           (* If the playback is offloaded to h/w, we pass the HAL some
              metadata information. *)
           source <- get mSource ;;
           s <- deref source ;;
           emit (SendMetaDataToHal (getFormatMeta s true)) ;;
           modify (set_mCurrentOffloadInfo offloadInfo) ;;
           emit AudioSinkStart ;;
           ret (sinkStart sink)
         else ret err) ;;
      (if negb (err =? OK) then
         (* Clean up, fall back to non offload mode. *)
         callAudioSink AudioSinkClose ;;
         callRenderer RendererSignalDisableOffloadAudio ;;
         modify (set_mOffloadAudio false) ;;
         modify (set_mCurrentOffloadInfo AUDIO_INFO_INITIALIZER)
       else skip) ;;
      ret (Some (flags, true)).

(** [NuPlayer::openAudioSink].  [format] is the [sp<AMessage>] argument,
    which a caller may pass null. *)
Definition openAudioSink (format : option AMessage) (offloadOnly : bool)
  : M unit :=
  fmt <- deref format ;;
  numChannels <- CHECK_found (findInt32 "channel-count" fmt) ;;
  let channelMask :=
    match findInt32 "channel-mask" fmt with
    | Some m => m
    | None => CHANNEL_MASK_USE_CHANNEL_ORDER
    end in
  sampleRate <- CHECK_found (findInt32 "sample-rate" fmt) ;;
  flags <- initialSinkFlags ;;
  offloadAudio <- get mOffloadAudio ;;
  r <- (if offloadAudio
        then openOffloadSink fmt numChannels channelMask sampleRate flags
        else ret (Some (flags, false))) ;;
  match r with
  | None => skip
  | Some (flags, audioSinkChanged) =>
      offloadAudio <- get mOffloadAudio ;;
      audioSinkChanged <-
        (if negb offloadOnly && negb offloadAudio then
           let flags := clearFlag flags AUDIO_OUTPUT_FLAG_COMPRESS_OFFLOAD in
           callAudioSink AudioSinkClose ;;
           modify (set_mCurrentOffloadInfo AUDIO_INFO_INITIALIZER) ;;
           sink <- get mAudioSink ;;
           sink <- deref sink ;;
           let args :=
             {| openSampleRate := sampleRate;
                openChannelCount := numChannels;
                openChannelMask := uint32 channelMask;
                openFormat := AUDIO_FORMAT_PCM_16_BIT;
                openBufferCount := 8;
                openCallback := false;
                openFlags := flags;
                openOffloadInfo := None |} in
           emit (AudioSinkOpen args) ;;
           CHECK (sinkOpen sink args =? OK) ;;
           emit AudioSinkStart ;;
           ret true
         else ret audioSinkChanged) ;;
      when audioSinkChanged (callRenderer RendererSignalAudioSinkChanged)
  end.

(** The [sp<Decoder> *decoder] argument of [instantiateDecoder]: the call
    sites pass the address of one of the two decoder members. *)
Inductive DecoderSlot : Type := AudioDecoderSlot | VideoDecoderSlot.

Definition readSlot (slot : DecoderSlot) (p : NuPlayer) : option Decoder :=
  match slot with
  | AudioDecoderSlot => mAudioDecoder p
  | VideoDecoderSlot => mVideoDecoder p
  end.

Definition writeSlot (slot : DecoderSlot) (d : option Decoder) (p : NuPlayer)
  : NuPlayer :=
  match slot with
  | AudioDecoderSlot => set_mAudioDecoder d p
  | VideoDecoderSlot => set_mVideoDecoder d p
  end.

(** [NuPlayer::instantiateDecoder]. *)
Definition instantiateDecoder (audio : bool) (decoder : DecoderSlot)
  : M status_t :=
  existing <- get (readSlot decoder) ;;
  if negb (isNull existing) then ret OK
  else
    source <- get mSource ;;
    s <- deref source ;;
    match getFormat s audio with
    | None => ret (- EWOULDBLOCK)
    | Some fmt =>
        secure <- get (fun p => testFlag (mSourceFlags p) FLAG_SECURE) ;;
        fmt <-
          (if negb audio then
             mime <- CHECK_found (findString "mime" fmt) ;;
             modify (set_mVideoIsAVC
                       (strcasecmp_eq MEDIA_MIMETYPE_VIDEO_AVC mime)) ;;
             modify (set_mCCDecoder
                       (Some {| ccNotify := Message kWhatClosedCaptionNotify [];
                                isSelected := false |})) ;;
             ret (if secure then setInt32 "secure" 1 fmt else fmt)
           else ret fmt) ;;
        d <-
          (if audio then
             modify (fun p =>
               set_mAudioDecoderGeneration
                 (incr32 (mAudioDecoderGeneration p)) p) ;;
             generation <- get mAudioDecoderGeneration ;;
             let notify :=
               setInt32 "generation" generation (Message kWhatAudioNotify []) in
             offloadAudio <- get mOffloadAudio ;;
             ret {| decoderPassThrough := offloadAudio;
                    decoderNotify := notify;
                    decoderNativeWindow := None |}
           else
             modify (fun p =>
               set_mVideoDecoderGeneration
                 (incr32 (mVideoDecoderGeneration p)) p) ;;
             generation <- get mVideoDecoderGeneration ;;
             let notify :=
               setInt32 "generation" generation (Message kWhatVideoNotify []) in
             window <- get mNativeWindow ;;
             ret {| decoderPassThrough := false;
                    decoderNotify := notify;
                    decoderNativeWindow := window |}) ;;
        modify (writeSlot decoder (Some d)) ;;
        emit (DecoderInit d) ;;
        emit (DecoderConfigure d fmt) ;;
        (* allocate buffers to decrypt widevine source buffers *)
        if negb audio && secure then
          let '(err, inputBufs) := getInputBuffers d in
          CHECK (err =? OK) ;;
          emit (SourceSetBuffers audio inputBufs) ;;
          let err := setBuffers s audio inputBufs in
          if negb (err =? OK) then ret err else ret OK
        else ret OK
    end.

(** The player's source with the pending access units of one stream
    replaced: the source after a [dequeueAccessUnit]. *)
Definition advanceSource (s : Source) : M unit :=
  modify (set_mSource (Some s)).

(** The branch [err == INFO_DISCONTINUITY] of [feedDecoderInputData]: the
    value is the status to put in the reply, or [None] when the function
    returns [-EWOULDBLOCK] because the stream is unaffected. *)
Definition handleDiscontinuity (audio : bool) (accessUnit : option ABuffer)
  : M (option status_t) :=
  au <- deref accessUnit ;;
  type <- CHECK_found (findInt32 "discontinuity" (meta au)) ;;
  let formatChange :=
    (audio && testFlag type DISCONTINUITY_AUDIO_FORMAT)
    || (negb audio && testFlag type DISCONTINUITY_VIDEO_FORMAT) in
  let timeChange := testFlag type DISCONTINUITY_TIME in
  (if audio then modify (set_mSkipRenderingAudioUntilMediaTimeUs (-1))
   else modify (set_mSkipRenderingVideoUntilMediaTimeUs (-1))) ;;
  (if timeChange then
     match findMessage "extra" (meta au) with
     | Some extra =>
         match findInt64 "resume-at-mediatimeUs" extra with
         | Some resumeAtMediaTimeUs =>
             if audio
             then modify (set_mSkipRenderingAudioUntilMediaTimeUs
                            resumeAtMediaTimeUs)
             else modify (set_mSkipRenderingVideoUntilMediaTimeUs
                            resumeAtMediaTimeUs)
         | None => skip
         end
     | None => skip
     end
   else skip) ;;
  modify (fun p =>
    set_mTimeDiscontinuityPending (mTimeDiscontinuityPending p || timeChange) p) ;;
  source <- get mSource ;;
  s <- deref source ;;
  let newFormat := getFormat s audio in
  seamlessFormatChange <-
    (if formatChange then
       decoder <- get (getDecoder audio) ;;
       d <- deref decoder ;;
       ret (supportsSeamlessFormatChange d newFormat)
     else ret false) ;;
  (* treat seamless format change separately *)
  let formatChange := if formatChange then negb seamlessFormatChange else false in
  let shutdownOrFlush := formatChange || timeChange in
  (* We want to queue up scan-sources only once per discontinuity. *)
  (idle <- get (fun p => negb (flushInProgress p)) ;;
   when (idle && shutdownOrFlush)
     (modify (fun p =>
        set_mDeferredActions
          (SimpleAction performScanSources_fn :: mDeferredActions p) p))) ;;
  if formatChange then
    (* must change decoder *)
    flushDecoder audio true None ;; ret (Some INFO_DISCONTINUITY)
  else if timeChange then
    (* need to flush *)
    flushDecoder audio false newFormat ;; ret (Some OK)
  else if seamlessFormatChange then
    (* reuse existing decoder and don't flush *)
    updateDecoderFormatWithoutFlush audio newFormat ;; ret (Some OK)
  else
    (* This stream is unaffected by the discontinuity *)
    ret None.

(** Whether [feedDecoderInputData] drops the access unit it dequeued. *)
Definition dropsAccessUnit (audio : bool) (accessUnit : ABuffer)
    (p : NuPlayer) : bool :=
  negb audio
  && negb (testFlag (mSourceFlags p) FLAG_SECURE)
  && (mVideoLateByUs p >? 100000)
  && mVideoIsAVC p
  && negb (IsAVCReferenceFrame accessUnit).

(** The [do { ... } while (dropAccessUnit)] loop of [feedDecoderInputData]
    with what follows it, by recursion on the access units the source has
    pending for the stream at the loop head.  Each round takes the front
    answer off the source ([Source::dequeueAccessUnit]); an exhausted source
    answers [-EWOULDBLOCK].  Between the dequeue of a dropped unit and the
    next round only the frame counters change, so the pending units at the
    next loop head are the tail.  [accessUnit] is the local of that name,
    which keeps its value when the source stores nothing. *)
Fixpoint feedLoop (audio : bool) (reply : AMessage)
    (pending : list DequeueResult) (accessUnit : option ABuffer)
  : M status_t :=
  match pending with
  | [] => ret (- EWOULDBLOCK)
  | (err, stored) :: rest =>
      (source <- get mSource ;;
       s <- deref source ;;
       advanceSource (setAccessUnits audio rest s)) ;;
      let accessUnit :=
        match stored with Some b => Some b | None => accessUnit end in
      if err =? - EWOULDBLOCK then ret err
      else if negb (err =? OK) then
        if err =? INFO_DISCONTINUITY then
          r <- handleDiscontinuity audio accessUnit ;;
          match r with
          | None => ret (- EWOULDBLOCK)
          | Some err =>
              emit (Post (setInt32 "err" err reply) 0) ;; ret OK
          end
        else
          emit (Post (setInt32 "err" err reply) 0) ;; ret OK
      else
        when (negb audio)
          (modify (fun p => set_mNumFramesTotal (incr64 (mNumFramesTotal p)) p)) ;;
        au <- deref accessUnit ;;
        dropAccessUnit <- get (dropsAccessUnit audio au) ;;
        if dropAccessUnit then
          modify (fun p =>
            set_mNumFramesDropped (incr64 (mNumFramesDropped p)) p) ;;
          feedLoop audio reply rest accessUnit
        else
          (if negb audio then
             cc <- get mCCDecoder ;;
             _ <- deref cc ;;
             emit (CCDecoderDecode au)
           else skip) ;;
          emit (Post (setBuffer "buffer" au reply) 0) ;;
          ret OK
  end.

(** The stream is in a flush: the guard shared by [feedDecoderInputData]
    and [renderBuffer]. *)
Definition streamFlushing (audio : bool) (p : NuPlayer) : bool :=
  (audio && negb (FlushStatus_eqb (mFlushingAudio p) NONE))
  || (negb audio && negb (FlushStatus_eqb (mFlushingVideo p) NONE)).

(** [NuPlayer::feedDecoderInputData]. *)
Definition feedDecoderInputData (audio : bool) (msg : AMessage) : M status_t :=
  reply <- CHECK_found (findMessage "reply" msg) ;;
  flushing <- get (streamFlushing audio) ;;
  if flushing then
    emit (Post (setInt32 "err" INFO_DISCONTINUITY reply) 0) ;;
    ret OK
  else
    source <- get mSource ;;
    s <- deref source ;;
    feedLoop audio reply (accessUnits audio s) None.


(** [NuPlayer::renderBuffer]. *)
Definition renderBuffer (audio : bool) (msg : AMessage) : M unit :=
  reply <- CHECK_found (findMessage "reply" msg) ;;
  flushing <- get (streamFlushing audio) ;;
  if flushing then
    (* We're currently attempting to flush the decoder: send its output
       buffer right back. *)
    emit (Post reply 0)
  else
    buffer <- CHECK_found (findBuffer "buffer" msg) ;;
    mediaTimeUs <- CHECK_found (findInt64 "timeUs" (meta buffer)) ;;
    skipUntilMediaTimeUs <-
      get (if audio then mSkipRenderingAudioUntilMediaTimeUs
           else mSkipRenderingVideoUntilMediaTimeUs) ;;
    if (skipUntilMediaTimeUs >=? 0) && (mediaTimeUs <? skipUntilMediaTimeUs)
    then emit (Post reply 0)
    else
      when (skipUntilMediaTimeUs >=? 0)
        (if audio then modify (set_mSkipRenderingAudioUntilMediaTimeUs (-1))
         else modify (set_mSkipRenderingVideoUntilMediaTimeUs (-1))) ;;
      (if negb audio then
         cc <- get mCCDecoder ;;
         cc <- deref cc ;;
         when (isSelected cc) (emit (CCDecoderDisplay mediaTimeUs))
       else skip) ;;
      callRenderer (RendererQueueBuffer audio buffer reply).

(** [NuPlayer::updateVideoSize]. *)
Definition updateVideoSize (inputFormat outputFormat : option AMessage)
  : M unit :=
  match inputFormat with
  | None => notifyListener MEDIA_SET_VIDEO_SIZE 0 0 None
  | Some input =>
      dims <-
        match outputFormat with
        | Some output =>
            _ <- CHECK_found (findInt32 "width" output) ;;
            _ <- CHECK_found (findInt32 "height" output) ;;
            crop <- CHECK_found (findRect "crop" output) ;;
            let '(cropLeft, cropTop, cropRight, cropBottom) := crop in
            ret (int32 (cropRight - cropLeft + 1),
                 int32 (cropBottom - cropTop + 1))
        | None =>
            displayWidth <- CHECK_found (findInt32 "width" input) ;;
            displayHeight <- CHECK_found (findInt32 "height" input) ;;
            ret (displayWidth, displayHeight)
        end ;;
      let '(displayWidth, displayHeight) := dims in
      (* Take into account sample aspect ratio if necessary: *)
      displayWidth <-
        match findInt32 "sar-width" input, findInt32 "sar-height" input with
        | Some sarWidth, Some sarHeight =>
            if sarHeight =? 0 then abort DivisionFault
            else ret (int32 (Z.quot (int32 (displayWidth * sarWidth)) sarHeight))
        | _, _ => ret displayWidth
        end ;;
      let rotationDegrees :=
        match findInt32 "rotation-degrees" input with
        | Some r => r
        | None => 0
        end in
      if (rotationDegrees =? 90) || (rotationDegrees =? 270)
      then notifyListener MEDIA_SET_VIDEO_SIZE displayHeight displayWidth None
      else notifyListener MEDIA_SET_VIDEO_SIZE displayWidth displayHeight None
  end.

(** The generation of the decoder a notification must come from. *)
Definition currentDecoderGeneration (audio : bool) (p : NuPlayer) : Z :=
  if audio then mAudioDecoderGeneration p else mVideoDecoderGeneration p.

(** [NuPlayer::onMessageReceived], [case kWhatVideoNotify:] and
    [case kWhatAudioNotify:] — a notification from a decoder. *)
Definition onDecoderNotify (msg : AMessage) : M unit :=
  let audio := what msg =? kWhatAudioNotify in
  currentGeneration <- get (currentDecoderGeneration audio) ;;
  requesterGeneration <- CHECK_found (findInt32 "generation" msg) ;;
  if negb (requesterGeneration =? currentGeneration) then
    (* got message from old decoder *)
    match findMessage "reply" msg with
    | None => skip
    | Some reply => emit (Post (setInt32 "err" INFO_DISCONTINUITY reply) 0)
    end
  else
    kind <- CHECK_found (findInt32 "what" msg) ;;
    if kind =? Decoder_kWhatFillThisBuffer then
      err <- feedDecoderInputData audio msg ;;
      if err =? - EWOULDBLOCK then
        source <- get mSource ;;
        s <- deref source ;;
        emit SourceFeedMoreTSData ;;
        when (feedMoreTSData s =? OK) (emit (Post msg 10000))
      else skip
    else if kind =? Decoder_kWhatEOS then
      err <- CHECK_found (findInt32 "err" msg) ;;
      callRenderer (RendererQueueEOS audio err)
    else if kind =? Decoder_kWhatFlushCompleted then
      state <- get (if audio then mFlushingAudio else mFlushingVideo) ;;
      let '(flushing, needShutdown) := IsFlushingState state in
      CHECK flushing ;;
      (if audio then modify (set_mFlushingAudio FLUSHED)
       else modify (set_mFlushingVideo FLUSHED) ;;
            modify (set_mVideoLateByUs 0)) ;;
      (if match needShutdown with Some b => b | None => false end then
         decoder <- get (getDecoder audio) ;;
         d <- deref decoder ;;
         emit (DecoderInitiateShutdown d) ;;
         if audio then modify (set_mFlushingAudio SHUTTING_DOWN_DECODER)
         else modify (set_mFlushingVideo SHUTTING_DOWN_DECODER)
       else skip) ;;
      finishFlushIfPossible
    else if kind =? Decoder_kWhatOutputFormatChanged then
      fmt <- CHECK_found (findMessage "format" msg) ;;
      if audio then openAudioSink (Some fmt) false
      else
        source <- get mSource ;;
        s <- deref source ;;
        updateVideoSize (getFormat s false) (Some fmt)
    else if kind =? Decoder_kWhatShutdownCompleted then
      (if audio then
         modify (set_mAudioDecoder None) ;;
         (state <- get mFlushingAudio ;;
          CHECK (FlushStatus_eqb state SHUTTING_DOWN_DECODER)) ;;
         modify (set_mFlushingAudio SHUT_DOWN)
       else
         modify (set_mVideoDecoder None) ;;
         (state <- get mFlushingVideo ;;
          CHECK (FlushStatus_eqb state SHUTTING_DOWN_DECODER)) ;;
         modify (set_mFlushingVideo SHUT_DOWN)) ;;
      finishFlushIfPossible
    else if kind =? Decoder_kWhatError then
      let err :=
        match findInt32 "err" msg with Some e => e | None => UNKNOWN_ERROR end in
      callRenderer (RendererQueueEOS audio err) ;;
      (flushingAudio <- get mFlushingAudio ;;
       flushingVideo <- get mFlushingVideo ;;
       if audio && negb (FlushStatus_eqb flushingAudio NONE) then
         modify (set_mAudioDecoder None) ;;
         modify (set_mFlushingAudio SHUT_DOWN)
       else if negb audio && negb (FlushStatus_eqb flushingVideo NONE) then
         modify (set_mVideoDecoder None) ;;
         modify (set_mFlushingVideo SHUT_DOWN)
       else skip) ;;
      finishFlushIfPossible
    else if kind =? Decoder_kWhatDrainThisBuffer then
      renderBuffer audio msg
    else
      (* Unhandled decoder notification: logged only. *)
      skip.

(** [NuPlayer::onMessageReceived], [case kWhatRendererNotify:] — a
    notification from the renderer. *)
Definition onRendererNotify (msg : AMessage) : M unit :=
  kind <- CHECK_found (findInt32 "what" msg) ;;
  if kind =? Renderer_kWhatEOS then
    audio <- CHECK_found (findInt32 "audio" msg) ;;
    finalResult <- CHECK_found (findInt32 "finalResult" msg) ;;
    (if negb (audio =? 0) then modify (set_mAudioEOS true)
     else modify (set_mVideoEOS true)) ;;
    (if finalResult =? ERROR_END_OF_STREAM then skip
     else notifyListener MEDIA_ERROR MEDIA_ERROR_UNKNOWN finalResult None) ;;
    done <- get (fun p =>
      (mAudioEOS p || isNull (mAudioDecoder p))
      && (mVideoEOS p || isNull (mVideoDecoder p))) ;;
    when done (notifyListener MEDIA_PLAYBACK_COMPLETE 0 0 None)
  else if kind =? Renderer_kWhatPosition then
    positionUs <- CHECK_found (findInt64 "positionUs" msg) ;;
    modify (set_mCurrentPositionUs positionUs) ;;
    (videoLateByUs <- CHECK_found (findInt64 "videoLateByUs" msg) ;;
     modify (set_mVideoLateByUs videoLateByUs)) ;;
    total <- get mNumFramesTotal ;;
    dropped <- get mNumFramesDropped ;;
    withDriver [DriverNotifyPosition positionUs;
                DriverNotifyFrameStats total dropped]
  else if kind =? Renderer_kWhatFlushComplete then
    _ <- CHECK_found (findInt32 "audio" msg) ;;
    skip
  else if kind =? Renderer_kWhatVideoRenderingStart then
    notifyListener MEDIA_INFO MEDIA_INFO_RENDERING_START 0 None
  else if kind =? Renderer_kWhatMediaRenderingStart then
    notifyListener MEDIA_STARTED 0 0 None
  else if kind =? Renderer_kWhatAudioOffloadTearDown then
    (* Tear down audio offload, fall back to s/w path *)
    positionUs <- CHECK_found (findInt64 "positionUs" msg) ;;
    closeAudioSink ;;
    modify (set_mAudioDecoder None) ;;
    callRenderer (RendererFlush true) ;;
    (videoDecoder <- get mVideoDecoder ;;
     when (negb (isNull videoDecoder)) (callRenderer (RendererFlush false))) ;;
    callRenderer RendererSignalDisableOffloadAudio ;;
    modify (set_mOffloadAudio false) ;;
    performSeek positionUs ;;
    _ <- instantiateDecoder true AudioDecoderSlot ;;
    skip
  else skip.

(** [NuPlayer::onMessageReceived], [case kWhatReset:]. *)
Definition onReset : M unit :=
  modify (fun p =>
    set_mDeferredActions
      (mDeferredActions p ++ [ShutdownDecoderAction true true]) p) ;;
  modify (fun p =>
    set_mDeferredActions
      (mDeferredActions p ++ [SimpleAction performReset_fn]) p) ;;
  processDeferredActions.

(** [NuPlayer::onMessageReceived], [case kWhatSeek:]. *)
Definition onSeek (msg : AMessage) : M unit :=
  seekTimeUs <- CHECK_found (findInt64 "seekTimeUs" msg) ;;
  modify (fun p =>
    set_mDeferredActions
      (mDeferredActions p ++ [SimpleAction performDecoderFlush_fn]) p) ;;
  modify (fun p =>
    set_mDeferredActions (mDeferredActions p ++ [SeekAction seekTimeUs]) p) ;;
  processDeferredActions.

(** [NuPlayer::queueDecoderShutdown]. *)
Definition queueDecoderShutdown (audio video : bool) (reply : AMessage)
  : M unit :=
  modify (fun p =>
    set_mDeferredActions
      (mDeferredActions p ++ [ShutdownDecoderAction audio video]) p) ;;
  modify (fun p =>
    set_mDeferredActions
      (mDeferredActions p ++ [SimpleAction performScanSources_fn]) p) ;;
  modify (fun p =>
    set_mDeferredActions (mDeferredActions p ++ [PostMessageAction reply]) p) ;;
  processDeferredActions.


(** ** Further handlers of [onMessageReceived] *)

(** Two more declarations of headers outside the translated file:
    [Source::FLAG_DYNAMIC_DURATION] (NuPlayerSource.h) and the kind of the
    duration-poll message (NuPlayer.h). *)
Class DurationPolling : Type := {
  FLAG_DYNAMIC_DURATION : Z;
  kWhatPollDuration : Z
}.

Context {polling : DurationPolling}.

(** [NuPlayer::schedulePollDuration]. *)
Definition schedulePollDuration : M unit :=
  generation <- get mPollDurationGeneration ;;
  emit (Post (setInt32 "generation" generation (Message kWhatPollDuration []))
          0).

(** [mAudioDecoder != NULL || mVideoDecoder != NULL]. *)
Definition haveAnyDecoder (p : NuPlayer) : bool :=
  negb (isNull (mAudioDecoder p)) || negb (isNull (mVideoDecoder p)).

(** [NuPlayer::onMessageReceived], [case kWhatScanSources:].  The statuses
    of the two [instantiateDecoder] calls are ignored, as in the source. *)
Definition onScanSources (msg : AMessage) : M unit :=
  generation <- CHECK_found (findInt32 "generation" msg) ;;
  current <- get mScanSourcesGeneration ;;
  if negb (generation =? current) then
    (* Drop obsolete msg. *)
    skip
  else
    modify (set_mScanSourcesPending false) ;;
    mHadAnySourcesBefore <- get haveAnyDecoder ;;
    (* initialize video before audio because successful initialization of
       video may change deep buffer mode of audio. *)
    (window <- get mNativeWindow ;;
     when (negb (isNull window))
       (_ <- instantiateDecoder false VideoDecoderSlot ;; skip)) ;;
    (sink <- get mAudioSink ;;
     when (negb (isNull sink))
       ((offloadAudio <- get mOffloadAudio ;;
         when offloadAudio
           (* open audio sink early under offload mode. *)
           (source <- get mSource ;;
            s <- deref source ;;
            openAudioSink (getFormat s true) true)) ;;
        _ <- instantiateDecoder true AudioDecoderSlot ;; skip)) ;;
    (haveAny <- get haveAnyDecoder ;;
     when (negb mHadAnySourcesBefore && haveAny)
       (* This is the first time we've found anything playable. *)
       (flags <- get mSourceFlags ;;
        when (testFlag flags FLAG_DYNAMIC_DURATION) schedulePollDuration)) ;;
    source <- get mSource ;;
    s <- deref source ;;
    emit SourceFeedMoreTSData ;;
    let err := feedMoreTSData s in
    if negb (err =? OK) then
      haveAny <- get haveAnyDecoder ;;
      when (negb haveAny)
        (* We're not currently decoding anything (no audio or video tracks
           found) and we just ran out of input data. *)
        (if err =? ERROR_END_OF_STREAM
         then notifyListener MEDIA_PLAYBACK_COMPLETE 0 0 None
         else notifyListener MEDIA_ERROR MEDIA_ERROR_UNKNOWN err None)
    else
      again <- get (fun p =>
        (isNull (mAudioDecoder p) && negb (isNull (mAudioSink p)))
        || (isNull (mVideoDecoder p) && negb (isNull (mNativeWindow p)))) ;;
      when again
        (emit (Post msg 100000) ;;
         modify (set_mScanSourcesPending true)).

(** [NuPlayer::onMessageReceived], [case kWhatSetVideoNativeWindow:].
    [found] is what [msg->findObject("native-window", &obj)] yields: nothing
    when the message has no such item, otherwise the object, which
    [setVideoSurfaceTextureAsync] sets to null for a null producer. *)
Definition onSetVideoNativeWindow
    (found : option (option NativeWindowWrapper)) : M unit :=
  modify (fun p =>
    set_mDeferredActions
      (mDeferredActions p ++ [ShutdownDecoderAction false true]) p) ;;
  obj <- CHECK_found found ;;
  modify (fun p =>
    set_mDeferredActions (mDeferredActions p ++ [SetSurfaceAction obj]) p) ;;
  (if negb (isNull obj) then
     position <- get mCurrentPositionUs ;;
     modify (fun p =>
       set_mDeferredActions (mDeferredActions p ++ [SeekAction position]) p) ;;
     (* If there is a new surface texture, instantiate decoders again if
        possible. *)
     modify (fun p =>
       set_mDeferredActions
         (mDeferredActions p ++ [SimpleAction performScanSources_fn]) p)
   else skip) ;;
  processDeferredActions.

(** [NuPlayer::onSourceNotify], [case Source::kWhatQueueDecoderShutdown:]. *)
Definition onQueueDecoderShutdown (msg : AMessage) : M unit :=
  audio <- CHECK_found (findInt32 "audio" msg) ;;
  video <- CHECK_found (findInt32 "video" msg) ;;
  reply <- CHECK_found (findMessage "reply" msg) ;;
  queueDecoderShutdown (negb (audio =? 0)) (negb (video =? 0)) reply.


(** ** Vocabulary of the properties *)

(** A computation leaves the observation [f] of the player as it was. *)
Definition preserves {A B} (f : NuPlayer -> A) (m : M B) : Prop :=
  forall p b p', m p = Done b p' -> f p' = f p.

(** The driver calls that get through a weak reference in state [d]. *)
Definition delivered (d : WeakDriver) (calls : list Effect) : list Effect :=
  if driverSet d && promote d then calls else [].

(** The resume signal owed to one stream at the end of a flush: its decoder
    is still there and the stream is [FLUSHED]. *)
Definition resumeSignal (decoder : option Decoder) (status : FlushStatus)
  : list Effect :=
  match decoder with
  | Some d =>
      if FlushStatus_eqb status FLUSHED then [DecoderSignalResume d] else []
  | None => []
  end.

(** What [finishFlushIfPossible] signals once both streams are settled. *)
Definition flushSignals (p : NuPlayer) : list Effect :=
  (if mTimeDiscontinuityPending p then [RendererSignalTimeDiscontinuity]
   else [])
  ++ resumeSignal (mAudioDecoder p) (mFlushingAudio p)
  ++ resumeSignal (mVideoDecoder p) (mFlushingVideo p).

(** The player at the point where [finishFlushIfPossible] hands over to
    [processDeferredActions]. *)
Definition flushFinished (p : NuPlayer) : NuPlayer :=
  set_mFlushingVideo NONE
    (set_mFlushingAudio NONE
       (set_mTimeDiscontinuityPending false
          (set_effects (effects p ++ flushSignals p) p))).

Definition stableStatus (s : FlushStatus) : Prop :=
  s = NONE \/ s = FLUSHED \/ s = SHUT_DOWN.

(** An execution log takes the actions off the front of [queue], one after
    the other: each entry is the front action, run on a player from whose
    queue it has been erased and whose two flush statuses are [NONE]. *)
Fixpoint poppedInOrder (queue : list Action) (log : list (Action * NuPlayer))
    {struct log} : Prop :=
  match log, queue with
  | [], _ => True
  | (a, s) :: log', front :: rest =>
      a = front /\ mDeferredActions s = rest
      /\ mFlushingAudio s = NONE /\ mFlushingVideo s = NONE
      /\ poppedInOrder rest log'
  | _ :: _, [] => False
  end.

(** An execution log is the trace of a run of the deferred actions that
    starts at [p] and ends in [r].  Each entry's action is the front of the
    queue of the player reached so far, where no flush is in progress; the
    entry's player is that player with the action erased; [execute] is run
    on it, and the next entry starts from the player [execute] returns.
    After the last entry comes the outcome: the player the last execution
    returned, whose queue is empty or where a flush is in progress, or the
    abort of the last execution. *)
Fixpoint executedInOrder (p : NuPlayer) (log : list (Action * NuPlayer))
    (r : Result unit) {struct log} : Prop :=
  match log with
  | [] =>
      r = Done tt p /\ (mDeferredActions p = [] \/ flushInProgress p = true)
  | (a, s) :: log' =>
      flushInProgress p = false
      /\ (exists rest,
            mDeferredActions p = a :: rest /\ s = set_mDeferredActions rest p)
      /\ match execute a s with
         | Done _ p2 => executedInOrder p2 log' r
         | Aborted f => log' = [] /\ r = Aborted f
         end
  end.

(** The collaborator calls of [performReset]. *)
Definition resetCalls (p : NuPlayer) : list Effect :=
  match mRendererLooper p with
  | Some l =>
      match mRenderer p with
      | Some r => [LooperUnregisterHandler l r]
      | None => []
      end ++ [LooperStop l]
  | None => []
  end
  ++ match mSource p with Some _ => [SourceStop] | None => [] end
  ++ delivered (mDriver p) [DriverNotifyResetComplete].

(** The player [performReset] leaves behind. *)
Definition resetDone (p : NuPlayer) : NuPlayer :=
  set_mStarted false
    (set_effects (effects p ++ resetCalls p)
       (set_mSource None
          (set_mRenderer None
             (set_mRendererLooper None
                (set_mScanSourcesPending false
                   (set_mScanSourcesGeneration
                      (incr32 (mScanSourcesGeneration p))
                      (set_mPollDurationGeneration
                         (incr32 (mPollDurationGeneration p)) p))))))).

(** Every collaborator handle of the coordinator is absent: source, both
    decoders, renderer, audio sink, native window, closed-caption decoder
    and driver. *)
Definition allCollaboratorHandlesAbsent (p : NuPlayer) : Prop :=
  mSource p = None /\ mAudioDecoder p = None /\ mVideoDecoder p = None
  /\ mRenderer p = None /\ mAudioSink p = None /\ mNativeWindow p = None
  /\ mCCDecoder p = None /\ mDriver p = DriverNull.

(** Both streams have reached their end, a stream without decoder counting
    as ended. *)
Definition playbackComplete (p : NuPlayer) : bool :=
  (mAudioEOS p || isNull (mAudioDecoder p))
  && (mVideoEOS p || isNull (mVideoDecoder p)).

(** The EOS flag of the stream a renderer notification names. *)
Definition markEOS (audio : Z) (p : NuPlayer) : NuPlayer :=
  if audio =? 0 then set_mVideoEOS true p else set_mAudioEOS true p.

(** The decoder [instantiateDecoder] creates for audio when offload is off:
    a plain [Decoder] whose notifications carry the given generation. *)
Definition softwareAudioDecoder (generation : Z) : Decoder :=
  {| decoderPassThrough := false;
     decoderNotify :=
       setInt32 "generation" generation (Message kWhatAudioNotify []);
     decoderNativeWindow := None |}.

(** The collaborator calls of the audio-offload tear-down, in order, for a
    player [p] and a resume position: the sink is closed, the renderer
    flushed and told to leave offload, the source sought.  They end with the
    creation of the new decoder [d], configured with the source's audio
    format, when the source has one; without a format no decoder is
    created. *)
Definition tearDownCalls (p : NuPlayer) (positionUs : Z) (d : Decoder)
    (fmt : option AMessage) : list Effect :=
  [AudioSinkClose; RendererFlush true]
  ++ (if isNull (mVideoDecoder p) then [] else [RendererFlush false])
  ++ [RendererSignalDisableOffloadAudio; SourceSeekTo positionUs]
  ++ delivered (mDriver p)
       [DriverNotifyPosition positionUs; DriverNotifySeekComplete]
  ++ match fmt with
     | Some f => [DecoderInit d; DecoderConfigure d f]
     | None => []
     end.

(** The condition under which a dequeued video access unit is dropped:
    the source is not secure, video runs more than 100 ms late, the stream
    is AVC and the unit is not a reference frame. *)
Definition droppable (p : NuPlayer) (accessUnit : ABuffer) : Prop :=
  Z.land (mSourceFlags p) FLAG_SECURE = 0
  /\ 100000 < mVideoLateByUs p
  /\ mVideoIsAVC p = true
  /\ IsAVCReferenceFrame accessUnit = false.

(** The player after [feedDecoderInputData] dropped [dropped] video access
    units and delivered [accessUnit] in [reply], [rest] being what the source
    still holds for video. *)
Definition delivers (dropped : nat) (accessUnit : ABuffer) (reply : AMessage)
    (s : Source) (rest : list DequeueResult) (p : NuPlayer) : NuPlayer :=
  set_effects
    (effects p
     ++ [CCDecoderDecode accessUnit;
         Post (setBuffer "buffer" accessUnit reply) 0])
    (set_mNumFramesDropped (Nat.iter dropped incr64 (mNumFramesDropped p))
       (set_mNumFramesTotal (Nat.iter (S dropped) incr64 (mNumFramesTotal p))
          (set_mSource (Some (setAccessUnits false rest s)) p))).

(** The last effect of [p'] is the post of [reply], completed either with an
    ["err"] status or with the ["buffer"] that was asked for. *)
Definition replied (reply : AMessage) (p' : NuPlayer) : Prop :=
  exists earlier posted,
    effects p' = earlier ++ [Post posted 0]
    /\ ((exists err, posted = setInt32 "err" err reply)
        \/ (exists accessUnit, posted = setBuffer "buffer" accessUnit reply)).

(** The flush status of one stream. *)
Definition flushStatus (audio : bool) (p : NuPlayer) : FlushStatus :=
  if audio then mFlushingAudio p else mFlushingVideo p.

(** The offload configuration [openAudioSink] computes from [fmt] in offload
    mode; none when a key is missing or the mime type has no audio
    format. *)
Definition computedOffloadInfo (fmt : AMessage) (p : NuPlayer)
  : option audio_offload_info_t :=
  match findInt32 "sample-rate" fmt, findString "mime" fmt with
  | Some sampleRate, Some mime =>
      let channelMask :=
        match findInt32 "channel-mask" fmt with
        | Some m => m
        | None => CHANNEL_MASK_USE_CHANNEL_ORDER
        end in
      let avgBitRate :=
        match findInt32 "bit-rate" fmt with Some b => b | None => -1 end in
      let '(err, audioFormat) :=
        mapMimeToAudioFormat AUDIO_FORMAT_PCM_16_BIT mime in
      if err =? OK then
        Some (makeOffloadInfo fmt sampleRate channelMask
                (refineAudioFormat fmt audioFormat) avgBitRate
                (negb (isNull (mVideoDecoder p))))
      else None
  | _, _ => None
  end.

(** ** Vocabulary of the scenarios *)

(** [msg] is a notification of kind [kind] from the current decoder of one
    stream of [p]. *)
Definition notifies (msg : AMessage) (audio : bool) (kind : Z)
    (p : NuPlayer) : Prop :=
  (what msg =? kWhatAudioNotify) = audio
  /\ findInt32 "generation" msg = Some (currentDecoderGeneration audio p)
  /\ findInt32 "what" msg = Some kind.

(** The enumerators of [Decoder::kWhat...] differ from one another, and so
    do the two message kinds under which decoders notify. *)
Definition decoderKindsDistinct : Prop :=
  NoDup [Decoder_kWhatFillThisBuffer; Decoder_kWhatEOS;
         Decoder_kWhatFlushCompleted; Decoder_kWhatOutputFormatChanged;
         Decoder_kWhatShutdownCompleted; Decoder_kWhatError;
         Decoder_kWhatDrainThisBuffer]
  /\ kWhatVideoNotify <> kWhatAudioNotify.

(** A player at rest: no flush under way and nothing deferred. *)
Definition atRest (p : NuPlayer) : Prop :=
  mFlushingAudio p = NONE /\ mFlushingVideo p = NONE
  /\ mDeferredActions p = [].

(** The calls by which [flushDecoder] starts the flush of one stream, if
    the stream has a decoder. *)
Definition flushCalls (audio : bool) (decoder : option Decoder)
    (newFormat : option AMessage) : list Effect :=
  match decoder with
  | Some d => [DecoderSignalFlush d newFormat; RendererFlush audio]
  | None => []
  end.

(** The status [flushDecoder] leaves a stream in. *)
Definition flushingStatus (decoder : option Decoder) (needShutdown : bool)
  : FlushStatus :=
  match decoder with
  | Some _ =>
      if needShutdown then FLUSHING_DECODER_SHUTDOWN else FLUSHING_DECODER
  | None => NONE
  end.

(** The collaborator calls of [performSeek]. *)
Definition seekCalls (p : NuPlayer) (seekTimeUs : Z) : list Effect :=
  SourceSeekTo seekTimeUs
  :: delivered (mDriver p)
       [DriverNotifyPosition seekTimeUs; DriverNotifySeekComplete].

(** The message [postScanSources] posts for a scan generation. *)
Definition scanRequest (generation : Z) : AMessage :=
  setInt32 "generation" generation (Message kWhatScanSources []).

(** The decoder [instantiateDecoder] creates for video: a plain [Decoder]
    on the player's window whose notifications carry the given
    generation. *)
Definition videoDecoderFor (window : option NativeWindowWrapper)
    (generation : Z) : Decoder :=
  {| decoderPassThrough := false;
     decoderNotify :=
       setInt32 "generation" generation (Message kWhatVideoNotify []);
     decoderNativeWindow := window |}.

(** The message [schedulePollDuration] posts for a poll generation. *)
Definition pollRequest (generation : Z) : AMessage :=
  setInt32 "generation" generation (Message kWhatPollDuration []).

(** The formats hold the dimensions [updateVideoSize] reads: width, height
    and crop rectangle of the output format if there is one, else width and
    height of the input format. *)
Definition dimensionsKnown (input : AMessage) (output : option AMessage)
  : bool :=
  match output with
  | Some o =>
      match findInt32 "width" o, findInt32 "height" o, findRect "crop" o with
      | Some _, Some _, Some _ => true
      | _, _, _ => false
      end
  | None =>
      match findInt32 "width" input, findInt32 "height" input with
      | Some _, Some _ => true
      | _, _ => false
      end
  end.

(** [n] calls of [m] in a row. *)
Fixpoint times (n : nat) (m : M unit) : M unit :=
  match n with
  | O => skip
  | S n' => m ;; times n' m
  end.


End Coordinator.

(** ** A platform to run the model on

    Enumerators are four-character codes as in the Android headers; the
    helper functions are small stand-ins with the interface of the real
    ones. *)

Fixpoint fourcc_from (acc : Z) (s : string) : Z :=
  match s with
  | EmptyString => acc
  | String c s' => fourcc_from (acc * 256 + Z.of_nat (nat_of_ascii c)) s'
  end.
Definition fourcc (s : string) : Z := fourcc_from 0 s.

Definition sample_mapMimeToAudioFormat (fmt : Z) (mime : string)
  : status_t * Z :=
  if String.eqb mime "audio/mp4a-latm" then (OK, 67108864)
  else if String.eqb mime "audio/mpeg" then (OK, 16777216)
  else (-22, fmt).

(** The reference bit of the NAL header that opens the access unit. *)
Definition sample_IsAVCReferenceFrame (accessUnit : ABuffer) : bool :=
  match data accessUnit with
  | b :: _ => negb (Z.land (Z.shiftr b 5) 3 =? 0)
  | [] => true
  end.

Lemma sample_renderer_kinds_distinct :
  NoDup [fourcc "eos "; fourcc "posi"; fourcc "fluC"; fourcc "vdrd";
         fourcc "mdrd"; fourcc "aOTD"].
Proof.
  repeat (constructor; [ simpl; intuition discriminate | ]). constructor.
Qed.

Definition sample_platform : Platform :=
  {| INFO_DISCONTINUITY := -1013;
     ERROR_END_OF_STREAM := -1011;
     FLAG_SECURE := 32;
     DISCONTINUITY_TIME := 1;
     DISCONTINUITY_AUDIO_FORMAT := 2;
     DISCONTINUITY_VIDEO_FORMAT := 4;
     kWhatScanSources := fourcc "scan";
     kWhatVideoNotify := fourcc "vidN";
     kWhatAudioNotify := fourcc "audN";
     kWhatClosedCaptionNotify := fourcc "capN";
     Decoder_kWhatFillThisBuffer := fourcc "flTB";
     Decoder_kWhatDrainThisBuffer := fourcc "drTB";
     Decoder_kWhatOutputFormatChanged := fourcc "fmtC";
     Decoder_kWhatFlushCompleted := fourcc "flsC";
     Decoder_kWhatShutdownCompleted := fourcc "shDC";
     Decoder_kWhatEOS := fourcc "eos ";
     Decoder_kWhatError := fourcc "err ";
     Renderer_kWhatEOS := fourcc "eos ";
     Renderer_kWhatFlushComplete := fourcc "fluC";
     Renderer_kWhatPosition := fourcc "posi";
     Renderer_kWhatVideoRenderingStart := fourcc "vdrd";
     Renderer_kWhatMediaRenderingStart := fourcc "mdrd";
     Renderer_kWhatAudioOffloadTearDown := fourcc "aOTD";
     Renderer_kinds_distinct := sample_renderer_kinds_distinct;
     MEDIA_PLAYBACK_COMPLETE := 2;
     MEDIA_STARTED := 6;
     MEDIA_SET_VIDEO_SIZE := 5;
     MEDIA_ERROR := 100;
     MEDIA_INFO := 200;
     MEDIA_ERROR_UNKNOWN := 1;
     MEDIA_INFO_RENDERING_START := 3;
     AUDIO_SINK_MIN_DEEP_BUFFER_DURATION_US := 5000000;
     CHANNEL_MASK_USE_CHANNEL_ORDER := 0;
     AUDIO_OUTPUT_FLAG_NONE := 0;
     AUDIO_OUTPUT_FLAG_DEEP_BUFFER := 8;
     AUDIO_OUTPUT_FLAG_COMPRESS_OFFLOAD := 16;
     AUDIO_FORMAT_PCM_16_BIT := 1;
     AUDIO_FORMAT_AAC := 67108864;
     AUDIO_STREAM_MUSIC := 3;
     AUDIO_INFO_INITIALIZER :=
       {| version := 1; size := 40; sample_rate := 0; channel_mask := 0;
          format := 0; stream_type := 0; bit_rate := 0; duration_us := 0;
          has_video := false; is_streaming := false |};
     MEDIA_MIMETYPE_VIDEO_AVC := "video/avc";
     mapMimeToAudioFormat := sample_mapMimeToAudioFormat;
     mapAACProfileToAudioFormat := fun fmt profile => Z.lor fmt profile;
     convertMetaDataToMessage :=
       fun m => let 'TrackMeta entries := m in (OK, Message 0 entries);
     IsAVCReferenceFrame := sample_IsAVCReferenceFrame;
     supportsSeamlessFormatChange := fun _ _ => false;
     getInputBuffers := fun _ => (OK, []);
     native_window_set_scaling_mode := fun _ _ => OK |}.


(** ** Sample inputs *)

Definition sample_audio_format : AMessage :=
  Message 0 [("mime", ItemString "audio/mp4a-latm");
             ("channel-count", ItemInt32 2);
             ("sample-rate", ItemInt32 44100)].

Definition sample_video_format : AMessage :=
  Message 0 [("mime", ItemString "video/avc");
             ("width", ItemInt32 1280);
             ("height", ItemInt32 720)].

(** An IDR slice and a non-reference slice, by their NAL headers. *)
Definition sample_reference_frame : ABuffer :=
  Buffer [101; 136; 132] (Message 0 [("timeUs", ItemInt64 200000)]).
Definition sample_disposable_frame : ABuffer :=
  Buffer [1; 154; 36] (Message 0 [("timeUs", ItemInt64 166667)]).

Definition sample_source : Source :=
  {| getFormatMeta := fun _ => None;
     getFormat :=
       fun audio =>
         Some (if audio then sample_audio_format else sample_video_format);
     getDuration := (OK, 60000000);
     feedMoreTSData := OK;
     setBuffers := fun _ _ => OK;
     audioAccessUnits := [];
     videoAccessUnits :=
       [(OK, Some sample_disposable_frame); (OK, Some sample_reference_frame)] |}.

(** A source that has no track format to report yet. *)
Definition sample_unprepared_source : Source :=
  {| getFormatMeta := fun _ => None;
     getFormat := Source_getFormat (platform := sample_platform) (fun _ => None);
     getDuration := (UNKNOWN_ERROR, 0);
     feedMoreTSData := OK;
     setBuffers := fun _ _ => OK;
     audioAccessUnits := [];
     videoAccessUnits := [] |}.

Definition sample_sink : AudioSink :=
  {| getAudioStreamType := 3;
     sinkOpen := fun _ => OK;
     sinkStart := OK |}.

Definition sample_renderer : Renderer :=
  {| rendererNotify := Message (fourcc "renN") []; rendererFlags := 0 |}.

Definition sample_video_decoder : Decoder :=
  {| decoderPassThrough := false;
     decoderNotify := Message (fourcc "vidN") [("generation", ItemInt32 1)];
     decoderNativeWindow := Some {| windowId := 1 |} |}.

Definition sample_offload_decoder : Decoder :=
  {| decoderPassThrough := true;
     decoderNotify := Message (fourcc "audN") [("generation", ItemInt32 1)];
     decoderNativeWindow := None |}.

(** A started player without decoders: source, renderer, sink, surface and
    driver are in place. *)
Definition sample_idle_player : NuPlayer :=
  set_mStarted true
    (set_mRendererLooper (Some (Looper "NuPlayerRenderer"))
       (set_mRenderer (Some sample_renderer)
          (set_mNativeWindow (Some {| windowId := 1 |})
             (set_mAudioSink (Some sample_sink)
                (set_mSource (Some sample_source)
                   (set_mDriver DriverAlive
                      (NuPlayer_new (platform := sample_platform)))))))).

(** The same player playing late AVC video, with its video decoder. *)
Definition sample_late_player : NuPlayer :=
  set_mVideoLateByUs 150000
    (set_mVideoIsAVC true
       (set_mVideoDecoderGeneration 1
          (set_mCCDecoder
             (Some {| ccNotify := Message (fourcc "capN") [];
                      isSelected := false |})
             (set_mVideoDecoder (Some sample_video_decoder)
                sample_idle_player)))).

(** The player in the middle of a video flush, a seek waiting in the
    queue. *)
Definition sample_flushing_player : NuPlayer :=
  set_mDeferredActions [SeekAction 5000000]
    (set_mFlushingVideo FLUSHING_DECODER sample_late_player).

(** The offload configuration of [sample_audio_format] without video. *)
Definition sample_offload_info : audio_offload_info_t :=
  {| version := 1; size := 40; sample_rate := 44100; channel_mask := 0;
     format := 67108864; stream_type := 3; bit_rate := 4294967295;
     duration_us := -1; has_video := false; is_streaming := true |}.

(** A player offloading audio, the sink open with that configuration. *)
Definition sample_offload_player : NuPlayer :=
  set_mCurrentOffloadInfo sample_offload_info
    (set_mAudioDecoderGeneration 1
       (set_mAudioDecoder (Some sample_offload_decoder)
          (set_mOffloadAudio true sample_idle_player))).

(** The offloading player on a source that reports no audio format. *)
Definition sample_formatless_player : NuPlayer :=
  set_mSource (Some sample_unprepared_source) sample_offload_player.

Definition sample_reply : AMessage := Message (fourcc "rply") [].

(** The idle player with a seek and the post of a reply waiting in the
    queue. *)
Definition sample_queued_player : NuPlayer :=
  set_mDeferredActions [SeekAction 5000000; PostMessageAction sample_reply]
    sample_idle_player.

Definition sample_fill_request : AMessage :=
  Message (fourcc "vidN")
    [("generation", ItemInt32 1);
     ("what", ItemInt32 (fourcc "flTB"));
     ("reply", ItemMessage sample_reply)].

(** A request of the previous video decoder, generation 0. *)
Definition sample_stale_request : AMessage :=
  Message (fourcc "vidN")
    [("generation", ItemInt32 0);
     ("what", ItemInt32 (fourcc "flTB"));
     ("reply", ItemMessage sample_reply)].

Definition sample_eos_notification : AMessage :=
  Message (fourcc "renN")
    [("what", ItemInt32 (fourcc "eos "));
     ("audio", ItemInt32 0);
     ("finalResult", ItemInt32 (-1011))].

Definition sample_teardown_notification : AMessage :=
  Message (fourcc "renN")
    [("what", ItemInt32 (fourcc "aOTD"));
     ("positionUs", ItemInt64 12345000)].

(** *** Samples for the scenarios *)

Definition sample_polling : DurationPolling :=
  {| FLAG_DYNAMIC_DURATION := 16; kWhatPollDuration := fourcc "polD" |}.

Definition sample_audio_decoder : Decoder :=
  {| decoderPassThrough := false;
     decoderNotify := Message (fourcc "audN") [("generation", ItemInt32 1)];
     decoderNativeWindow := None |}.

(** The late player with an audio decoder as well: both streams playing. *)
Definition sample_playing_player : NuPlayer :=
  set_mAudioDecoderGeneration 1
    (set_mAudioDecoder (Some sample_audio_decoder) sample_late_player).

(** A player that was never given a source, a sink or a window. *)
Definition sample_bare_player : NuPlayer :=
  set_mSource (Some sample_unprepared_source)
    (set_mDriver DriverAlive (NuPlayer_new (platform := sample_platform))).

(** A player with a window and a source but no sink and no decoder. *)
Definition sample_video_only_player : NuPlayer :=
  set_mAudioSink None sample_idle_player.

(** What a decoder of generation 1 sends. *)
Definition sample_notification (audio : bool) (kind : string)
    (more : list (string * Item)) : AMessage :=
  Message (fourcc (if audio then "audN" else "vidN"))
    (("generation", ItemInt32 1) :: ("what", ItemInt32 (fourcc kind)) :: more).

Definition sample_seek_request : AMessage :=
  Message (fourcc "seek") [("seekTimeUs", ItemInt64 5000000)].

Definition sample_window : NativeWindowWrapper := {| windowId := 2 |}.

Definition sample_audio_fill_request : AMessage :=
  sample_notification true "flTB" [("reply", ItemMessage sample_reply)].

Definition sample_drain_request : AMessage :=
  sample_notification false "drTB"
    [("reply", ItemMessage sample_reply);
     ("buffer", ItemBuffer sample_reference_frame)].

Definition sample_scan_request : AMessage :=
  Message (fourcc "scan") [("generation", ItemInt32 0)].

Definition sample_output_format : AMessage :=
  Message 0 [("width", ItemInt32 1280); ("height", ItemInt32 736);
             ("crop", ItemRect 0 0 1279 719)].

Definition sample_rotated_format : AMessage :=
  Message 0 [("mime", ItemString "video/avc");
             ("rotation-degrees", ItemInt32 90)].

Definition sample_bad_sar_format : AMessage :=
  Message 0 [("mime", ItemString "video/avc");
             ("sar-width", ItemInt32 4); ("sar-height", ItemInt32 0)].


Definition sample_shutdown_request : AMessage :=
  Message (fourcc "srcN")
    [("audio", ItemInt32 1); ("video", ItemInt32 0);
     ("reply", ItemMessage sample_reply)].

(** The player a computation ends in. *)
Definition ran {A} (r : Result A) : NuPlayer :=
  match r with
  | Done _ p => p
  | Aborted _ => NuPlayer_new (platform := sample_platform)
  end.

(** * Properties *)

Section Properties.

Context {platform : Platform}.

(** ** Messages *)

Lemma FlushStatus_eqb_eq a b : FlushStatus_eqb a b = true <-> a = b.
Proof. destruct a, b; simpl; split; congruence. Qed.

Lemma findItem_setItem name v l : findItem name (setItem name v l) = Some v.
Proof.
  induction l as [|[k old] l IH]; simpl.
  - now rewrite String.eqb_refl.
  - destruct (String.eqb k name) eqn:E; simpl; now rewrite E.
Qed.

Lemma findInt32_setInt32 name v m : findInt32 name (setInt32 name v m) = Some v.
Proof. unfold findInt32, setInt32; simpl. now rewrite findItem_setItem. Qed.

Lemma findBuffer_setBuffer name b m :
  findBuffer name (setBuffer name b m) = Some b.
Proof. unfold findBuffer, setBuffer; simpl. now rewrite findItem_setItem. Qed.

(** ** Proof tools *)

(** Re-association of appended effects, by syntactic matching only. *)
Ltac norm_app :=
  repeat match goal with
         | |- context [(?l ++ ?x) ++ ?m] =>
             rewrite <- (app_assoc l x m); cbn [app]
         | |- context [?l ++ []] => rewrite (app_nil_r l)
         end.

(** The player given by its fields, each named after the member with an
    underscore appended. *)
Ltac open_player p :=
  destruct p as [mDriver_ mSource_ mSourceFlags_ mCurrentPositionUs_
    mNativeWindow_ mAudioSink_ mAudioDecoder_ mVideoDecoder_ mCCDecoder_
    mRenderer_ mRendererLooper_ mVideoIsAVC_ mOffloadAudio_
    mCurrentOffloadInfo_ mAudioDecoderGeneration_ mVideoDecoderGeneration_
    mAudioEOS_ mVideoEOS_ mScanSourcesPending_ mScanSourcesGeneration_
    mPollDurationGeneration_ mTimedTextGeneration_
    mTimeDiscontinuityPending_ mFlushingAudio_ mFlushingVideo_
    mSkipRenderingAudioUntilMediaTimeUs_
    mSkipRenderingVideoUntilMediaTimeUs_ mVideoLateByUs_ mNumFramesTotal_
    mNumFramesDropped_ mVideoScalingMode_ mStarted_ mDeferredActions_
    effects_].

(** Symbolic execution of a member function on a player given by its
    fields. *)
Ltac exec := lazy -[app incr32 incr64 processDeferredActions]; norm_app.

(** One step of symbolic execution: the monad operations and the field
    reads and writes are computed, calls of member functions are left
    alone. *)
Tactic Notation "mstep" :=
  cbv beta iota zeta delta [bind ret get modify skip when emit CHECK
      CHECK_found deref abort callSource callRenderer callAudioSink
      withDriver advanceSource];
  cbn [andb orb negb isNull FlushStatus_eqb fst snd mDriver mSource
       mSourceFlags mCurrentPositionUs mNativeWindow mAudioSink
       mAudioDecoder mVideoDecoder mCCDecoder mRenderer mRendererLooper
       mVideoIsAVC mOffloadAudio mCurrentOffloadInfo mAudioDecoderGeneration
       mVideoDecoderGeneration mAudioEOS mVideoEOS mScanSourcesPending
       mScanSourcesGeneration mPollDurationGeneration mTimedTextGeneration
       mTimeDiscontinuityPending mFlushingAudio mFlushingVideo
       mSkipRenderingAudioUntilMediaTimeUs
       mSkipRenderingVideoUntilMediaTimeUs mVideoLateByUs mNumFramesTotal
       mNumFramesDropped mVideoScalingMode mStarted mDeferredActions effects
       set_mDriver set_mSource set_mSourceFlags set_mCurrentPositionUs
       set_mNativeWindow set_mAudioSink set_mAudioDecoder set_mVideoDecoder
       set_mCCDecoder set_mRenderer set_mRendererLooper set_mVideoIsAVC
       set_mOffloadAudio set_mCurrentOffloadInfo set_mAudioDecoderGeneration
       set_mVideoDecoderGeneration set_mAudioEOS set_mVideoEOS
       set_mScanSourcesPending set_mScanSourcesGeneration
       set_mPollDurationGeneration set_mTimedTextGeneration
       set_mTimeDiscontinuityPending set_mFlushingAudio set_mFlushingVideo
       set_mSkipRenderingAudioUntilMediaTimeUs
       set_mSkipRenderingVideoUntilMediaTimeUs set_mVideoLateByUs
       set_mNumFramesTotal set_mNumFramesDropped set_mVideoScalingMode
       set_mStarted set_mDeferredActions set_effects].
Tactic Notation "mstep" "in" hyp(H) :=
  cbv beta iota zeta delta [bind ret get modify skip when emit CHECK
      CHECK_found deref abort callSource callRenderer callAudioSink
      withDriver advanceSource] in H;
  cbn [andb orb negb isNull FlushStatus_eqb fst snd mDriver mSource
       mSourceFlags mCurrentPositionUs mNativeWindow mAudioSink
       mAudioDecoder mVideoDecoder mCCDecoder mRenderer mRendererLooper
       mVideoIsAVC mOffloadAudio mCurrentOffloadInfo mAudioDecoderGeneration
       mVideoDecoderGeneration mAudioEOS mVideoEOS mScanSourcesPending
       mScanSourcesGeneration mPollDurationGeneration mTimedTextGeneration
       mTimeDiscontinuityPending mFlushingAudio mFlushingVideo
       mSkipRenderingAudioUntilMediaTimeUs
       mSkipRenderingVideoUntilMediaTimeUs mVideoLateByUs mNumFramesTotal
       mNumFramesDropped mVideoScalingMode mStarted mDeferredActions effects
       set_mDriver set_mSource set_mSourceFlags set_mCurrentPositionUs
       set_mNativeWindow set_mAudioSink set_mAudioDecoder set_mVideoDecoder
       set_mCCDecoder set_mRenderer set_mRendererLooper set_mVideoIsAVC
       set_mOffloadAudio set_mCurrentOffloadInfo set_mAudioDecoderGeneration
       set_mVideoDecoderGeneration set_mAudioEOS set_mVideoEOS
       set_mScanSourcesPending set_mScanSourcesGeneration
       set_mPollDurationGeneration set_mTimedTextGeneration
       set_mTimeDiscontinuityPending set_mFlushingAudio set_mFlushingVideo
       set_mSkipRenderingAudioUntilMediaTimeUs
       set_mSkipRenderingVideoUntilMediaTimeUs set_mVideoLateByUs
       set_mNumFramesTotal set_mNumFramesDropped set_mVideoScalingMode
       set_mStarted set_mDeferredActions set_effects] in H.

(** Reads of updated fields, by plain unfolding of the projections and the
    field updates. *)
Tactic Notation "fields" :=
  cbv beta iota delta [mDriver mSource mSourceFlags mCurrentPositionUs
      mNativeWindow mAudioSink mAudioDecoder mVideoDecoder mCCDecoder
      mRenderer mRendererLooper mVideoIsAVC mOffloadAudio
      mCurrentOffloadInfo mAudioDecoderGeneration mVideoDecoderGeneration
      mAudioEOS mVideoEOS mScanSourcesPending mScanSourcesGeneration
      mPollDurationGeneration mTimedTextGeneration mTimeDiscontinuityPending
      mFlushingAudio mFlushingVideo mSkipRenderingAudioUntilMediaTimeUs
      mSkipRenderingVideoUntilMediaTimeUs mVideoLateByUs mNumFramesTotal
      mNumFramesDropped mVideoScalingMode mStarted mDeferredActions effects
      set_mDriver set_mSource set_mSourceFlags set_mCurrentPositionUs
      set_mNativeWindow set_mAudioSink set_mAudioDecoder set_mVideoDecoder
      set_mCCDecoder set_mRenderer set_mRendererLooper set_mVideoIsAVC
      set_mOffloadAudio set_mCurrentOffloadInfo set_mAudioDecoderGeneration
      set_mVideoDecoderGeneration set_mAudioEOS set_mVideoEOS
      set_mScanSourcesPending set_mScanSourcesGeneration
      set_mPollDurationGeneration set_mTimedTextGeneration
      set_mTimeDiscontinuityPending set_mFlushingAudio set_mFlushingVideo
      set_mSkipRenderingAudioUntilMediaTimeUs
      set_mSkipRenderingVideoUntilMediaTimeUs set_mVideoLateByUs
      set_mNumFramesTotal set_mNumFramesDropped set_mVideoScalingMode
      set_mStarted set_mDeferredActions set_effects].
Tactic Notation "fields" "in" hyp(H) :=
  cbv beta iota delta [mDriver mSource mSourceFlags mCurrentPositionUs
      mNativeWindow mAudioSink mAudioDecoder mVideoDecoder mCCDecoder
      mRenderer mRendererLooper mVideoIsAVC mOffloadAudio
      mCurrentOffloadInfo mAudioDecoderGeneration mVideoDecoderGeneration
      mAudioEOS mVideoEOS mScanSourcesPending mScanSourcesGeneration
      mPollDurationGeneration mTimedTextGeneration mTimeDiscontinuityPending
      mFlushingAudio mFlushingVideo mSkipRenderingAudioUntilMediaTimeUs
      mSkipRenderingVideoUntilMediaTimeUs mVideoLateByUs mNumFramesTotal
      mNumFramesDropped mVideoScalingMode mStarted mDeferredActions effects
      set_mDriver set_mSource set_mSourceFlags set_mCurrentPositionUs
      set_mNativeWindow set_mAudioSink set_mAudioDecoder set_mVideoDecoder
      set_mCCDecoder set_mRenderer set_mRendererLooper set_mVideoIsAVC
      set_mOffloadAudio set_mCurrentOffloadInfo set_mAudioDecoderGeneration
      set_mVideoDecoderGeneration set_mAudioEOS set_mVideoEOS
      set_mScanSourcesPending set_mScanSourcesGeneration
      set_mPollDurationGeneration set_mTimedTextGeneration
      set_mTimeDiscontinuityPending set_mFlushingAudio set_mFlushingVideo
      set_mSkipRenderingAudioUntilMediaTimeUs
      set_mSkipRenderingVideoUntilMediaTimeUs set_mVideoLateByUs
      set_mNumFramesTotal set_mNumFramesDropped set_mVideoScalingMode
      set_mStarted set_mDeferredActions set_effects] in H.

Lemma preserves_ret {A B} (f : NuPlayer -> A) (b : B) : preserves f (ret b).
Proof. intros p b' p' H; inversion H; reflexivity. Qed.

Lemma preserves_abort {A B} (f : NuPlayer -> A) e : preserves f (@abort B e).
Proof. intros p b' p' H; discriminate. Qed.

Lemma preserves_get {A B} (f : NuPlayer -> A) (g : NuPlayer -> B) :
  preserves f (get g).
Proof. intros p b' p' H; inversion H; reflexivity. Qed.

Lemma preserves_modify {A} (f : NuPlayer -> A) g :
  (forall p, f (g p) = f p) -> preserves f (modify g).
Proof. intros E p b' p' H; inversion H; apply E. Qed.

Lemma preserves_bind {A B C} (f : NuPlayer -> A) (m : M B) (k : B -> M C) :
  preserves f m -> (forall b, preserves f (k b)) -> preserves f (bind m k).
Proof.
  intros Hm Hk p c p' H. unfold bind in H.
  destruct (m p) as [b p1|] eqn:E; [|discriminate].
  rewrite (Hk b _ _ _ H). eapply Hm; eauto.
Qed.

Ltac preserves_step :=
  first
    [ apply preserves_ret
    | apply preserves_abort
    | apply preserves_get
    | apply preserves_modify; intros; reflexivity
    | apply preserves_bind; [ | intros ]
    | match goal with
      | |- preserves _ (match ?x with _ => _ end) => destruct x
      end ].

Ltac preserves_auto :=
  repeat (preserves_step
          || (progress unfold skip, when, emit, CHECK, CHECK_found, deref,
                callSource, callRenderer, callAudioSink, withDriver)).

(** ** The deferred-action queue *)

Lemma flushDecoder_keeps_queue audio needShutdown newFormat :
  preserves mDeferredActions (flushDecoder audio needShutdown newFormat).
Proof. unfold flushDecoder. preserves_auto. Qed.

(** No deferred action adds to or removes from the queue it came from. *)
Lemma execute_keeps_queue a : preserves mDeferredActions (execute a).
Proof.
  destruct a as [t|w|au vi|m|[]]; simpl.
  - unfold performSeek. preserves_auto.
  - unfold performSetSurface, setVideoScalingMode. preserves_auto.
  - unfold performDecoderShutdown. preserves_auto; apply flushDecoder_keeps_queue.
  - preserves_auto.
  - unfold performReset, cancelPollDuration. preserves_auto.
  - unfold performScanSources, postScanSources. preserves_auto.
  - unfold performDecoderFlush. preserves_auto; apply flushDecoder_keeps_queue.
Qed.

Lemma flushInProgress_false p :
  flushInProgress p = false <-> mFlushingAudio p = NONE /\ mFlushingVideo p = NONE.
Proof.
  unfold flushInProgress.
  destruct (mFlushingAudio p), (mFlushingVideo p); simpl; intuition congruence.
Qed.

Lemma processLoop_log q : forall p,
  poppedInOrder q (fst (processLoop q p)).
Proof.
  induction q as [|a q IH]; intros p; simpl; [exact I|].
  destruct (flushInProgress p) eqn:F; simpl; [exact I|].
  apply flushInProgress_false in F. destruct F as [Fa Fv].
  destruct (execute a (set_mDeferredActions q p)) as [[] p2|f] eqn:E.
  - specialize (IH p2). destruct (processLoop q p2) as [log r]. simpl in *.
    repeat split; auto.
  - simpl. repeat split; auto.
Qed.

(** At every loop head [mDeferredActions] is the queue the loop recurses
    on; what is left at the end is what the loop did not pop. *)
Lemma processLoop_final q : forall p p',
  mDeferredActions p = q ->
  snd (processLoop q p) = Done tt p' ->
  mDeferredActions p' = skipn (List.length (fst (processLoop q p))) q
  /\ (mDeferredActions p' = [] \/ flushInProgress p' = true).
Proof.
  induction q as [|a q IH]; intros p p' Hq H; simpl in *.
  - inversion H; subst. auto.
  - destruct (flushInProgress p) eqn:F; simpl in *.
    + inversion H; subst. auto.
    + destruct (execute a (set_mDeferredActions q p)) as [[] p2|f] eqn:E.
      * assert (K := execute_keeps_queue a). unfold preserves in K.
        specialize (K _ _ _ E). simpl in K.
        specialize (IH p2 p' K).
        destruct (processLoop q p2) as [log r]. simpl in *. auto.
      * discriminate.
Qed.

Lemma poppedInOrder_In q : forall log a s,
  poppedInOrder q log -> In (a, s) log ->
  mFlushingAudio s = NONE /\ mFlushingVideo s = NONE.
Proof.
  induction q as [|front rest IH]; intros [|[a' s'] log] a s P I;
    simpl in *; try contradiction.
  destruct P as (_ & _ & Ha & Hv & P). destruct I as [I|I].
  - inversion I; subst; auto.
  - eapply IH; eauto.
Qed.

Lemma poppedInOrder_prefix q : forall log,
  poppedInOrder q log -> map fst log = firstn (List.length log) q.
Proof.
  induction q as [|front rest IH]; intros [|[a s] log] P; simpl in *;
    try reflexivity; try contradiction.
  destruct P as (-> & _ & _ & _ & P). f_equal. auto.
Qed.

(** C1.  [finishFlushIfPossible] returns at once, changing nothing, while
    either stream is in a transitional flush status.  Otherwise it signals
    the time discontinuity to the renderer exactly when one was pending (and
    clears the flag), signals resume to each stream that is [FLUSHED] and
    still has its decoder, sets both flush statuses to [NONE] and then runs
    the deferred actions.  (With a discontinuity pending and no renderer the
    call goes through a null pointer.) *)
Theorem finishFlushIfPossible_spec (p : NuPlayer) :
  finishFlushIfPossible p =
    if transitional (mFlushingAudio p) || transitional (mFlushingVideo p)
    then Done tt p
    else if mTimeDiscontinuityPending p && isNull (mRenderer p)
    then Aborted NullDereference
    else processDeferredActions (flushFinished p).
Proof.
  open_player p.
  destruct mFlushingAudio_, mFlushingVideo_, mTimeDiscontinuityPending_,
    mRenderer_, mAudioDecoder_, mVideoDecoder_; exec; reflexivity.
Qed.

(** The loop is a sequential execution of the actions it logs: each one is
    run by [execute] on the player the one before it returned. *)
Lemma processLoop_runs q : forall p,
  mDeferredActions p = q ->
  executedInOrder p (fst (processLoop q p)) (snd (processLoop q p)).
Proof.
  induction q as [|a q IH]; intros p Hq; simpl.
  - auto.
  - destruct (flushInProgress p) eqn:F; simpl; [auto|].
    destruct (execute a (set_mDeferredActions q p)) as [[] p2|f] eqn:E.
    + assert (K := execute_keeps_queue a). unfold preserves in K.
      specialize (K _ _ _ E). simpl in K.
      specialize (IH p2 K).
      destruct (processLoop q p2) as [log r]. simpl in *.
      split; [exact F|]. split; [eauto|]. rewrite E. exact IH.
    + simpl. split; [exact F|]. split; [eauto|]. rewrite E. auto.
Qed.

(** C3.  [processDeferredActions] takes the deferred actions off the front
    of the queue and executes them in order, and only while both flush
    statuses are exactly [NONE]: with a stream in a flush it executes nothing
    and changes nothing.  So whenever a deferred action executes, both flush
    statuses are among [NONE], [FLUSHED] and [SHUT_DOWN].  What the loop
    leaves in the queue is what it did not execute, and it stops only on an
    empty queue or a flush in progress.  The actions are really executed,
    one after the other: each is run by [execute] on the player the
    execution before it returned, with the action erased from the queue, and
    the outcome of the call is the player the last execution returned, or
    the abort of the execution that failed. *)
Theorem processDeferredActions_gated (p : NuPlayer) :
  let log := executions p in
  poppedInOrder (mDeferredActions p) log
  /\ map fst log = firstn (List.length log) (mDeferredActions p)
  /\ (forall a s, In (a, s) log ->
        mFlushingAudio s = NONE /\ mFlushingVideo s = NONE
        /\ stableStatus (mFlushingAudio s) /\ stableStatus (mFlushingVideo s))
  /\ (flushInProgress p = true ->
        log = [] /\ processDeferredActions p = Done tt p)
  /\ (forall p', processDeferredActions p = Done tt p' ->
        mDeferredActions p' = skipn (List.length log) (mDeferredActions p)
        /\ (mDeferredActions p' = [] \/ flushInProgress p' = true))
  /\ executedInOrder p log (processDeferredActions p).
Proof.
  unfold executions, processDeferredActions.
  pose proof (processLoop_log (mDeferredActions p) p) as P.
  split; [exact P|]. split; [now apply poppedInOrder_prefix|].
  split; [|split; [|split]].
  - intros a s I. destruct (poppedInOrder_In _ _ _ _ P I) as [Ha Hv].
    unfold stableStatus. rewrite Ha, Hv. auto.
  - intros F. destruct (mDeferredActions p); simpl; [auto|]. now rewrite F.
  - intros p' H. now apply processLoop_final.
  - now apply processLoop_runs.
Qed.

(** ** Reset *)

Lemma performReset_runs (p : NuPlayer) :
  mAudioDecoder p = None -> mVideoDecoder p = None ->
  performReset p = Done tt (resetDone p).
Proof.
  intros Ha Hv. open_player p. simpl in Ha, Hv; subst.
  destruct mRendererLooper_, mRenderer_, mSource_, mDriver_; exec; reflexivity.
Qed.

(** C4, as amended.  After [performReset], run with both decoders absent,
    the source, the renderer, the renderer's looper and both decoders are
    absent and [mStarted] is false; duration polling is cancelled, the scan
    generation is bumped with the pending flag cleared, looper and source are
    stopped, and the driver, where it can still be promoted, is told that the
    reset is complete.  The audio sink, the native window, the closed-caption
    decoder and the driver reference are left as they were. *)
Theorem performReset_spec (p : NuPlayer) :
  mAudioDecoder p = None -> mVideoDecoder p = None ->
  exists p',
    performReset p = Done tt p'
    /\ (mSource p' = None /\ mRenderer p' = None /\ mRendererLooper p' = None
        /\ mAudioDecoder p' = None /\ mVideoDecoder p' = None)
    /\ mStarted p' = false
    /\ mPollDurationGeneration p' = incr32 (mPollDurationGeneration p)
    /\ mScanSourcesGeneration p' = incr32 (mScanSourcesGeneration p)
    /\ mScanSourcesPending p' = false
    /\ effects p' = effects p ++ resetCalls p
    /\ (mAudioSink p' = mAudioSink p /\ mNativeWindow p' = mNativeWindow p
        /\ mCCDecoder p' = mCCDecoder p /\ mDriver p' = mDriver p).
Proof.
  intros Ha Hv. exists (resetDone p).
  split; [now apply performReset_runs|].
  repeat apply conj; try reflexivity; assumption.
Qed.

(** C10.  [performDecoderShutdown] asked for streams none of which has a
    decoder, and [performDecoderFlush] with no decoder at all, return at once
    and leave the player exactly as it was: no discontinuity becomes pending,
    no flush status moves. *)
Theorem perform_without_decoder_is_noop (p : NuPlayer) :
  (forall audio video,
     (audio = true -> mAudioDecoder p = None) ->
     (video = true -> mVideoDecoder p = None) ->
     performDecoderShutdown audio video p = Done tt p)
  /\ (mAudioDecoder p = None -> mVideoDecoder p = None ->
      performDecoderFlush p = Done tt p).
Proof.
  split.
  - intros audio video Ha Hv. open_player p. simpl in Ha, Hv.
    destruct audio, video; try (rewrite Ha by reflexivity);
      try (rewrite Hv by reflexivity); reflexivity.
  - intros Ha Hv. open_player p. simpl in Ha, Hv; subst. reflexivity.
Qed.

(** ** Decoder and renderer notifications *)

(** C2.  A decoder notification whose generation is not the current one of
    its stream changes no field of the coordinator: if it carries a reply
    message, that reply is posted with [err = INFO_DISCONTINUITY] and nothing
    else happens; without a reply the notification is dropped. *)
Theorem stale_decoder_notification (msg : AMessage) (p : NuPlayer)
    (generation : Z) :
  findInt32 "generation" msg = Some generation ->
  generation <> currentDecoderGeneration (what msg =? kWhatAudioNotify) p ->
  onDecoderNotify msg p =
    Done tt
      match findMessage "reply" msg with
      | Some reply =>
          set_effects
            (effects p ++ [Post (setInt32 "err" INFO_DISCONTINUITY reply) 0]) p
      | None => p
      end.
Proof.
  intros Hg Hne. apply Z.eqb_neq in Hne.
  unfold onDecoderNotify, bind, get, CHECK_found, ret. rewrite Hg, Hne.
  destruct (findMessage "reply" msg); reflexivity.
Qed.

(** C6.  On a renderer EOS notification the EOS flag of the named stream is
    set; [MEDIA_ERROR] is notified when the final result is not
    [ERROR_END_OF_STREAM]; and [MEDIA_PLAYBACK_COMPLETE] is notified exactly
    when, with that flag set, audio is at EOS or has no decoder and video is
    at EOS or has no decoder.  Notifications reach the driver as far as the
    weak reference to it can be promoted. *)
Theorem renderer_EOS (msg : AMessage) (p : NuPlayer) (audio finalResult : Z) :
  findInt32 "what" msg = Some Renderer_kWhatEOS ->
  findInt32 "audio" msg = Some audio ->
  findInt32 "finalResult" msg = Some finalResult ->
  let p1 := markEOS audio p in
  onRendererNotify msg p =
    Done tt
      (set_effects
         (effects p
          ++ delivered (mDriver p)
               ((if finalResult =? ERROR_END_OF_STREAM then []
                 else [DriverNotifyListener MEDIA_ERROR MEDIA_ERROR_UNKNOWN
                         finalResult None])
                ++ (if playbackComplete p1
                    then [DriverNotifyListener MEDIA_PLAYBACK_COMPLETE 0 0 None]
                    else [])))
         p1).
Proof.
  intros Hw Ha Hf. unfold onRendererNotify.
  unfold bind at 1. unfold CHECK_found at 1. rewrite Hw. unfold ret at 1.
  rewrite Z.eqb_refl.
  unfold bind at 1. unfold CHECK_found at 1. rewrite Ha. unfold ret at 1.
  unfold bind at 1. unfold CHECK_found at 1. rewrite Hf. unfold ret at 1.
  open_player p.
  destruct (audio =? 0) eqn:Ea, (finalResult =? ERROR_END_OF_STREAM) eqn:Ef,
    mDriver_, mAudioEOS_, mVideoEOS_, mAudioDecoder_, mVideoDecoder_;
    lazy -[app Z.eqb]; rewrite ?Ea, ?Ef; lazy -[app Z.eqb]; norm_app;
    reflexivity.
Qed.


Lemma teardown_kind_distinct :
  (Renderer_kWhatAudioOffloadTearDown =? Renderer_kWhatEOS) = false
  /\ (Renderer_kWhatAudioOffloadTearDown =? Renderer_kWhatPosition) = false
  /\ (Renderer_kWhatAudioOffloadTearDown =? Renderer_kWhatFlushComplete) = false
  /\ (Renderer_kWhatAudioOffloadTearDown =? Renderer_kWhatVideoRenderingStart)
     = false
  /\ (Renderer_kWhatAudioOffloadTearDown =? Renderer_kWhatMediaRenderingStart)
     = false.
Proof.
  assert (N := Renderer_kinds_distinct).
  repeat rewrite NoDup_cons_iff in N. cbn [In] in N.
  repeat apply conj; apply Z.eqb_neq; intros E; rewrite E in N;
    intuition congruence.
Qed.

(** C7, as amended.  On [AudioOffloadTearDown(positionUs)] the coordinator
    closes the audio sink, drops the audio decoder, flushes audio on the
    renderer and, with a video decoder present, video too, disables offload
    on the renderer, clears [mOffloadAudio], seeks the source to the position
    and calls [instantiateDecoder] for audio.  Afterwards [mOffloadAudio] is
    false, whatever the source reports.  If the source has an audio format
    at that point, the audio decoder is a new plain (not pass-through)
    decoder of the next generation, initialised and configured with that
    format; if it has none, no decoder is created, the audio decoder stays
    absent and the generation stays as it was. *)
Theorem audio_offload_teardown (msg : AMessage) (p : NuPlayer)
    (positionUs : Z) (sink : AudioSink) (renderer : Renderer) (s : Source) :
  findInt32 "what" msg = Some Renderer_kWhatAudioOffloadTearDown ->
  findInt64 "positionUs" msg = Some positionUs ->
  mAudioSink p = Some sink -> mRenderer p = Some renderer ->
  mSource p = Some s ->
  let d := softwareAudioDecoder (incr32 (mAudioDecoderGeneration p)) in
  exists p',
    onRendererNotify msg p = Done tt p'
    /\ mOffloadAudio p' = false
    /\ mAudioDecoder p'
       = match getFormat s true with Some _ => Some d | None => None end
    /\ mAudioDecoderGeneration p'
       = match getFormat s true with
         | Some _ => incr32 (mAudioDecoderGeneration p)
         | None => mAudioDecoderGeneration p
         end
    /\ mCurrentOffloadInfo p' = AUDIO_INFO_INITIALIZER
    /\ mTimedTextGeneration p' = incr32 (mTimedTextGeneration p)
    /\ effects p'
       = effects p ++ tearDownCalls p positionUs d (getFormat s true).
Proof.
  intros Hw Hp Hsink Hr Hs d.
  destruct teardown_kind_distinct as (K1 & K2 & K3 & K4 & K5).
  unfold onRendererNotify.
  unfold bind at 1. unfold CHECK_found at 1. rewrite Hw. unfold ret at 1.
  rewrite K1, K2, K3, K4, K5, Z.eqb_refl.
  unfold bind at 1. unfold CHECK_found at 1. rewrite Hp. unfold ret at 1.
  subst d. open_player p. simpl in Hsink, Hr, Hs. subst.
  destruct (getFormat s true) as [fmt|] eqn:Hf;
    destruct mVideoDecoder_, mDriver_;
    lazy -[app incr32 getFormat]; rewrite Hf; lazy -[app incr32];
    eexists; (split; [reflexivity|]); cbn -[incr32];
    repeat apply conj; norm_app; reflexivity.
Qed.

(** ** Feeding a decoder *)

Lemma dropsAccessUnit_iff audio accessUnit p :
  dropsAccessUnit audio accessUnit p = true
  <-> audio = false /\ droppable p accessUnit.
Proof.
  unfold dropsAccessUnit, droppable, testFlag.
  rewrite !andb_true_iff, !negb_true_iff, negb_false_iff, Z.eqb_eq, Z.gtb_ltb,
    Z.ltb_lt.
  tauto.
Qed.

Lemma iter_incr64_shift n x :
  Nat.iter n incr64 (incr64 x) = incr64 (Nat.iter n incr64 x).
Proof. induction n; simpl; congruence. Qed.

(** Counting frames does not wrap as long as the count stays below
    [INT64_MAX]. *)
Lemma iter_incr64_in_range n x :
  - 2 ^ 63 <= x -> x + Z.of_nat n <= INT64_MAX ->
  Nat.iter n incr64 x = x + Z.of_nat n.
Proof.
  unfold INT64_MAX. induction n as [|n IH]; intros Hlo Hhi.
  - simpl. lia.
  - rewrite Nat2Z.inj_succ in Hhi. simpl Nat.iter. rewrite IH by lia.
    unfold incr64, int64, wrap_signed.
    change (2 ^ (64 - 1)) with (2 ^ 63). change (2 ^ 64) with (2 * 2 ^ 63).
    rewrite Z.mod_small; lia.
Qed.

(** The drop loop on a video stream: the units that meet the drop condition
    are skipped and counted, the first one that does not is delivered. *)
Lemma feedLoop_drops reply keep rest cc : forall drops accessUnit s p,
  mSource p = Some s -> mCCDecoder p = Some cc ->
  Forall (droppable p) drops -> ~ droppable p keep ->
  feedLoop false reply
    (map (fun au => (OK, Some au)) drops ++ (OK, Some keep) :: rest)
    accessUnit p
  = Done OK (delivers (List.length drops) keep reply s rest p).
Proof.
  induction drops as [|au drops IH]; intros acc s p Hs Hc Hd Hk.
  - assert (E : dropsAccessUnit false keep p = false).
    { destruct (dropsAccessUnit false keep p) eqn:E; [|reflexivity].
      apply dropsAccessUnit_iff in E. tauto. }
    open_player p. simpl in Hs, Hc. subst.
    unfold dropsAccessUnit in E. mstep in E.
    cbn [map app feedLoop List.length].
    change (OK =? - EWOULDBLOCK) with false. change (OK =? OK) with true.
    mstep. unfold dropsAccessUnit. mstep. rewrite E. mstep.
    unfold delivers. mstep. norm_app. reflexivity.
  - inversion Hd as [|? ? Hau Hd']; subst.
    assert (E : dropsAccessUnit false au p = true).
    { apply dropsAccessUnit_iff. tauto. }
    open_player p. simpl in Hs, Hc. subst.
    unfold dropsAccessUnit in E. mstep in E.
    cbn [map app feedLoop List.length].
    change (OK =? - EWOULDBLOCK) with false. change (OK =? OK) with true.
    mstep. unfold dropsAccessUnit at 1. mstep. rewrite E. mstep.
    erewrite IH; [ | reflexivity | reflexivity | exact Hd' | exact Hk ].
    unfold delivers. mstep. cbn [Nat.iter].
    rewrite !iter_incr64_shift. reflexivity.
Qed.

(** C5.  For every video access unit it dequeues, [feedDecoderInputData]
    increments [mNumFramesTotal]; it drops the unit, incrementing
    [mNumFramesDropped] and dequeuing again, exactly when the stream is
    video, the source is not secure, video is more than 100 ms late, the
    stream is AVC and the unit is not an AVC reference frame; the next unit
    that does not meet this condition (a reference frame, for one) is the
    one delivered in the reply. *)
Theorem avc_late_frame_drop (msg reply : AMessage) (p : NuPlayer)
    (s : Source) (cc : CCDecoder) (drops : list ABuffer) (keep : ABuffer)
    (rest : list DequeueResult) :
  findMessage "reply" msg = Some reply ->
  mFlushingVideo p = NONE ->
  mSource p = Some s -> mCCDecoder p = Some cc ->
  videoAccessUnits s
    = map (fun au => (OK, Some au)) drops ++ (OK, Some keep) :: rest ->
  Forall (droppable p) drops -> ~ droppable p keep ->
  (forall audio au,
     dropsAccessUnit audio au p = true <-> audio = false /\ droppable p au)
  /\ feedDecoderInputData false msg p
     = Done OK (delivers (List.length drops) keep reply s rest p).
Proof.
  intros Hr Hf Hs Hc Hq Hd Hk. split.
  - intros. apply dropsAccessUnit_iff.
  - unfold feedDecoderInputData. rewrite Hr. mstep.
    unfold streamFlushing. rewrite Hf. mstep. rewrite Hs. mstep.
    cbn [accessUnits]. rewrite Hq. now apply feedLoop_drops with (cc := cc).
Qed.


Lemma bind_Done {A B} (m : M A) (k : A -> M B) p b p' :
  bind m k p = Done b p' -> exists a p1, m p = Done a p1 /\ k a p1 = Done b p'.
Proof.
  unfold bind. destruct (m p) as [a p1|f]; [|discriminate]. eauto.
Qed.

(** Inversion of a run that ended in [Done]: the monad operations are taken
    apart, calls of member functions are kept as hypotheses. *)
Lemma Done_inj {A} (a b : A) (p p' : NuPlayer) :
  Done a p = Done b p' -> a = b /\ p = p'.
Proof. intros H; inversion H; auto. Qed.

Ltac done_inv H :=
  let E1 := fresh "E" in
  let E2 := fresh "E" in
  apply Done_inj in H; destruct H as [E1 E2];
  first [ discriminate E1 | subst ].

Ltac minv H :=
  lazymatch type of H with
  | bind _ _ _ = Done _ _ =>
      let a := fresh "a" in
      let p1 := fresh "p" in
      let H1 := fresh "H" in
      let H2 := fresh "H" in
      apply bind_Done in H; destruct H as (a & p1 & H1 & H2);
      minv H1; fields in H2; minv H2
  | ret _ _ = Done _ _ => done_inv H
  | get _ _ = Done _ _ => done_inv H
  | modify _ _ = Done _ _ => done_inv H
  | emit _ _ = Done _ _ => done_inv H
  | skip _ = Done _ _ => done_inv H
  | advanceSource _ _ = Done _ _ => done_inv H
  | callSource _ _ = Done _ _ => unfold callSource in H; minv H
  | callRenderer _ _ = Done _ _ => unfold callRenderer in H; minv H
  | callAudioSink _ _ = Done _ _ => unfold callAudioSink in H; minv H
  | abort _ _ = Done _ _ => discriminate H
  | deref ?x _ = Done _ _ =>
      destruct x eqn:?; [done_inv H | discriminate H]
  | CHECK_found ?x _ = Done _ _ =>
      destruct x eqn:?; [done_inv H | discriminate H]
  | CHECK ?c _ = Done _ _ =>
      destruct c eqn:?; [done_inv H | discriminate H]
  | when ?c _ _ = Done _ _ =>
      destruct c eqn:?; cbn [when] in H; minv H
  | (if ?c then _ else _) _ = Done _ _ => destruct c eqn:?; minv H
  | (match ?x with _ => _ end) _ = Done _ _ => destruct x eqn:?; minv H
  | _ => idtac
  end.

(** A discontinuity that leaves the stream unaffected makes no call on any
    collaborator. *)
Lemma handleDiscontinuity_unaffected audio accessUnit p p' :
  handleDiscontinuity audio accessUnit p = Done None p' ->
  effects p' = effects p.
Proof.
  intros H. unfold handleDiscontinuity in H. cbv zeta in H.
  minv H; reflexivity.
Qed.

Lemma feedLoop_outcome audio reply : forall pending accessUnit p r p',
  feedLoop audio reply pending accessUnit p = Done r p' ->
  (r = - EWOULDBLOCK /\ effects p' = effects p)
  \/ (r = OK /\ replied reply p').
Proof.
  induction pending as [|[err stored] rest IH]; intros acc p r p' H.
  - inversion H; subst. auto.
  - cbn [feedLoop] in H. cbv zeta in H. minv H.
    all: try (left; split; [now apply Z.eqb_eq | reflexivity]).
    all: try (right; split; [reflexivity|]; eexists _, _;
              split; [reflexivity | eauto]).
    all: match goal with
         | H : handleDiscontinuity _ _ _ = Done None _ |- _ =>
             left; split; [reflexivity|];
             now rewrite (handleDiscontinuity_unaffected _ _ _ H)
         | H : feedLoop _ _ _ _ _ = Done _ _ |- _ =>
             apply IH in H; destruct H as [[-> E]|[-> R]]; [left|right]; auto
         end.
Qed.

(** C8.  Called for a stream whose flush status is not [NONE],
    [feedDecoderInputData] posts the reply at once with
    [err = INFO_DISCONTINUITY], takes nothing from the source and returns
    [OK].  And in every run its return value is [-EWOULDBLOCK], with no call
    made on any collaborator and no reply posted, or it is [OK], and then
    the last thing done was to post the reply, with an ["err"] status or with
    the buffer: [OK] says that the reply has been dealt with, whatever status
    was written into it. *)
Theorem feedDecoderInputData_replies (audio : bool) (msg : AMessage)
    (p : NuPlayer) :
  (forall reply,
     findMessage "reply" msg = Some reply ->
     flushStatus audio p <> NONE ->
     feedDecoderInputData audio msg p =
       Done OK
         (set_effects
            (effects p ++ [Post (setInt32 "err" INFO_DISCONTINUITY reply) 0])
            p))
  /\ (forall r p',
        feedDecoderInputData audio msg p = Done r p' ->
        (r = - EWOULDBLOCK /\ effects p' = effects p)
        \/ (r = OK
            /\ exists reply,
                 findMessage "reply" msg = Some reply /\ replied reply p')).
Proof.
  split.
  - intros reply Hr Hf. unfold feedDecoderInputData. rewrite Hr. mstep.
    replace (streamFlushing audio p) with true; [reflexivity|].
    unfold streamFlushing, flushStatus in *.
    destruct audio, (mFlushingAudio p), (mFlushingVideo p);
      try reflexivity; now elim Hf.
  - intros r p' H. unfold feedDecoderInputData in H. minv H.
    + right. split; [reflexivity|]. eexists. split; [reflexivity|].
      eexists _, _. split; [reflexivity|]. eauto.
    + match goal with
      | H : feedLoop _ _ _ _ _ = Done _ _ |- _ =>
          apply feedLoop_outcome in H;
          destruct H as [[-> E]|[-> R]]; [left|right]; eauto
      end.
Qed.


(** ** The audio sink *)

Lemma offload_info_eqb_refl a : offload_info_eqb a a = true.
Proof.
  unfold offload_info_eqb. rewrite !Z.eqb_refl, !Bool.eqb_reflx. reflexivity.
Qed.

Lemma offload_info_eqb_eq a b : offload_info_eqb a b = true -> a = b.
Proof.
  unfold offload_info_eqb. rewrite !andb_true_iff, !Z.eqb_eq, !Bool.eqb_true_iff.
  destruct a, b; simpl. intuition congruence.
Qed.

Lemma bind_step {A B} (m : M A) (k : A -> M B) p a p1 :
  m p = Done a p1 -> bind m k p = k a p1.
Proof. unfold bind. now intros ->. Qed.

(** [initialSinkFlags] only reads the player. *)
Lemma initialSinkFlags_reads p flags p1 :
  initialSinkFlags p = Done flags p1 -> p1 = p.
Proof. intros H. unfold initialSinkFlags in H. minv H; reflexivity. Qed.

Lemma initialSinkFlags_frame p p' flags :
  initialSinkFlags p = Done flags p ->
  mVideoDecoder p' = mVideoDecoder p -> mSource p' = mSource p ->
  initialSinkFlags p' = Done flags p'.
Proof.
  unfold initialSinkFlags. intros H Hv Hs. mstep in H. mstep.
  rewrite Hv.
  destruct (mVideoDecoder p); mstep in H; mstep;
    [inversion H; reflexivity|].
  rewrite Hs.
  destruct (mSource p) as [s|]; mstep in H; mstep; [|discriminate].
  destruct (getDuration s) as [err durationUs].
  destruct ((err =? OK) && (durationUs >? AUDIO_SINK_MIN_DEEP_BUFFER_DURATION_US));
    inversion H; reflexivity.
Qed.

(** In offload mode, a format whose offload configuration is the current
    one makes [openAudioSink] return without a call and without a change. *)
Lemma openAudioSink_same_config fmt offloadOnly p numChannels sampleRate mime
    err audioFormat flags :
  mOffloadAudio p = true ->
  findInt32 "channel-count" fmt = Some numChannels ->
  findInt32 "sample-rate" fmt = Some sampleRate ->
  findString "mime" fmt = Some mime ->
  mapMimeToAudioFormat AUDIO_FORMAT_PCM_16_BIT mime = (err, audioFormat) ->
  (err =? OK) = true ->
  initialSinkFlags p = Done flags p ->
  offload_info_eqb (mCurrentOffloadInfo p)
    (makeOffloadInfo fmt sampleRate
       match findInt32 "channel-mask" fmt with
       | Some m => m
       | None => CHANNEL_MASK_USE_CHANNEL_ORDER
       end
       (refineAudioFormat fmt audioFormat)
       match findInt32 "bit-rate" fmt with Some b => b | None => -1 end
       (negb (isNull (mVideoDecoder p)))) = true ->
  openAudioSink (Some fmt) offloadOnly p = Done tt p.
Proof.
  intros Ho Hc Hs Hm Hmap He Hf Heq.
  unfold openAudioSink. mstep. rewrite Hc. mstep. rewrite Hs. mstep.
  rewrite Hf. mstep. rewrite Ho.
  unfold openOffloadSink. mstep. rewrite Hm. mstep. rewrite Hmap. mstep.
  rewrite He. mstep. rewrite Heq. reflexivity.
Qed.



(** A call of [openAudioSink] that leaves offload on started in offload
    mode, kept the video decoder and the source, and left as current the
    offload configuration computed from the format. *)
Lemma openAudioSink_offload_kept fmt offloadOnly p p' :
  openAudioSink (Some fmt) offloadOnly p = Done tt p' ->
  mOffloadAudio p' = true ->
  mOffloadAudio p = true
  /\ mVideoDecoder p' = mVideoDecoder p
  /\ mSource p' = mSource p
  /\ (mVideoDecoder p = None -> mSource p <> None)
  /\ (exists numChannels, findInt32 "channel-count" fmt = Some numChannels)
  /\ computedOffloadInfo fmt p = Some (mCurrentOffloadInfo p').
Proof.
  intros H Ho. open_player p.
  unfold openAudioSink, openOffloadSink, initialSinkFlags in H.
  cbv zeta in H. minv H.
  all: fields in Ho; try discriminate Ho.
  all: repeat match goal with
       | E : Some _ = Some _ |- _ => inversion E; subst; clear E
       | H : context [negb true] |- _ => cbn [negb] in H
       | H : context [negb false] |- _ => cbn [negb] in H
       | H : _ && false = true |- _ =>
           rewrite andb_false_r in H; discriminate H
       | H : negb _ = false |- _ => apply negb_false_iff in H
       | H : negb _ = true |- _ => apply negb_true_iff in H
       end.
  all: try congruence.
  all: fields; unfold computedOffloadInfo.
  all: repeat match goal with
       | H : findInt32 _ _ = Some _ |- _ => rewrite H
       | H : findString _ _ = Some _ |- _ => rewrite H
       | H : mapMimeToAudioFormat _ _ = _ |- _ => rewrite H
       | H : (_ =? OK) = true |- _ => rewrite H
       end.
  all: repeat apply conj; eauto; try congruence.
  all: try (f_equal; symmetry; apply offload_info_eqb_eq; assumption).
  all: match goal with
       | H : isNull ?d = false |- ?d = None -> _ =>
           let Hn := fresh in intros Hn; rewrite Hn in H; discriminate H
       end.
Qed.

(** C9.  When [openAudioSink] is called in offload mode and the offload
    configuration computed from the format (sample rate, channel mask,
    format, stream type, bit rate, has-video, streaming, duration) is
    identical to [mCurrentOffloadInfo], the call returns without closing or
    opening the sink and leaves the player exactly as it was.  Hence a second
    call with the same format, the first one having left offload on, does
    nothing. *)
Theorem openAudioSink_unchanged_offload (fmt : AMessage) (p : NuPlayer) :
  (forall offloadOnly numChannels,
     mOffloadAudio p = true ->
     findInt32 "channel-count" fmt = Some numChannels ->
     (mVideoDecoder p = None -> mSource p <> None) ->
     computedOffloadInfo fmt p = Some (mCurrentOffloadInfo p) ->
     openAudioSink (Some fmt) offloadOnly p = Done tt p)
  /\ (forall offloadOnly offloadOnly' p',
        openAudioSink (Some fmt) offloadOnly p = Done tt p' ->
        mOffloadAudio p' = true ->
        openAudioSink (Some fmt) offloadOnly' p' = Done tt p').
Proof.
  assert (same : forall q offloadOnly numChannels,
            mOffloadAudio q = true ->
            findInt32 "channel-count" fmt = Some numChannels ->
            (mVideoDecoder q = None -> mSource q <> None) ->
            computedOffloadInfo fmt q = Some (mCurrentOffloadInfo q) ->
            openAudioSink (Some fmt) offloadOnly q = Done tt q).
  { intros q offloadOnly numChannels Ho Hc Hsrc Hi.
    unfold computedOffloadInfo in Hi.
    destruct (findInt32 "sample-rate" fmt) as [sampleRate|] eqn:Hs;
      [|discriminate].
    destruct (findString "mime" fmt) as [mime|] eqn:Hm; [|discriminate].
    destruct (mapMimeToAudioFormat AUDIO_FORMAT_PCM_16_BIT mime)
      as [err audioFormat] eqn:Hmap.
    destruct (err =? OK) eqn:He; [|discriminate].
    assert (Hf : exists flags, initialSinkFlags q = Done flags q).
    { unfold initialSinkFlags. mstep.
      destruct (mVideoDecoder q); mstep; [eauto|].
      destruct (mSource q) as [s|]; [|now elim Hsrc]. mstep.
      destruct (getDuration s) as [e d].
      destruct ((e =? OK) && (d >? AUDIO_SINK_MIN_DEEP_BUFFER_DURATION_US));
        eauto. }
    destruct Hf as [flags Hf].
    eapply openAudioSink_same_config; eauto.
    inversion Hi as [Hi']. rewrite Hi'. apply offload_info_eqb_refl. }
  split.
  - intros. eapply same; eauto.
  - intros offloadOnly offloadOnly' p' H Ho.
    destruct (openAudioSink_offload_kept _ _ _ H Ho)
      as (_ & Ev & Es & Hsrc & [numChannels Hc] & Hi).
    eapply same; eauto.
    + rewrite Ev, Es. exact Hsrc.
    + rewrite <- Hi. unfold computedOffloadInfo. now rewrite Ev.
Qed.

(** * Further properties *)

Context {polling : DurationPolling}.

(** ** Dispatch of decoder notifications *)

Lemma decoder_kinds_differ :
  decoderKindsDistinct ->
  (Decoder_kWhatEOS =? Decoder_kWhatFillThisBuffer) = false
  /\ (Decoder_kWhatFlushCompleted =? Decoder_kWhatFillThisBuffer) = false
  /\ (Decoder_kWhatFlushCompleted =? Decoder_kWhatEOS) = false
  /\ (Decoder_kWhatOutputFormatChanged =? Decoder_kWhatFillThisBuffer) = false
  /\ (Decoder_kWhatOutputFormatChanged =? Decoder_kWhatEOS) = false
  /\ (Decoder_kWhatOutputFormatChanged =? Decoder_kWhatFlushCompleted) = false
  /\ (Decoder_kWhatShutdownCompleted =? Decoder_kWhatFillThisBuffer) = false
  /\ (Decoder_kWhatShutdownCompleted =? Decoder_kWhatEOS) = false
  /\ (Decoder_kWhatShutdownCompleted =? Decoder_kWhatFlushCompleted) = false
  /\ (Decoder_kWhatShutdownCompleted =? Decoder_kWhatOutputFormatChanged)
     = false
  /\ (Decoder_kWhatError =? Decoder_kWhatFillThisBuffer) = false
  /\ (Decoder_kWhatError =? Decoder_kWhatEOS) = false
  /\ (Decoder_kWhatError =? Decoder_kWhatFlushCompleted) = false
  /\ (Decoder_kWhatError =? Decoder_kWhatOutputFormatChanged) = false
  /\ (Decoder_kWhatError =? Decoder_kWhatShutdownCompleted) = false
  /\ (Decoder_kWhatDrainThisBuffer =? Decoder_kWhatFillThisBuffer) = false
  /\ (Decoder_kWhatDrainThisBuffer =? Decoder_kWhatEOS) = false
  /\ (Decoder_kWhatDrainThisBuffer =? Decoder_kWhatFlushCompleted) = false
  /\ (Decoder_kWhatDrainThisBuffer =? Decoder_kWhatOutputFormatChanged)
     = false
  /\ (Decoder_kWhatDrainThisBuffer =? Decoder_kWhatShutdownCompleted) = false
  /\ (Decoder_kWhatDrainThisBuffer =? Decoder_kWhatError) = false.
Proof.
  intros [D _]. unfold decoderKindsDistinct in D.
  repeat match goal with
         | H : NoDup (_ :: _) |- _ =>
             let N := fresh "N" in
             let D' := fresh "D" in
             apply NoDup_cons_iff in H; destruct H as [N D']; simpl in N
         end.
  repeat apply conj; apply Z.eqb_neq; intros E; rewrite E in *; tauto.
Qed.

(** The tests of the dispatch on the kind of a decoder notification. *)
Ltac decoder_kind D :=
  let K := fresh "K" in
  pose proof (decoder_kinds_differ D) as K;
  repeat match type of K with
         | _ /\ _ => let E := fresh "E" in destruct K as [E K]; rewrite ?E
         | _ => rewrite ?K
         end.

(** The first steps of [onDecoderNotify] for a notification of the current
    generation. *)
Ltac dispatch N :=
  let Ha := fresh "Ha" in
  let Hg := fresh "Hg" in
  let Hk := fresh "Hk" in
  destruct N as (Ha & Hg & Hk);
  unfold onDecoderNotify; rewrite Ha, Hg, Hk;
  cbv beta iota zeta delta [bind get ret CHECK_found];
  rewrite Z.eqb_refl;
  cbv beta iota zeta delta [negb].

Lemma notify_FlushCompleted msg audio p :
  decoderKindsDistinct ->
  notifies msg audio Decoder_kWhatFlushCompleted p ->
  onDecoderNotify msg p =
  (state <- get (if audio then mFlushingAudio else mFlushingVideo) ;;
   let '(flushing, needShutdown) := IsFlushingState state in
   CHECK flushing ;;
   (if audio then modify (set_mFlushingAudio FLUSHED)
    else modify (set_mFlushingVideo FLUSHED) ;;
         modify (set_mVideoLateByUs 0)) ;;
   (if match needShutdown with Some b => b | None => false end then
      decoder <- get (getDecoder audio) ;;
      d <- deref decoder ;;
      emit (DecoderInitiateShutdown d) ;;
      if audio then modify (set_mFlushingAudio SHUTTING_DOWN_DECODER)
      else modify (set_mFlushingVideo SHUTTING_DOWN_DECODER)
    else skip) ;;
   finishFlushIfPossible) p.
Proof.
  intros D N. dispatch N. decoder_kind D. rewrite Z.eqb_refl. reflexivity.
Qed.

Lemma notify_ShutdownCompleted msg audio p :
  decoderKindsDistinct ->
  notifies msg audio Decoder_kWhatShutdownCompleted p ->
  onDecoderNotify msg p =
  ((if audio then
      modify (set_mAudioDecoder None) ;;
      (state <- get mFlushingAudio ;;
       CHECK (FlushStatus_eqb state SHUTTING_DOWN_DECODER)) ;;
      modify (set_mFlushingAudio SHUT_DOWN)
    else
      modify (set_mVideoDecoder None) ;;
      (state <- get mFlushingVideo ;;
       CHECK (FlushStatus_eqb state SHUTTING_DOWN_DECODER)) ;;
      modify (set_mFlushingVideo SHUT_DOWN)) ;;
   finishFlushIfPossible) p.
Proof.
  intros D N. dispatch N. decoder_kind D. rewrite Z.eqb_refl. reflexivity.
Qed.

Lemma notify_Error msg audio p :
  decoderKindsDistinct ->
  notifies msg audio Decoder_kWhatError p ->
  onDecoderNotify msg p =
  (let err :=
     match findInt32 "err" msg with Some e => e | None => UNKNOWN_ERROR end in
   callRenderer (RendererQueueEOS audio err) ;;
   (flushingAudio <- get mFlushingAudio ;;
    flushingVideo <- get mFlushingVideo ;;
    if audio && negb (FlushStatus_eqb flushingAudio NONE) then
      modify (set_mAudioDecoder None) ;;
      modify (set_mFlushingAudio SHUT_DOWN)
    else if negb audio && negb (FlushStatus_eqb flushingVideo NONE) then
      modify (set_mVideoDecoder None) ;;
      modify (set_mFlushingVideo SHUT_DOWN)
    else skip) ;;
   finishFlushIfPossible) p.
Proof.
  intros D N. dispatch N. decoder_kind D. rewrite Z.eqb_refl. reflexivity.
Qed.

Lemma notify_DrainThisBuffer msg audio p :
  decoderKindsDistinct ->
  notifies msg audio Decoder_kWhatDrainThisBuffer p ->
  onDecoderNotify msg p = renderBuffer audio msg p.
Proof.
  intros D N. dispatch N. decoder_kind D. rewrite Z.eqb_refl. reflexivity.
Qed.

Lemma notify_FillThisBuffer msg audio p :
  notifies msg audio Decoder_kWhatFillThisBuffer p ->
  onDecoderNotify msg p =
  (err <- feedDecoderInputData audio msg ;;
   if err =? - EWOULDBLOCK then
     source <- get mSource ;;
     s <- deref source ;;
     emit SourceFeedMoreTSData ;;
     when (feedMoreTSData s =? OK) (emit (Post msg 10000))
   else skip) p.
Proof.
  intros N. dispatch N. rewrite Z.eqb_refl. reflexivity.
Qed.

Lemma notify_OutputFormatChanged msg audio p :
  decoderKindsDistinct ->
  notifies msg audio Decoder_kWhatOutputFormatChanged p ->
  onDecoderNotify msg p =
  (fmt <- CHECK_found (findMessage "format" msg) ;;
   if audio then openAudioSink (Some fmt) false
   else
     source <- get mSource ;;
     s <- deref source ;;
     updateVideoSize (getFormat s false) (Some fmt)) p.
Proof.
  intros D N. dispatch N. decoder_kind D. rewrite Z.eqb_refl. reflexivity.
Qed.

(** ** Reset and seek, from the request to its completion *)

Lemma notifies_frame msg audio kind p p' :
  notifies msg audio kind p ->
  currentDecoderGeneration audio p' = currentDecoderGeneration audio p ->
  notifies msg audio kind p'.
Proof. unfold notifies. intros (Ha & Hg & Hk) E. rewrite E. auto. Qed.

(** Symbolic execution to the end, the deferred actions included: first up
    to the deferred actions, where the queue the handler has built is put in
    normal form, then through them. *)
Ltac run := exec; cbn [app]; lazy -[app incr32 incr64]; norm_app.

(** [performSetSurface] installs the window, applies the remembered scaling
    mode to it and tells the driver; the status of the scaling call is
    ignored. *)
Lemma performSetSurface_runs (w : option NativeWindowWrapper) (p : NuPlayer) :
  performSetSurface w p =
  Done tt
    (set_effects
       (effects p
        ++ match w with
           | Some w' => [NativeWindowSetScalingMode w' (mVideoScalingMode p)]
           | None => []
           end
        ++ delivered (mDriver p) [DriverNotifySetSurfaceComplete])
       (set_mNativeWindow w p)).
Proof.
  open_player p.
  destruct w as [w|], mDriver_; try (run; reflexivity);
    lazy -[app Z.eqb native_window_set_scaling_mode];
    destruct (native_window_set_scaling_mode w mVideoScalingMode_ =? 0);
    run; reflexivity.
Qed.

Ltac run_window :=
  exec; cbn [app]; lazy -[app incr32 incr64 performSetSurface];
  rewrite performSetSurface_runs; run.

(** One handler of a sequence, run on the player reached so far. *)
Ltac handler_step :=
  erewrite bind_step; [| run; reflexivity].
Ltac known_items :=
  repeat match goal with
         | H : findInt32 _ _ = Some _ |- _ => rewrite H
         | H : findInt64 _ _ = Some _ |- _ => rewrite H
         | H : findMessage _ _ = Some _ |- _ => rewrite H
         end.
Ltac notified L D N :=
  match type of N with
  | notifies ?m ?a _ _ =>
      erewrite bind_step;
      [| rewrite (@L m a);
         [| exact D | eapply notifies_frame; [exact N | reflexivity]];
         known_items; run; reflexivity]
  end.
Ltac notified_last L D N :=
  match type of N with
  | notifies ?m ?a _ _ =>
      rewrite (@L m a);
      [| exact D | eapply notifies_frame; [exact N | reflexivity]];
      known_items
  end.

(** X1.  A reset requested from a player at rest that has no decoder is
    carried out within the request: the shutdown action finds nothing to
    shut down and [performReset] runs at once. *)
Theorem reset_without_decoders (p : NuPlayer) :
  mAudioDecoder p = None -> mVideoDecoder p = None -> atRest p ->
  onReset p = Done tt (resetDone p).
Proof.
  intros Ha Hv (Fa & Fv & Q). open_player p. simpl in Ha, Hv, Fa, Fv, Q.
  subst. destruct mRendererLooper_, mRenderer_, mSource_, mDriver_;
    run; reflexivity.
Qed.

(** X2.  A reset requested while some decoder exists resets nothing yet:
    each existing decoder is told to flush (and the renderer to flush that
    stream), the streams go to [FLUSHING_DECODER_SHUTDOWN], and
    [performReset] stays in the queue; source, renderer and decoders are
    still there. *)
Theorem reset_waits_for_decoders (p : NuPlayer) (r : Renderer) :
  haveAnyDecoder p = true -> mRenderer p = Some r -> atRest p ->
  exists p1,
    onReset p = Done tt p1
    /\ mDeferredActions p1 = [SimpleAction performReset_fn]
    /\ mFlushingAudio p1 = flushingStatus (mAudioDecoder p) true
    /\ mFlushingVideo p1 = flushingStatus (mVideoDecoder p) true
    /\ mTimeDiscontinuityPending p1 = true
    /\ effects p1 =
       effects p ++ flushCalls true (mAudioDecoder p) None
                 ++ flushCalls false (mVideoDecoder p) None
    /\ mSource p1 = mSource p /\ mRenderer p1 = mRenderer p
    /\ mAudioDecoder p1 = mAudioDecoder p
    /\ mVideoDecoder p1 = mVideoDecoder p
    /\ mStarted p1 = mStarted p.
Proof.
  intros Hd Hr (Fa & Fv & Q). open_player p.
  simpl in Hd, Hr, Fa, Fv, Q. subst.
  destruct mAudioDecoder_ as [da|], mVideoDecoder_ as [dv|];
    try discriminate Hd; eexists; (split; [run; reflexivity|]);
    run; repeat apply conj; reflexivity.
Qed.

(** X3.  The whole reset of a player with both decoders: after the request
    and the four notifications (flush completed, then shutdown completed,
    from each decoder) the decoders have been flushed and shut down, the
    renderer has been told of the time discontinuity, and only then has
    [performReset] run; the decoders, the source and the renderer are gone
    and the player is at rest. *)
Theorem reset_round_trip (p : NuPlayer) (da dv : Decoder) (r : Renderer)
    (flushedA flushedV shutA shutV : AMessage) :
  decoderKindsDistinct ->
  mAudioDecoder p = Some da -> mVideoDecoder p = Some dv ->
  mRenderer p = Some r -> atRest p ->
  notifies flushedA true Decoder_kWhatFlushCompleted p ->
  notifies flushedV false Decoder_kWhatFlushCompleted p ->
  notifies shutA true Decoder_kWhatShutdownCompleted p ->
  notifies shutV false Decoder_kWhatShutdownCompleted p ->
  exists p',
    (onReset ;; onDecoderNotify flushedA ;; onDecoderNotify flushedV ;;
     onDecoderNotify shutA ;; onDecoderNotify shutV) p = Done tt p'
    /\ effects p' =
       effects p
       ++ [DecoderSignalFlush da None; RendererFlush true;
           DecoderSignalFlush dv None; RendererFlush false;
           DecoderInitiateShutdown da; DecoderInitiateShutdown dv;
           RendererSignalTimeDiscontinuity]
       ++ resetCalls p
    /\ mAudioDecoder p' = None /\ mVideoDecoder p' = None
    /\ mSource p' = None /\ mRenderer p' = None
    /\ mStarted p' = false /\ atRest p'.
Proof.
  intros D Ha Hv Hr (Fa & Fv & Q) N1 N2 N3 N4. open_player p.
  simpl in Ha, Hv, Hr, Fa, Fv, Q. subst.
  destruct mRendererLooper_, mSource_, mDriver_; eexists;
    (split;
     [ handler_step;
       notified notify_FlushCompleted D N1;
       notified notify_FlushCompleted D N2;
       notified notify_ShutdownCompleted D N3;
       notified_last notify_ShutdownCompleted D N4;
       run; reflexivity
     | run; repeat apply conj; reflexivity ]).
Qed.

(** X4.  A seek requested from a player at rest without decoders is carried
    out within the request: the source is told to seek, the timed-text
    generation moves on, and the driver, if it can be promoted, is told the
    new position and that the seek is complete. *)
Theorem seek_without_decoders (msg : AMessage) (p : NuPlayer) (s : Source)
    (seekTimeUs : Z) :
  findInt64 "seekTimeUs" msg = Some seekTimeUs ->
  mAudioDecoder p = None -> mVideoDecoder p = None -> mSource p = Some s ->
  atRest p ->
  onSeek msg p =
  Done tt
    (set_effects (effects p ++ seekCalls p seekTimeUs)
       (set_mTimedTextGeneration (incr32 (mTimedTextGeneration p)) p)).
Proof.
  intros Hm Ha Hv Hs (Fa & Fv & Q). open_player p.
  simpl in Ha, Hv, Hs, Fa, Fv, Q. subst. unfold onSeek. rewrite Hm.
  destruct mDriver_; run; reflexivity.
Qed.

(** X5.  The whole seek of a player with both decoders: the request flushes
    both decoders without shutting them down; once both have reported the
    flush complete, the renderer is told of the time discontinuity, both
    decoders are resumed, and only then is the source told to seek and the
    driver notified.  The decoders survive and the player is at rest
    again. *)
Theorem seek_round_trip (msg : AMessage) (p : NuPlayer) (da dv : Decoder)
    (r : Renderer) (s : Source) (seekTimeUs : Z)
    (flushedA flushedV : AMessage) :
  decoderKindsDistinct ->
  findInt64 "seekTimeUs" msg = Some seekTimeUs ->
  mAudioDecoder p = Some da -> mVideoDecoder p = Some dv ->
  mRenderer p = Some r -> mSource p = Some s -> atRest p ->
  notifies flushedA true Decoder_kWhatFlushCompleted p ->
  notifies flushedV false Decoder_kWhatFlushCompleted p ->
  exists p1 p',
    onSeek msg p = Done tt p1
    /\ effects p1 =
       effects p ++ [DecoderSignalFlush da None; RendererFlush true;
                     DecoderSignalFlush dv None; RendererFlush false]
    /\ mDeferredActions p1 = [SeekAction seekTimeUs]
    /\ (onDecoderNotify flushedA ;; onDecoderNotify flushedV) p1 = Done tt p'
    /\ effects p' =
       effects p1
       ++ [RendererSignalTimeDiscontinuity;
           DecoderSignalResume da; DecoderSignalResume dv]
       ++ seekCalls p seekTimeUs
    /\ mAudioDecoder p' = Some da /\ mVideoDecoder p' = Some dv
    /\ mVideoLateByUs p' = 0
    /\ atRest p'.
Proof.
  intros D Hm Ha Hv Hr Hs (Fa & Fv & Q) N1 N2. open_player p.
  simpl in Ha, Hv, Hr, Hs, Fa, Fv, Q. subst.
  destruct mDriver_; do 2 eexists;
    (split; [unfold onSeek; rewrite Hm; run; reflexivity|]);
    (split; [run; reflexivity|]);
    (split; [reflexivity|]);
    (split;
     [ notified notify_FlushCompleted D N1;
       notified_last notify_FlushCompleted D N2;
       run; reflexivity
     | run; repeat apply conj; reflexivity ]).
Qed.

(** ** Changing the video surface *)

(** X6.  A new surface given to a player at rest without video decoder is
    installed within the request: the remembered scaling mode is applied to
    the new window, the driver is told, the source is told to seek to the
    current position, and a scan for sources is requested if the player has
    been started and no scan is pending. *)
Theorem new_surface_without_video_decoder (p : NuPlayer) (s : Source)
    (w : NativeWindowWrapper) :
  mVideoDecoder p = None -> mSource p = Some s -> atRest p ->
  exists p',
    onSetVideoNativeWindow (Some (Some w)) p = Done tt p'
    /\ mNativeWindow p' = Some w
    /\ effects p' =
       effects p
       ++ [NativeWindowSetScalingMode w (mVideoScalingMode p)]
       ++ delivered (mDriver p) [DriverNotifySetSurfaceComplete]
       ++ seekCalls p (mCurrentPositionUs p)
       ++ (if mStarted p && negb (mScanSourcesPending p)
           then [Post (scanRequest (mScanSourcesGeneration p)) 0] else [])
    /\ atRest p'.
Proof.
  intros Hv Hs (Fa & Fv & Q). open_player p.
  simpl in Hv, Hs, Fa, Fv, Q. subst.
  destruct mDriver_, mStarted_, mScanSourcesPending_, mAudioDecoder_;
    eexists; (split; [run_window; reflexivity|]);
    run; repeat apply conj; reflexivity.
Qed.

(** X7.  A new surface given while a video decoder exists is not installed
    by the request: the video decoder is flushed for shutdown and the window
    stays as it was.  Once the decoder has reported flush and shutdown
    complete, the decoder is gone, the new window is installed, the seek to
    the current position is made and, on a started player, a scan for
    sources is requested under the generation the flush moved to.  The audio
    decoder is not touched. *)
Theorem new_surface_replaces_video_decoder (p : NuPlayer) (dv : Decoder)
    (r : Renderer) (s : Source) (w : NativeWindowWrapper)
    (flushedV shutV : AMessage) :
  decoderKindsDistinct ->
  mVideoDecoder p = Some dv -> mRenderer p = Some r -> mSource p = Some s ->
  atRest p ->
  notifies flushedV false Decoder_kWhatFlushCompleted p ->
  notifies shutV false Decoder_kWhatShutdownCompleted p ->
  exists p1 p',
    onSetVideoNativeWindow (Some (Some w)) p = Done tt p1
    /\ mNativeWindow p1 = mNativeWindow p
    /\ effects p1 = effects p ++ [DecoderSignalFlush dv None;
                                  RendererFlush false]
    /\ (onDecoderNotify flushedV ;; onDecoderNotify shutV) p1 = Done tt p'
    /\ mNativeWindow p' = Some w
    /\ mVideoDecoder p' = None
    /\ mAudioDecoder p' = mAudioDecoder p
    /\ effects p' =
       effects p1
       ++ [DecoderInitiateShutdown dv; RendererSignalTimeDiscontinuity;
           NativeWindowSetScalingMode w (mVideoScalingMode p)]
       ++ delivered (mDriver p) [DriverNotifySetSurfaceComplete]
       ++ seekCalls p (mCurrentPositionUs p)
       ++ (if mStarted p
           then [Post (scanRequest (incr32 (mScanSourcesGeneration p))) 0]
           else [])
    /\ atRest p'.
Proof.
  intros D Hv Hr Hs (Fa & Fv & Q) N1 N2. open_player p.
  simpl in Hv, Hr, Hs, Fa, Fv, Q. subst.
  destruct mDriver_, mStarted_, mAudioDecoder_; do 2 eexists;
    (split; [run; reflexivity|]);
    (split; [reflexivity|]);
    (split; [run; reflexivity|]);
    (split;
     [ notified notify_FlushCompleted D N1;
       notified_last notify_ShutdownCompleted D N2;
       run_window; reflexivity
     | run; repeat apply conj; reflexivity ]).
Qed.

(** X8.  Taking the surface away (a null window) from a player at rest
    without video decoder clears the window and tells the driver; no seek is
    made and no scan is requested.  A message without the window item fails
    the [CHECK]. *)
Theorem surface_removed (p : NuPlayer) :
  mVideoDecoder p = None -> atRest p ->
  onSetVideoNativeWindow (Some None) p =
  Done tt
    (set_effects
       (effects p ++ delivered (mDriver p) [DriverNotifySetSurfaceComplete])
       (set_mNativeWindow None p))
  /\ onSetVideoNativeWindow None p = Aborted CheckFailed.
Proof.
  intros Hv (Fa & Fv & Q). open_player p.
  simpl in Hv, Fa, Fv, Q. subst.
  split; [|reflexivity].
  destruct mDriver_, mAudioDecoder_; run; reflexivity.
Qed.

(** ** Decoder notifications out of turn, and decoder errors *)

(** X9.  A completion report the state machine is not waiting for stops the
    process: "flush completed" for a stream that is not flushing, and
    "shutdown completed" for a stream that is not shutting its decoder down,
    fail a [CHECK]. *)
Theorem unexpected_completion_aborts (msg : AMessage) (audio : bool)
    (kind : Z) (p : NuPlayer) :
  decoderKindsDistinct ->
  notifies msg audio kind p ->
  (kind = Decoder_kWhatFlushCompleted
   /\ flushStatus audio p <> FLUSHING_DECODER
   /\ flushStatus audio p <> FLUSHING_DECODER_SHUTDOWN)
  \/ (kind = Decoder_kWhatShutdownCompleted
      /\ flushStatus audio p <> SHUTTING_DOWN_DECODER) ->
  onDecoderNotify msg p = Aborted CheckFailed.
Proof.
  intros D N [(-> & H1 & H2)|(-> & H1)].
  - rewrite (notify_FlushCompleted D N). open_player p.
    destruct audio; simpl in H1, H2;
      [destruct mFlushingAudio_|destruct mFlushingVideo_];
      try reflexivity; congruence.
  - rewrite (notify_ShutdownCompleted D N). open_player p.
    destruct audio; simpl in H1;
      [destruct mFlushingAudio_|destruct mFlushingVideo_];
      try reflexivity; congruence.
Qed.

(** X10.  An error reported by a decoder of a player at rest reaches the
    renderer as the end of that stream, with the decoder's error code or
    [UNKNOWN_ERROR] when the notification carries none.  The decoder is
    kept and no flush starts; the only other call is the signal of a time
    discontinuity that was still pending. *)
Theorem decoder_error_at_rest (msg : AMessage) (audio : bool) (p : NuPlayer)
    (r : Renderer) :
  decoderKindsDistinct ->
  notifies msg audio Decoder_kWhatError p ->
  mRenderer p = Some r -> atRest p ->
  onDecoderNotify msg p =
  Done tt
    (set_mTimeDiscontinuityPending false
       (set_effects
          (effects p
           ++ [RendererQueueEOS audio
                 match findInt32 "err" msg with
                 | Some e => e
                 | None => UNKNOWN_ERROR
                 end]
           ++ (if mTimeDiscontinuityPending p
               then [RendererSignalTimeDiscontinuity] else []))
          p)).
Proof.
  intros D N Hr (Fa & Fv & Q). rewrite (notify_Error D N). open_player p.
  simpl in Hr, Fa, Fv, Q. subst.
  destruct audio, mTimeDiscontinuityPending_, mAudioDecoder_, mVideoDecoder_;
    run; reflexivity.
Qed.

(** X11.  A reset completes even when the decoders fail instead of
    finishing their shutdown: an error from a decoder that is being flushed
    drops that decoder and counts the stream as shut down, so after an error
    from each decoder [performReset] runs. *)
Theorem reset_survives_decoder_errors (p : NuPlayer) (da dv : Decoder)
    (r : Renderer) (errorA errorV : AMessage) (ea ev : Z) :
  decoderKindsDistinct ->
  mAudioDecoder p = Some da -> mVideoDecoder p = Some dv ->
  mRenderer p = Some r -> atRest p ->
  notifies errorA true Decoder_kWhatError p ->
  notifies errorV false Decoder_kWhatError p ->
  findInt32 "err" errorA = Some ea -> findInt32 "err" errorV = Some ev ->
  exists p',
    (onReset ;; onDecoderNotify errorA ;; onDecoderNotify errorV) p
    = Done tt p'
    /\ effects p' =
       effects p
       ++ [DecoderSignalFlush da None; RendererFlush true;
           DecoderSignalFlush dv None; RendererFlush false;
           RendererQueueEOS true ea; RendererQueueEOS false ev;
           RendererSignalTimeDiscontinuity]
       ++ resetCalls p
    /\ mAudioDecoder p' = None /\ mVideoDecoder p' = None
    /\ mSource p' = None /\ mRenderer p' = None /\ atRest p'.
Proof.
  intros D Ha Hv Hr (Fa & Fv & Q) N1 N2 E1 E2. open_player p.
  simpl in Ha, Hv, Hr, Fa, Fv, Q. subst.
  destruct mRendererLooper_, mSource_, mDriver_; eexists;
    (split;
     [ handler_step;
       notified notify_Error D N1;
       notified_last notify_Error D N2;
       run; reflexivity
     | run; repeat apply conj; reflexivity ]).
Qed.

(** X12.  A decoder's request for input that the source cannot serve yet
    (nothing pending for the stream) is not answered: the source is asked to
    feed more data and, if that succeeds, the same request is posted again
    10 ms later; if feeding fails the request is dropped. *)
Theorem starved_decoder_retries (msg reply : AMessage) (audio : bool)
    (p : NuPlayer) (s : Source) :
  notifies msg audio Decoder_kWhatFillThisBuffer p ->
  findMessage "reply" msg = Some reply ->
  flushStatus audio p = NONE ->
  mSource p = Some s -> accessUnits audio s = [] ->
  onDecoderNotify msg p =
  Done tt
    (set_effects
       (effects p
        ++ SourceFeedMoreTSData
           :: (if feedMoreTSData s =? OK then [Post msg 10000] else []))
       p).
Proof.
  intros N Hm F Hs Hq. rewrite (notify_FillThisBuffer N).
  unfold feedDecoderInputData. rewrite Hm. open_player p.
  simpl in Hs. subst.
  cbv beta iota zeta delta [bind get ret CHECK_found streamFlushing
    mFlushingAudio mFlushingVideo mSource deref].
  destruct audio; simpl in F; subst; cbn [FlushStatus_eqb negb andb orb];
    rewrite Hq; cbn [feedLoop];
    cbv beta iota zeta delta [bind get ret CHECK_found deref emit modify when
      skip mSource effects set_effects];
    change (- EWOULDBLOCK =? - EWOULDBLOCK) with true; cbv beta iota;
    destruct (feedMoreTSData s =? OK); norm_app; reflexivity.
Qed.

(** ** Output buffers *)

(** X13.  [renderBuffer] gives the decoder's output buffer away exactly
    once: either the reply goes straight back to the decoder and nothing
    else happens, or the buffer is queued on the renderer, preceded at most
    by the display call on the closed-caption decoder (video only).  A buffer
    is never queued while its stream is in a flush. *)
Theorem renderBuffer_hands_back_once (audio : bool) (msg : AMessage)
    (p p' : NuPlayer) :
  renderBuffer audio msg p = Done tt p' ->
  exists reply,
    findMessage "reply" msg = Some reply
    /\ (effects p' = effects p ++ [Post reply 0]
        \/ (streamFlushing audio p = false
            /\ exists buffer shown,
                 findBuffer "buffer" msg = Some buffer
                 /\ effects p' =
                    effects p ++ shown
                    ++ [RendererQueueBuffer audio buffer reply]
                 /\ (shown = []
                     \/ (audio = false
                         /\ exists t, shown = [CCDecoderDisplay t])))).
Proof.
  intros H. open_player p. unfold renderBuffer in H. minv H.
  all: fields.
  all: try match goal with
           | H : negb true = true |- _ => discriminate H
           | H : negb false = false |- _ => discriminate H
           end.
  all: eexists; (split; [reflexivity|]).
  all: first
         [ left; reflexivity
         | right; (split; [reflexivity|]);
           match goal with
           | |- context [(_ ++ [CCDecoderDisplay ?t]) ++ _] =>
               eexists; exists [CCDecoderDisplay t];
               (split; [reflexivity|]);
               (split; [norm_app; reflexivity|]);
               right; split; [|eexists; reflexivity];
               match goal with
               | |- false = false => reflexivity
               | H : negb ?a = true |- ?a = false =>
                   destruct a; [discriminate H|reflexivity]
               end
           | |- _ =>
               eexists; exists [];
               (split; [reflexivity|]);
               (split; [reflexivity|]); left; reflexivity
           end ].
Qed.

(** ** Creating decoders *)

Lemma incr32_fresh (g : Z) : incr32 g <> g.
Proof.
  unfold incr32, int32, wrap_signed. intros E.
  change (2 ^ (32 - 1)) with 2147483648 in E.
  change (2 ^ 32) with 4294967296 in E.
  pose proof (Z_div_mod_eq_full (g + 1 + 2147483648) 4294967296) as M.
  lia.
Qed.

(** X14.  [instantiateDecoder] is idempotent: once a call has returned, a
    second call for the same stream changes nothing and creates nothing.  It
    answers [OK] if the stream has a decoder and [-EWOULDBLOCK] if the
    source still has no format for it. *)
Theorem instantiateDecoder_idempotent (audio : bool) (p p1 : NuPlayer)
    (r : status_t) :
  let slot := if audio then AudioDecoderSlot else VideoDecoderSlot in
  instantiateDecoder audio slot p = Done r p1 ->
  instantiateDecoder audio slot p1 =
  Done (if isNull (readSlot slot p1) then - EWOULDBLOCK else OK) p1.
Proof.
  intros slot H. subst slot. open_player p.
  unfold instantiateDecoder in H. cbv zeta in H.
  destruct audio;
    [destruct mAudioDecoder_ as [d|]|destruct mVideoDecoder_ as [d|]];
    cbv beta iota delta [negb readSlot writeSlot] in H.
  all: minv H.
  all: try match goal with
           | H : (if isNull None then false else true) = true |- _ =>
               discriminate H
           end.
  all: unfold instantiateDecoder;
    cbv beta iota zeta delta [negb readSlot writeSlot]; mstep.
  all: repeat match goal with
              | H : getFormat _ _ = _ |- _ => rewrite H
              end.
  all: reflexivity.
Qed.

(** X15.  Every decoder [instantiateDecoder] creates gets a generation of
    its own: the generation counter of the stream moves to a value different
    from the one before, and the notification message handed to the new
    decoder is of the stream's kind and carries the new generation.  So what
    a decoder created earlier still sends is recognised as stale. *)
Theorem new_decoder_generation (audio : bool) (p p1 : NuPlayer)
    (r : status_t) :
  let slot := if audio then AudioDecoderSlot else VideoDecoderSlot in
  readSlot slot p = None ->
  instantiateDecoder audio slot p = Done r p1 ->
  readSlot slot p1 <> None ->
  exists d,
    readSlot slot p1 = Some d
    /\ what (decoderNotify d)
       = (if audio then kWhatAudioNotify else kWhatVideoNotify)
    /\ findInt32 "generation" (decoderNotify d)
       = Some (currentDecoderGeneration audio p1)
    /\ currentDecoderGeneration audio p1
       = incr32 (currentDecoderGeneration audio p)
    /\ currentDecoderGeneration audio p1 <> currentDecoderGeneration audio p.
Proof.
  intros slot E H N. subst slot. open_player p.
  unfold instantiateDecoder in H. cbv zeta in H.
  destruct audio; cbv beta iota delta [negb readSlot writeSlot] in H, E, N;
    fields in E; subst.
  all: minv H.
  all: fields in N; try (now elim N).
  all: try match goal with
           | H : (if isNull None then false else true) = true |- _ =>
               discriminate H
           end.
  all: eexists;
    cbv beta iota delta [readSlot currentDecoderGeneration]; fields;
    (split; [reflexivity|]); (split; [reflexivity|]);
    (split; [apply findInt32_setInt32|]);
    (split; [reflexivity|apply incr32_fresh]).
Qed.

(** ** Scanning for sources *)

(** Steps of symbolic execution that leave calls of member functions and
    comparisons of integers alone. *)
Ltac xstep :=
  repeat progress
    (cbv beta iota zeta delta [bind ret get modify skip when emit CHECK
       CHECK_found deref abort callSource callRenderer callAudioSink
       withDriver advanceSource notifyListener];
     fields;
     cbv beta iota delta [andb orb negb isNull driverSet promote delivered
       haveAnyDecoder readSlot writeSlot]).

Lemma incr32_eqb (g : Z) : (g =? incr32 g) = false.
Proof.
  apply Z.eqb_neq. intros E. symmetry in E. revert E. apply incr32_fresh.
Qed.

(** X16.  A flush makes the scan request that is under way obsolete: the
    request posted by [postScanSources] carries the generation of its time,
    [flushDecoder] moves the generation on and clears the pending flag, and
    when the request arrives [onScanSources] drops it without touching the
    player. *)
Theorem flush_invalidates_scan_request (audio needShutdown : bool)
    (newFormat : option AMessage) (p : NuPlayer) (d : Decoder)
    (r : Renderer) :
  mScanSourcesPending p = false ->
  getDecoder audio p = Some d -> mRenderer p = Some r ->
  exists p1,
    (postScanSources ;; flushDecoder audio needShutdown newFormat) p
    = Done tt p1
    /\ effects p1 =
       effects p
       ++ [Post (scanRequest (mScanSourcesGeneration p)) 0;
           DecoderSignalFlush d newFormat; RendererFlush audio]
    /\ mScanSourcesPending p1 = false
    /\ onScanSources (scanRequest (mScanSourcesGeneration p)) p1
       = Done tt p1.
Proof.
  intros Hp Hd Hr. open_player p. unfold getDecoder in Hd.
  simpl in Hp, Hr. subst.
  destruct audio; simpl in Hd; subst; eexists;
    (split; [exec; reflexivity|]);
    (split; [destruct needShutdown; reflexivity|]);
    (split; [destruct needShutdown; reflexivity|]);
    unfold onScanSources, scanRequest; rewrite findInt32_setInt32;
    destruct needShutdown; xstep; rewrite incr32_eqb; reflexivity.
Qed.

(** X17.  A scan that finds nothing to decode yet (the source has no format
    for either stream).  No decoder is created.  The source is asked to
    feed more data; if that works, the scan is repeated 100 ms later exactly
    when an output (audio sink or window) is waiting for a decoder, and the
    pending flag says so.  If the source is out of data, the listener is
    told that playback is complete (end of stream) or that an error
    occurred, and no further scan is scheduled. *)
Theorem scan_without_formats (msg : AMessage) (p : NuPlayer) (s : Source) :
  findInt32 "generation" msg = Some (mScanSourcesGeneration p) ->
  mSource p = Some s -> (forall audio, getFormat s audio = None) ->
  mAudioDecoder p = None -> mVideoDecoder p = None ->
  mOffloadAudio p = false ->
  let fed := feedMoreTSData s =? OK in
  let wanted :=
    negb (isNull (mAudioSink p)) || negb (isNull (mNativeWindow p)) in
  onScanSources msg p =
  Done tt
    (set_mScanSourcesPending (fed && wanted)
       (set_effects
          (effects p
           ++ SourceFeedMoreTSData
              :: (if fed then
                    if wanted then [Post msg 100000] else []
                  else
                    delivered (mDriver p)
                      [if feedMoreTSData s =? ERROR_END_OF_STREAM
                       then DriverNotifyListener MEDIA_PLAYBACK_COMPLETE 0 0
                              None
                       else DriverNotifyListener MEDIA_ERROR
                              MEDIA_ERROR_UNKNOWN (feedMoreTSData s) None]))
          p)).
Proof.
  intros Hm Hs Hf Ha Hv Ho fed wanted. subst fed wanted. open_player p.
  simpl in Hm, Hs, Ha, Hv, Ho. subst.
  unfold onScanSources, instantiateDecoder. rewrite Hm.
  destruct mAudioSink_, mNativeWindow_, mDriver_; xstep;
    rewrite ?Z.eqb_refl; xstep; rewrite ?Hf; xstep;
    destruct (feedMoreTSData s =? OK); xstep;
    try destruct (feedMoreTSData s =? ERROR_END_OF_STREAM); xstep;
    norm_app; reflexivity.
Qed.

(** X18.  A scan on a player with a window, no audio sink and no decoder,
    whose source knows the video format: the video decoder is created on the
    window under a new generation and configured with the format; as this is
    the first playable stream, duration polling is scheduled if the source
    has a dynamic duration; the source is asked to feed more data; and the
    scan is not repeated, whatever the source answers, because no output is
    left waiting for a decoder. *)
Theorem scan_creates_video_decoder (msg fmt : AMessage) (p : NuPlayer)
    (s : Source) (w : NativeWindowWrapper) (mime : string) :
  findInt32 "generation" msg = Some (mScanSourcesGeneration p) ->
  mSource p = Some s -> getFormat s false = Some fmt ->
  findString "mime" fmt = Some mime ->
  testFlag (mSourceFlags p) FLAG_SECURE = false ->
  mNativeWindow p = Some w -> mAudioSink p = None ->
  mAudioDecoder p = None -> mVideoDecoder p = None ->
  let d := videoDecoderFor (Some w) (incr32 (mVideoDecoderGeneration p)) in
  exists p',
    onScanSources msg p = Done tt p'
    /\ mVideoDecoder p' = Some d
    /\ mVideoDecoderGeneration p' = incr32 (mVideoDecoderGeneration p)
    /\ mVideoIsAVC p' = strcasecmp_eq MEDIA_MIMETYPE_VIDEO_AVC mime
    /\ effects p' =
       effects p
       ++ [DecoderInit d; DecoderConfigure d fmt]
       ++ (if testFlag (mSourceFlags p) FLAG_DYNAMIC_DURATION
           then [Post (pollRequest (mPollDurationGeneration p)) 0] else [])
       ++ [SourceFeedMoreTSData]
    /\ mScanSourcesPending p' = false.
Proof.
  intros Hm Hs Hf Hmime Hsec Hw Hsink Ha Hv d. subst d. open_player p.
  simpl in Hm, Hs, Hsec, Hw, Hsink, Ha, Hv. subst.
  unfold onScanSources, instantiateDecoder, schedulePollDuration.
  rewrite Hm. xstep. rewrite ?Z.eqb_refl. xstep. rewrite ?Hf. xstep.
  rewrite Hmime. xstep. rewrite Hsec. xstep.
  destruct (testFlag mSourceFlags_ FLAG_DYNAMIC_DURATION); xstep;
    destruct (feedMoreTSData s =? OK); xstep;
    eexists; (split; [reflexivity|]); fields; norm_app;
    repeat apply conj; reflexivity.
Qed.

(** ** The reported video size *)

(** X19.  With an output format and no sample aspect ratio in the input
    format, the size reported to the listener is the size of the crop
    rectangle of the output format, not its coded width and height; the two
    dimensions are exchanged exactly for a rotation of 90 or 270 degrees.
    Without an input format the size reported is 0 x 0. *)
Theorem video_size_from_crop (input output : AMessage) (p : NuPlayer)
    (width height left top right bottom : Z) :
  findInt32 "width" output = Some width ->
  findInt32 "height" output = Some height ->
  findRect "crop" output = Some (left, top, right, bottom) ->
  findInt32 "sar-width" input = None ->
  let displayWidth := int32 (right - left + 1) in
  let displayHeight := int32 (bottom - top + 1) in
  let quarterTurn :=
    match findInt32 "rotation-degrees" input with
    | Some r => (r =? 90) || (r =? 270)
    | None => false
    end in
  updateVideoSize (Some input) (Some output) p =
  Done tt
    (set_effects
       (effects p
        ++ delivered (mDriver p)
             [if quarterTurn
              then DriverNotifyListener MEDIA_SET_VIDEO_SIZE displayHeight
                     displayWidth None
              else DriverNotifyListener MEDIA_SET_VIDEO_SIZE displayWidth
                     displayHeight None])
       p)
  /\ updateVideoSize None (Some output) p =
     Done tt
       (set_effects
          (effects p
           ++ delivered (mDriver p)
                [DriverNotifyListener MEDIA_SET_VIDEO_SIZE 0 0 None])
          p).
Proof.
  intros Hw Hh Hc Hsar dw dh qt. subst dw dh qt. open_player p.
  unfold updateVideoSize. rewrite Hw, Hh, Hc, Hsar. split.
  - destruct (findInt32 "rotation-degrees" input) as [rot|];
      [destruct ((rot =? 90) || (rot =? 270))|];
      destruct mDriver_; xstep; rewrite ?app_nil_r; reflexivity.
  - destruct mDriver_; xstep; rewrite ?app_nil_r; reflexivity.
Qed.

(** X20.  A sample aspect ratio whose height is zero makes the computation
    of the display width divide by zero: once the dimensions have been read
    from the formats, the call faults instead of returning, whether or not a
    listener is there to be told. *)
Theorem video_size_zero_sar_height (input : AMessage)
    (output : option AMessage) (p : NuPlayer) (sarWidth : Z) :
  findInt32 "sar-width" input = Some sarWidth ->
  findInt32 "sar-height" input = Some 0 ->
  updateVideoSize (Some input) output p =
  Aborted (if dimensionsKnown input output then DivisionFault
           else CheckFailed).
Proof.
  intros Hw Hh. unfold updateVideoSize, dimensionsKnown. rewrite Hw, Hh.
  destruct output as [output|].
  - destruct (findInt32 "width" output); [|reflexivity].
    destruct (findInt32 "height" output); [|reflexivity].
    destruct (findRect "crop" output) as [[[[l t] rt] b]|]; reflexivity.
  - destruct (findInt32 "width" input); [|reflexivity].
    destruct (findInt32 "height" input); reflexivity.
Qed.

(** ** The audio sink without offload *)

Lemma clearFlag_clears (flags flag : Z) :
  testFlag (clearFlag flags flag) flag = false.
Proof.
  unfold testFlag, clearFlag, uint32. apply negb_false_iff, Z.eqb_eq.
  apply Z.bits_inj'. intros n Hn.
  rewrite Z.bits_0, !Z.land_spec.
  destruct (Z.ltb_spec n 32) as [L|L].
  - rewrite Z.mod_pow2_bits_low by lia. rewrite Z.lnot_spec by lia.
    destruct (Z.testbit flag n); simpl; now rewrite ?andb_false_r.
  - rewrite Z.mod_pow2_bits_high by lia. now rewrite andb_false_r.
Qed.

Lemma app_four {A} (e : list A) a b c d :
  (((e ++ [a]) ++ [b]) ++ [c]) ++ [d] = e ++ [a; b; c; d].
Proof. rewrite <- !app_assoc. reflexivity. Qed.

(** X21.  Whenever [openAudioSink], not restricted to offload, returns with
    offload off (it was off from the start, the mime type cannot be
    offloaded, or the offload sink failed to open or start), the sink has
    been closed and re-opened for 16-bit PCM without offload information,
    without callback and without the compress-offload flag, the open has
    succeeded, the sink has been started and the renderer has been told of
    the change; these are the last four calls.  The current offload
    configuration is the initial one. *)
Theorem software_sink_is_pcm (fmt : AMessage) (p p' : NuPlayer) :
  openAudioSink (Some fmt) false p = Done tt p' ->
  mOffloadAudio p' = false ->
  exists earlier args sink,
    effects p' =
      earlier ++ [AudioSinkClose; AudioSinkOpen args; AudioSinkStart;
                  RendererSignalAudioSinkChanged]
    /\ openFormat args = AUDIO_FORMAT_PCM_16_BIT
    /\ openOffloadInfo args = None
    /\ openCallback args = false
    /\ testFlag (openFlags args) AUDIO_OUTPUT_FLAG_COMPRESS_OFFLOAD = false
    /\ mAudioSink p' = Some sink /\ sinkOpen sink args = OK
    /\ mCurrentOffloadInfo p' = AUDIO_INFO_INITIALIZER.
Proof.
  intros H Ho. open_player p.
  unfold openAudioSink, openOffloadSink, initialSinkFlags in H.
  cbv zeta in H. minv H.
  all: fields in Ho; try discriminate Ho.
  all: repeat match goal with
       | H : context [negb true] |- _ => cbn [negb] in H
       | H : context [negb false] |- _ => cbn [negb] in H
       | H : context [andb true] |- _ => cbn [andb] in H
       | H : context [andb false] |- _ => cbn [andb] in H
       end.
  all: try discriminate.
  all: fields.
  all: match goal with
       | |- exists earlier args sink,
              (((?e ++ [AudioSinkClose]) ++ [AudioSinkOpen ?a])
               ++ [AudioSinkStart]) ++ [RendererSignalAudioSinkChanged] = _
              /\ _ =>
           exists e, a; eexists; (split; [apply app_four|])
       end.
  all: repeat apply conj; try reflexivity; try apply clearFlag_clears.
  all: apply Z.eqb_eq; assumption.
Qed.

(** ** Discontinuities in the input *)


(** ** A shutdown asked for by the source *)

(** X23.  When the source asks for the audio decoder to be shut down, its
    reply is held back until the decoder is gone: the request only starts
    the flush; after the decoder has reported flush and shutdown complete,
    the renderer is told of the time discontinuity, a scan for sources is
    requested (on a started player, under the generation the flush moved
    to), and then the reply is posted.  The video decoder is not
    touched. *)
Theorem source_shutdown_replies_last (msg reply : AMessage) (p : NuPlayer)
    (da : Decoder) (r : Renderer) (audio : Z) (flushedA shutA : AMessage) :
  decoderKindsDistinct ->
  findInt32 "audio" msg = Some audio -> audio <> 0 ->
  findInt32 "video" msg = Some 0 ->
  findMessage "reply" msg = Some reply ->
  mAudioDecoder p = Some da -> mRenderer p = Some r -> atRest p ->
  notifies flushedA true Decoder_kWhatFlushCompleted p ->
  notifies shutA true Decoder_kWhatShutdownCompleted p ->
  exists p1 p',
    onQueueDecoderShutdown msg p = Done tt p1
    /\ effects p1 =
       effects p ++ [DecoderSignalFlush da None; RendererFlush true]
    /\ (onDecoderNotify flushedA ;; onDecoderNotify shutA) p1 = Done tt p'
    /\ effects p' =
       effects p1
       ++ [DecoderInitiateShutdown da; RendererSignalTimeDiscontinuity]
       ++ (if mStarted p
           then [Post (scanRequest (incr32 (mScanSourcesGeneration p))) 0]
           else [])
       ++ [Post reply 0]
    /\ mAudioDecoder p' = None
    /\ mVideoDecoder p' = mVideoDecoder p
    /\ atRest p'.
Proof.
  intros D Ha Hnz Hv Hm Hd Hr (Fa & Fv & Q) N1 N2. open_player p.
  simpl in Hd, Hr, Fa, Fv, Q. subst.
  apply Z.eqb_neq in Hnz.
  destruct mStarted_, mVideoDecoder_; do 2 eexists;
    (split; [unfold onQueueDecoderShutdown; rewrite Ha, Hv, Hm;
             cbv beta iota delta [bind ret CHECK_found]; rewrite Hnz;
             run; reflexivity|]);
    (split; [run; reflexivity|]);
    (split;
     [ notified notify_FlushCompleted D N1;
       notified_last notify_ShutdownCompleted D N2;
       run; reflexivity
     | run; repeat apply conj; reflexivity ]).
Qed.

(** ** Frame statistics *)

Lemma handleDiscontinuity_keeps_total audio accessUnit :
  preserves mNumFramesTotal (handleDiscontinuity audio accessUnit).
Proof.
  unfold handleDiscontinuity, flushDecoder, updateDecoderFormatWithoutFlush.
  cbv zeta. preserves_auto.
Qed.

Lemma handleDiscontinuity_keeps_dropped audio accessUnit :
  preserves mNumFramesDropped (handleDiscontinuity audio accessUnit).
Proof.
  unfold handleDiscontinuity, flushDecoder, updateDecoderFormatWithoutFlush.
  cbv zeta. preserves_auto.
Qed.

Lemma feedLoop_counts audio reply : forall pending accessUnit p r p',
  feedLoop audio reply pending accessUnit p = Done r p' ->
  exists dropped total : nat,
    mNumFramesDropped p' = Nat.iter dropped incr64 (mNumFramesDropped p)
    /\ mNumFramesTotal p' = Nat.iter total incr64 (mNumFramesTotal p)
    /\ (total = dropped \/ total = S dropped)
    /\ (audio = true -> total = O).
Proof.
  induction pending as [|[err stored] rest IH]; intros acc p r p' H.
  - inversion H; subst. exists O, O. simpl. auto.
  - open_player p. destruct audio; cbn [feedLoop negb when] in H;
      cbv zeta in H; minv H.
    all: try match goal with
             | H : dropsAccessUnit true _ _ = true |- _ =>
                 unfold dropsAccessUnit in H; cbn [negb andb] in H;
                 discriminate H
             end.
    all: match goal with
         | H : feedLoop _ _ _ _ _ = Done _ _ |- _ =>
             apply IH in H; destruct H as (d & t & Ed & Et & C & A);
             cbn [mNumFramesDropped mNumFramesTotal] in Ed, Et;
             exists (S d), (S t); rewrite Ed, Et;
             cbn [Nat.iter nat_rect]; rewrite !iter_incr64_shift;
             repeat apply conj;
             [ reflexivity | reflexivity
             | destruct C as [->| ->]; auto
             | intros X; discriminate X ]
         | H : handleDiscontinuity _ _ _ = Done _ ?q |- _ =>
             pose proof (handleDiscontinuity_keeps_dropped _ _ _ H) as Kd;
             pose proof (handleDiscontinuity_keeps_total _ _ _ H) as Kt;
             exists O, O; cbn [Nat.iter nat_rect]; repeat apply conj;
             [ transitivity (mNumFramesDropped q); [reflexivity|exact Kd]
             | transitivity (mNumFramesTotal q); [reflexivity|exact Kt]
             | auto | auto ]
         | |- _ =>
             first
               [ exists O, O; cbn [Nat.iter nat_rect]; repeat apply conj;
                 [ reflexivity | reflexivity | auto | auto ]
               | exists O, (S O); cbn [Nat.iter nat_rect]; repeat apply conj;
                 [ reflexivity | reflexivity | auto
                 | intros X; discriminate X ] ]
         end.
Qed.

(** X24.  The frame statistics stay consistent through every run of
    [feedDecoderInputData] that returns: both counters only move forward,
    each dropped frame has been counted as a frame, and at most one further
    frame (the one delivered) has been counted; for audio neither counter
    moves. *)
Theorem frame_counters_consistent (audio : bool) (msg : AMessage)
    (p p' : NuPlayer) (r : status_t) :
  feedDecoderInputData audio msg p = Done r p' ->
  exists dropped total : nat,
    mNumFramesDropped p' = Nat.iter dropped incr64 (mNumFramesDropped p)
    /\ mNumFramesTotal p' = Nat.iter total incr64 (mNumFramesTotal p)
    /\ (total = dropped \/ total = S dropped)
    /\ (audio = true -> total = O).
Proof.
  intros H. unfold feedDecoderInputData in H. open_player p. minv H.
  - exists O, O. simpl. auto.
  - match goal with
    | H : feedLoop _ _ _ _ _ = Done _ _ |- _ =>
        apply feedLoop_counts in H; exact H
    end.
Qed.

(** ** Requests that pile up or arrive late *)

(** X25.  Scan requests do not pile up: however many times in a row
    [postScanSources] is called, the player ends as after one call, with one
    request posted at most. *)
Theorem scan_requests_do_not_pile_up (n : nat) (p : NuPlayer) :
  times (S n) postScanSources p = postScanSources p.
Proof.
  assert (again : forall q, mScanSourcesPending q = true ->
                            postScanSources q = Done tt q).
  { intros q Hq. open_player q. simpl in Hq. subst. reflexivity. }
  assert (idle : forall k q, mScanSourcesPending q = true ->
                             times k postScanSources q = Done tt q).
  { induction k as [|k IH]; intros q Hq; [reflexivity|].
    cbn [times]. erewrite bind_step; [|exact (again q Hq)]. now apply IH. }
  cbn [times]. open_player p. destruct mScanSourcesPending_.
  - erewrite bind_step; [|apply again; reflexivity]. now apply idle.
  - erewrite bind_step; [|exec; reflexivity]. now apply idle.
Qed.

(** X26.  Within the coordinator nothing keeps a seek from running after a
    reset: a seek requested after the reset of a player without decoders
    finds the source gone and calls [seekTo] through the null pointer. *)
Theorem seek_after_reset_faults (msg : AMessage) (p : NuPlayer)
    (seekTimeUs : Z) :
  findInt64 "seekTimeUs" msg = Some seekTimeUs ->
  mAudioDecoder p = None -> mVideoDecoder p = None -> atRest p ->
  (onReset ;; onSeek msg) p = Aborted NullDereference.
Proof.
  intros Hm Ha Hv (Fa & Fv & Q). open_player p.
  simpl in Ha, Hv, Fa, Fv, Q. subst.
  destruct mRendererLooper_, mRenderer_, mSource_, mDriver_;
    (erewrite bind_step; [|run; reflexivity]);
    unfold onSeek; rewrite Hm; run; reflexivity.
Qed.

End Properties.

(** * The properties on the sample inputs *)

Section Samples.

#[local] Existing Instance sample_platform.

Lemma processDeferredActions_gated_witness :
  (flushInProgress sample_flushing_player = true
   /\ executions sample_flushing_player = []
   /\ processDeferredActions sample_flushing_player
      = Done tt sample_flushing_player)
  /\ (map fst (executions sample_queued_player)
      = [SeekAction 5000000; PostMessageAction sample_reply]
      /\ executedInOrder sample_queued_player
           (executions sample_queued_player)
           (processDeferredActions sample_queued_player)
      /\ exists p',
           processDeferredActions sample_queued_player = Done tt p'
           /\ mDeferredActions p' = []
           /\ effects p'
              = [SourceSeekTo 5000000; DriverNotifyPosition 5000000;
                 DriverNotifySeekComplete; Post sample_reply 0]).
Proof.
  split.
  - split; [reflexivity|].
    apply (processDeferredActions_gated sample_flushing_player).
    reflexivity.
  - destruct (processDeferredActions_gated sample_queued_player)
      as (_ & prefix & _ & _ & _ & run).
    split; [exact prefix|]. split; [exact run|].
    eexists. split; [vm_compute; reflexivity|]. split; reflexivity.
Defined.

Lemma performReset_spec_witness :
  mAudioDecoder sample_idle_player = None
  /\ mVideoDecoder sample_idle_player = None
  /\ exists p',
       performReset sample_idle_player = Done tt p'
       /\ mSource p' = None /\ mRenderer p' = None /\ mStarted p' = false.
Proof.
  split; [reflexivity|]. split; [reflexivity|].
  destruct (performReset_spec sample_idle_player
              eq_refl eq_refl)
    as (p' & H & (Hs & Hr & _) & Hst & _).
  exists p'. auto.
Defined.

(** The claim C4 as stated fails: [performReset] leaves the audio sink, the
    native window and the driver in place. *)
Lemma performReset_keeps_handles :
  mAudioDecoder sample_idle_player = None
  /\ mVideoDecoder sample_idle_player = None
  /\ exists p',
       performReset sample_idle_player = Done tt p'
       /\ mAudioSink p' = Some sample_sink
       /\ ~ allCollaboratorHandlesAbsent p'.
Proof.
  split; [reflexivity|]. split; [reflexivity|].
  exists (resetDone sample_idle_player).
  split; [vm_compute; reflexivity|]. split; [vm_compute; reflexivity|].
  intros (_ & _ & _ & _ & H & _). vm_compute in H. discriminate H.
Qed.

Lemma perform_without_decoder_witness :
  performDecoderShutdown true true sample_idle_player
    = Done tt sample_idle_player
  /\ performDecoderFlush sample_idle_player
     = Done tt sample_idle_player.
Proof.
  split.
  - apply (proj1 (perform_without_decoder_is_noop
                    sample_idle_player)); reflexivity.
  - apply (proj2 (perform_without_decoder_is_noop
                    sample_idle_player)); reflexivity.
Defined.

Lemma stale_decoder_notification_witness :
  onDecoderNotify sample_stale_request sample_late_player
  = Done tt
      (set_effects
         (effects sample_late_player
          ++ [Post (setInt32 "err" (-1013) sample_reply) 0])
         sample_late_player).
Proof.
  assert (stale : 0 <> currentDecoderGeneration
                          (what sample_stale_request =? kWhatAudioNotify)
                          sample_late_player)
    by (vm_compute; discriminate).
  rewrite (stale_decoder_notification sample_stale_request
             sample_late_player (generation := 0) eq_refl stale).
  reflexivity.
Defined.

Lemma renderer_EOS_witness :
  exists p',
    onRendererNotify sample_eos_notification sample_idle_player
    = Done tt p'
    /\ mVideoEOS p' = true
    /\ effects p' = [DriverNotifyListener 2 0 0 None].
Proof.
  assert (kind : findInt32 "what" sample_eos_notification
                 = Some Renderer_kWhatEOS) by reflexivity.
  rewrite (renderer_EOS sample_eos_notification sample_idle_player
             (audio := 0) (finalResult := -1011) kind eq_refl eq_refl).
  eexists. split; [reflexivity|]. split; reflexivity.
Defined.

Lemma audio_offload_teardown_witness :
  exists p',
    onRendererNotify sample_teardown_notification
      sample_offload_player = Done tt p'
    /\ mOffloadAudio p' = false
    /\ mAudioDecoder p' = Some (softwareAudioDecoder 2).
Proof.
  assert (kind : findInt32 "what" sample_teardown_notification
                 = Some Renderer_kWhatAudioOffloadTearDown) by reflexivity.
  destruct (audio_offload_teardown
              sample_teardown_notification sample_offload_player
              (positionUs := 12345000) (sink := sample_sink)
              (renderer := sample_renderer) (s := sample_source)
              kind eq_refl eq_refl eq_refl eq_refl)
    as (p' & H & Ho & Hd & _).
  exists p'. auto.
Defined.

(** The claim C7 as stated fails: on a source that reports no audio format
    the tear-down ends without an audio decoder. *)
Lemma teardown_without_audio_format :
  exists p',
    onRendererNotify sample_teardown_notification
      sample_formatless_player = Done tt p'
    /\ mOffloadAudio p' = false
    /\ mAudioDecoder p' = None.
Proof.
  destruct (onRendererNotify sample_teardown_notification
              sample_formatless_player) as [[] p'|f] eqn:E;
    [|vm_compute in E; discriminate E].
  exists p'. split; [reflexivity|].
  vm_compute in E. apply Done_inj in E. destruct E as [_ <-].
  split; reflexivity.
Qed.

Lemma avc_late_frame_drop_witness :
  feedDecoderInputData false sample_fill_request
    sample_late_player
  = Done OK
      (delivers 1 sample_reference_frame sample_reply sample_source []
         sample_late_player).
Proof.
  assert (late : Forall (droppable sample_late_player)
                   [sample_disposable_frame])
    by (repeat constructor).
  assert (kept : ~ droppable sample_late_player sample_reference_frame)
    by (intros (_ & _ & _ & H); discriminate H).
  exact (proj2 (@avc_late_frame_drop _ sample_fill_request sample_reply
                  sample_late_player sample_source
                  {| ccNotify := Message (fourcc "capN") [];
                     isSelected := false |}
                  [sample_disposable_frame] sample_reference_frame []
                  eq_refl eq_refl eq_refl eq_refl eq_refl late kept)).
Defined.

Lemma feedDecoderInputData_replies_witness :
  feedDecoderInputData false sample_fill_request
    sample_flushing_player
  = Done OK
      (set_effects
         (effects sample_flushing_player
          ++ [Post (setInt32 "err" (-1013) sample_reply) 0])
         sample_flushing_player).
Proof.
  assert (flushing : flushStatus false sample_flushing_player <> NONE)
    by (vm_compute; discriminate).
  rewrite (proj1 (feedDecoderInputData_replies false
                    sample_fill_request sample_flushing_player)
             sample_reply eq_refl flushing).
  reflexivity.
Defined.

Lemma openAudioSink_unchanged_offload_witness :
  openAudioSink (Some sample_audio_format) true
    sample_offload_player
  = Done tt sample_offload_player.
Proof.
  assert (same : computedOffloadInfo sample_audio_format
                   sample_offload_player
                 = Some (mCurrentOffloadInfo sample_offload_player))
    by reflexivity.
  apply (proj1 (openAudioSink_unchanged_offload
                  sample_audio_format sample_offload_player)
           true 2 eq_refl eq_refl); [|exact same].
  intros _. discriminate.
Defined.


(** ** The further properties on the sample inputs *)

#[local] Existing Instance sample_polling.

Lemma sample_decoder_kinds_distinct : decoderKindsDistinct.
Proof.
  split.
  - repeat (constructor; [ simpl; intuition discriminate | ]). constructor.
  - vm_compute. discriminate.
Qed.

Lemma sample_playing_at_rest : atRest sample_playing_player.
Proof. repeat split. Qed.

Lemma sample_idle_at_rest : atRest sample_idle_player.
Proof. repeat split. Qed.

Lemma sample_notifies audio kind more :
  notifies (sample_notification audio kind more) audio (fourcc kind)
    sample_playing_player.
Proof. destruct audio; repeat split. Qed.

Lemma reset_without_decoders_witness :
  onReset sample_idle_player = Done tt (resetDone sample_idle_player).
Proof.
  apply (@reset_without_decoders sample_platform sample_idle_player);
    [reflexivity | reflexivity | exact sample_idle_at_rest].
Defined.

Lemma reset_waits_for_decoders_witness :
  exists p1,
    onReset sample_playing_player = Done tt p1
    /\ mDeferredActions p1 = [SimpleAction performReset_fn]
    /\ mSource p1 = Some sample_source.
Proof.
  destruct (@reset_waits_for_decoders sample_platform
              sample_playing_player sample_renderer
              eq_refl eq_refl sample_playing_at_rest)
    as (p1 & H & Q & _ & _ & _ & _ & S & _).
  exists p1. auto.
Defined.

Lemma reset_round_trip_witness :
  exists p',
    (onReset ;;
     onDecoderNotify (sample_notification true "flsC" []) ;;
     onDecoderNotify (sample_notification false "flsC" []) ;;
     onDecoderNotify (sample_notification true "shDC" []) ;;
     onDecoderNotify (sample_notification false "shDC" []))
      sample_playing_player = Done tt p'
    /\ mSource p' = None /\ mAudioDecoder p' = None
    /\ mVideoDecoder p' = None.
Proof.
  destruct (@reset_round_trip sample_platform sample_playing_player
              sample_audio_decoder sample_video_decoder sample_renderer
              (sample_notification true "flsC" [])
              (sample_notification false "flsC" [])
              (sample_notification true "shDC" [])
              (sample_notification false "shDC" [])
              sample_decoder_kinds_distinct eq_refl eq_refl eq_refl
              sample_playing_at_rest
              (sample_notifies true "flsC" [])
              (sample_notifies false "flsC" [])
              (sample_notifies true "shDC" [])
              (sample_notifies false "shDC" []))
    as (p' & H & _ & Ha & Hv & Hs & _).
  exists p'. auto.
Defined.

Lemma seek_without_decoders_witness :
  onSeek sample_seek_request sample_idle_player
  = Done tt
      (set_effects
         [SourceSeekTo 5000000; DriverNotifyPosition 5000000;
          DriverNotifySeekComplete]
         (set_mTimedTextGeneration 1 sample_idle_player)).
Proof.
  rewrite (@seek_without_decoders sample_platform sample_seek_request
             sample_idle_player sample_source 5000000
             eq_refl eq_refl eq_refl eq_refl sample_idle_at_rest).
  reflexivity.
Defined.

Lemma seek_round_trip_witness :
  exists p1 p',
    onSeek sample_seek_request sample_playing_player = Done tt p1
    /\ mDeferredActions p1 = [SeekAction 5000000]
    /\ (onDecoderNotify (sample_notification true "flsC" []) ;;
        onDecoderNotify (sample_notification false "flsC" [])) p1
       = Done tt p'
    /\ mAudioDecoder p' = Some sample_audio_decoder
    /\ mVideoDecoder p' = Some sample_video_decoder.
Proof.
  destruct (@seek_round_trip sample_platform sample_seek_request
              sample_playing_player sample_audio_decoder
              sample_video_decoder sample_renderer sample_source 5000000
              (sample_notification true "flsC" [])
              (sample_notification false "flsC" [])
              sample_decoder_kinds_distinct eq_refl eq_refl eq_refl eq_refl
              eq_refl sample_playing_at_rest
              (sample_notifies true "flsC" [])
              (sample_notifies false "flsC" []))
    as (p1 & p' & H1 & _ & Q & H2 & _ & Ha & Hv & _).
  exists p1, p'. auto.
Defined.

Lemma new_surface_without_video_decoder_witness :
  exists p',
    onSetVideoNativeWindow (Some (Some sample_window)) sample_idle_player
    = Done tt p'
    /\ mNativeWindow p' = Some sample_window.
Proof.
  destruct (@new_surface_without_video_decoder sample_platform
              sample_idle_player sample_source sample_window
              eq_refl eq_refl sample_idle_at_rest)
    as (p' & H & W & _).
  exists p'. auto.
Defined.

Lemma new_surface_replaces_video_decoder_witness :
  exists p1 p',
    onSetVideoNativeWindow (Some (Some sample_window)) sample_playing_player
    = Done tt p1
    /\ mNativeWindow p1 = Some {| windowId := 1 |}
    /\ (onDecoderNotify (sample_notification false "flsC" []) ;;
        onDecoderNotify (sample_notification false "shDC" [])) p1
       = Done tt p'
    /\ mNativeWindow p' = Some sample_window
    /\ mVideoDecoder p' = None.
Proof.
  destruct (@new_surface_replaces_video_decoder sample_platform
              sample_playing_player sample_video_decoder sample_renderer
              sample_source sample_window
              (sample_notification false "flsC" [])
              (sample_notification false "shDC" [])
              sample_decoder_kinds_distinct eq_refl eq_refl eq_refl
              sample_playing_at_rest
              (sample_notifies false "flsC" [])
              (sample_notifies false "shDC" []))
    as (p1 & p' & H1 & W1 & _ & H2 & W & V & _).
  exists p1, p'. auto.
Defined.

Lemma surface_removed_witness :
  onSetVideoNativeWindow (Some None) sample_idle_player
  = Done tt
      (set_effects [DriverNotifySetSurfaceComplete]
         (set_mNativeWindow None sample_idle_player)).
Proof.
  rewrite (proj1 (@surface_removed sample_platform sample_idle_player
                    eq_refl sample_idle_at_rest)).
  reflexivity.
Defined.

Lemma unexpected_completion_aborts_witness :
  onDecoderNotify (sample_notification true "flsC" []) sample_playing_player
  = Aborted CheckFailed.
Proof.
  apply (@unexpected_completion_aborts sample_platform
           (sample_notification true "flsC" []) true (fourcc "flsC")
           sample_playing_player sample_decoder_kinds_distinct
           (sample_notifies true "flsC" [])).
  left. repeat split; discriminate.
Defined.

Lemma decoder_error_at_rest_witness :
  onDecoderNotify (sample_notification false "err " []) sample_playing_player
  = Done tt
      (set_effects [RendererQueueEOS false UNKNOWN_ERROR]
         sample_playing_player).
Proof.
  rewrite (@decoder_error_at_rest sample_platform
             (sample_notification false "err " []) false
             sample_playing_player sample_renderer
             sample_decoder_kinds_distinct
             (sample_notifies false "err " []) eq_refl
             sample_playing_at_rest).
  reflexivity.
Defined.

Lemma reset_survives_decoder_errors_witness :
  exists p',
    (onReset ;;
     onDecoderNotify
       (sample_notification true "err " [("err", ItemInt32 (-1010))]) ;;
     onDecoderNotify
       (sample_notification false "err " [("err", ItemInt32 (-1010))]))
      sample_playing_player = Done tt p'
    /\ mSource p' = None /\ mAudioDecoder p' = None
    /\ mVideoDecoder p' = None.
Proof.
  destruct (@reset_survives_decoder_errors sample_platform
              sample_playing_player sample_audio_decoder
              sample_video_decoder sample_renderer
              (sample_notification true "err " [("err", ItemInt32 (-1010))])
              (sample_notification false "err " [("err", ItemInt32 (-1010))])
              (-1010) (-1010)
              sample_decoder_kinds_distinct eq_refl eq_refl eq_refl
              sample_playing_at_rest
              (sample_notifies true "err " [("err", ItemInt32 (-1010))])
              (sample_notifies false "err " [("err", ItemInt32 (-1010))])
              eq_refl eq_refl)
    as (p' & H & _ & Ha & Hv & Hs & _).
  exists p'. auto.
Defined.

Lemma starved_decoder_retries_witness :
  onDecoderNotify sample_audio_fill_request sample_playing_player
  = Done tt
      (set_effects
         [SourceFeedMoreTSData; Post sample_audio_fill_request 10000]
         sample_playing_player).
Proof.
  rewrite (@starved_decoder_retries sample_platform
             sample_audio_fill_request sample_reply true
             sample_playing_player sample_source
             (sample_notifies true "flTB"
                [("reply", ItemMessage sample_reply)])
             eq_refl eq_refl eq_refl eq_refl).
  reflexivity.
Defined.

Lemma renderBuffer_hands_back_once_witness :
  exists reply,
    findMessage "reply" sample_drain_request = Some reply
    /\ effects (ran (renderBuffer false sample_drain_request
                       sample_late_player))
       = [RendererQueueBuffer false sample_reference_frame reply].
Proof.
  assert (run : renderBuffer false sample_drain_request sample_late_player
                = Done tt (ran (renderBuffer false sample_drain_request
                                  sample_late_player)))
    by (vm_compute; reflexivity).
  destruct (@renderBuffer_hands_back_once false sample_drain_request
              sample_late_player _ run)
    as (reply & Hr & _).
  exists reply. split; [exact Hr|].
  vm_compute in Hr. injection Hr as <-. reflexivity.
Defined.

Lemma instantiateDecoder_idempotent_witness :
  instantiateDecoder true AudioDecoderSlot
    (ran (instantiateDecoder true AudioDecoderSlot sample_idle_player))
  = Done OK
      (ran (instantiateDecoder true AudioDecoderSlot sample_idle_player)).
Proof.
  assert (run : instantiateDecoder true AudioDecoderSlot sample_idle_player
                = Done OK (ran (instantiateDecoder true AudioDecoderSlot
                                  sample_idle_player)))
    by (vm_compute; reflexivity).
  rewrite (@instantiateDecoder_idempotent sample_platform true
             sample_idle_player _ OK run).
  reflexivity.
Defined.

Lemma new_decoder_generation_witness :
  exists d,
    mAudioDecoder
      (ran (instantiateDecoder true AudioDecoderSlot sample_idle_player))
    = Some d
    /\ findInt32 "generation" (decoderNotify d) = Some 1.
Proof.
  assert (run : instantiateDecoder true AudioDecoderSlot sample_idle_player
                = Done OK (ran (instantiateDecoder true AudioDecoderSlot
                                  sample_idle_player)))
    by (vm_compute; reflexivity).
  assert (made : readSlot AudioDecoderSlot
                   (ran (instantiateDecoder true AudioDecoderSlot
                           sample_idle_player)) <> None)
    by (vm_compute; discriminate).
  destruct (@new_decoder_generation sample_platform true
              sample_idle_player _ OK eq_refl run made)
    as (d & Hd & _ & Hg & _).
  exists d. split; [exact Hd|exact Hg].
Defined.

Lemma flush_invalidates_scan_request_witness :
  exists p1,
    (postScanSources ;; flushDecoder false false None) sample_late_player
    = Done tt p1
    /\ onScanSources (scanRequest 0) p1 = Done tt p1.
Proof.
  destruct (@flush_invalidates_scan_request sample_platform
              sample_polling false false None sample_late_player
              sample_video_decoder sample_renderer
              eq_refl eq_refl eq_refl)
    as (p1 & H & _ & _ & S).
  exists p1. split; [exact H|exact S].
Defined.

Lemma scan_without_formats_witness :
  onScanSources sample_scan_request sample_bare_player
  = Done tt (set_effects [SourceFeedMoreTSData] sample_bare_player).
Proof.
  rewrite (@scan_without_formats sample_platform sample_polling
             sample_scan_request sample_bare_player
             sample_unprepared_source
             eq_refl eq_refl (fun _ => eq_refl) eq_refl eq_refl eq_refl).
  reflexivity.
Defined.

Lemma scan_creates_video_decoder_witness :
  exists p',
    onScanSources sample_scan_request sample_video_only_player = Done tt p'
    /\ mVideoDecoder p'
       = Some (videoDecoderFor (Some {| windowId := 1 |}) 1)
    /\ mScanSourcesPending p' = false.
Proof.
  destruct (@scan_creates_video_decoder sample_platform sample_polling
              sample_scan_request sample_video_format
              sample_video_only_player sample_source {| windowId := 1 |}
              "video/avc"
              eq_refl eq_refl eq_refl eq_refl eq_refl eq_refl eq_refl
              eq_refl eq_refl)
    as (p' & H & V & _ & _ & _ & P).
  exists p'. auto.
Defined.

Lemma video_size_from_crop_witness :
  updateVideoSize (Some sample_rotated_format) (Some sample_output_format)
    sample_idle_player
  = Done tt
      (set_effects [DriverNotifyListener 5 720 1280 None]
         sample_idle_player).
Proof.
  rewrite (proj1 (@video_size_from_crop sample_platform
                    sample_rotated_format sample_output_format
                    sample_idle_player 1280 736 0 0 1279 719
                    eq_refl eq_refl eq_refl eq_refl)).
  reflexivity.
Defined.

Lemma video_size_zero_sar_height_witness :
  updateVideoSize (Some sample_bad_sar_format) (Some sample_output_format)
    sample_idle_player
  = Aborted DivisionFault.
Proof.
  rewrite (@video_size_zero_sar_height sample_platform
             sample_bad_sar_format (Some sample_output_format)
             sample_idle_player 4 eq_refl eq_refl).
  reflexivity.
Defined.

Lemma software_sink_is_pcm_witness :
  exists earlier args,
    effects (ran (openAudioSink (Some sample_audio_format) false
                    sample_idle_player))
    = earlier ++ [AudioSinkClose; AudioSinkOpen args; AudioSinkStart;
                  RendererSignalAudioSinkChanged]
    /\ openFormat args = 1 /\ openOffloadInfo args = None.
Proof.
  assert (run : openAudioSink (Some sample_audio_format) false
                  sample_idle_player
                = Done tt (ran (openAudioSink (Some sample_audio_format)
                                  false sample_idle_player)))
    by (vm_compute; reflexivity).
  assert (off : mOffloadAudio
                  (ran (openAudioSink (Some sample_audio_format) false
                          sample_idle_player)) = false)
    by (vm_compute; reflexivity).
  destruct (@software_sink_is_pcm sample_platform sample_audio_format
              sample_idle_player _ run off)
    as (earlier & args & sink & E & F & I & _).
  exists earlier, args. auto.
Defined.


Lemma source_shutdown_replies_last_witness :
  exists p1 p',
    onQueueDecoderShutdown sample_shutdown_request sample_playing_player
    = Done tt p1
    /\ (onDecoderNotify (sample_notification true "flsC" []) ;;
        onDecoderNotify (sample_notification true "shDC" [])) p1
       = Done tt p'
    /\ mAudioDecoder p' = None
    /\ mVideoDecoder p' = Some sample_video_decoder.
Proof.
  assert (nonzero : 1 <> 0) by discriminate.
  destruct (@source_shutdown_replies_last sample_platform
              sample_shutdown_request sample_reply sample_playing_player
              sample_audio_decoder sample_renderer 1
              (sample_notification true "flsC" [])
              (sample_notification true "shDC" [])
              sample_decoder_kinds_distinct eq_refl nonzero eq_refl eq_refl
              eq_refl eq_refl sample_playing_at_rest
              (sample_notifies true "flsC" [])
              (sample_notifies true "shDC" []))
    as (p1 & p' & H1 & _ & H2 & _ & Ha & Hv & _).
  exists p1, p'. auto.
Defined.

Lemma frame_counters_consistent_witness :
  exists dropped total : nat,
    mNumFramesDropped
      (ran (feedDecoderInputData false sample_fill_request
              sample_late_player))
    = Nat.iter dropped incr64 0
    /\ mNumFramesTotal
         (ran (feedDecoderInputData false sample_fill_request
                 sample_late_player))
       = Nat.iter total incr64 0
    /\ (total = dropped \/ total = S dropped).
Proof.
  assert (run : feedDecoderInputData false sample_fill_request
                  sample_late_player
                = Done OK (ran (feedDecoderInputData false
                                  sample_fill_request sample_late_player)))
    by (vm_compute; reflexivity).
  destruct (@frame_counters_consistent sample_platform false
              sample_fill_request sample_late_player _ OK run)
    as (dropped & total & Hd & Ht & C & _).
  exists dropped, total. auto.
Defined.

Lemma seek_after_reset_faults_witness :
  (onReset ;; onSeek sample_seek_request) sample_idle_player
  = Aborted NullDereference.
Proof.
  apply (@seek_after_reset_faults sample_platform sample_seek_request
           sample_idle_player 5000000 eq_refl eq_refl eq_refl
           sample_idle_at_rest).
Defined.
End Samples.
